(** * ULBRA Supply MCP server: a shallow embedding of [index.js]

  The server exposes two product-search tools over a remote inventory
  backend.  The embedding follows the source function by function:

  - [getAuthToken]          the credential cache (global [authToken] / [tokenExpiry]);
  - [makeBackendRequest]    the authenticated GET;
  - [searchProducts]        literal search (vector first, then the listing endpoint);
  - [vectorSearchProducts]  semantic search;
  - [CallToolHandler]       the tool gateway (the [CallToolRequestSchema] handler).

  JavaScript values are an inductive type; the module-level variables, the
  wall clock and the list of HTTP requests sent so far form an explicit
  [World]; [async] functions are computations in a state-and-exception monad
  in which a thrown error keeps the state reached so far.  Diagnostic
  logging ([console.error]) has no effect on any value and is left out. *)

From Stdlib Require Import String List ZArith QArith Bool Lia.
From Stdlib Require Import Ascii Decimal DecimalString.
Import ListNotations.
Local Open Scope string_scope.
Local Open Scope Z_scope.

#[local] Set Warnings "-register-all".

(** ** JavaScript values *)

(** Decoded JSON bodies, tool arguments and the objects the program builds.
    Numbers are rationals (every finite double is one); an object is the list
    of its own properties in insertion order. *)
Inductive jsval : Type :=
| JUndefined
| JNull
| JBool (b : bool)
| JNum (q : Q)
| JStr (s : string)
| JArr (elems : list jsval)
| JObj (props : list (string * jsval)).

(** Thrown values: [new Error(msg)], and the engine's [TypeError]. *)
Inductive exn : Type :=
| Error (msg : string)
| TypeError (msg : string).

Definition message (e : exn) : string :=
  match e with Error m => m | TypeError m => m end.

(** A computation that may throw. *)
Definition Exc (A : Type) : Type := (exn + A)%type.

Definition ebind {A B} (x : Exc A) (k : A -> Exc B) : Exc B :=
  match x with inl e => inl e | inr a => k a end.

Declare Scope js_scope.
Delimit Scope js_scope with js.
Notation "x <~ m ;; k" := (ebind m (fun x => k))
  (at level 61, m at next level, right associativity) : js_scope.

Module Js.

Definition num_of_Z (z : Z) : jsval := JNum (inject_Z z).
Definition num_of_nat (n : nat) : jsval := num_of_Z (Z.of_nat n).

Definition is_zero (q : Q) : bool := Qnum q =? 0.
Definition is_pos (q : Q) : bool := 0 <? Qnum q.

(** ToBoolean: [undefined], [null], [false], [0] and [""] are falsy. *)
Definition truthy (v : jsval) : bool :=
  match v with
  | JUndefined | JNull => false
  | JBool b => b
  | JNum q => negb (is_zero q)
  | JStr s => negb (s =? "")%string
  | JArr _ | JObj _ => true
  end.

(** [a || b] on values already evaluated ([b] has no effect where used). *)
Definition or (a b : jsval) : jsval := if truthy a then a else b.

(** [v === 0]. *)
Definition strict_eq_zero (v : jsval) : bool :=
  match v with JNum q => is_zero q | _ => false end.

Fixpoint lookup (k : string) (ps : list (string * jsval)) : option jsval :=
  match ps with
  | [] => None
  | (k', v) :: rest => if (k =? k')%string then Some v else lookup k rest
  end.

Definition has_key (k : string) (v : jsval) : bool :=
  match v with
  | JObj ps => match lookup k ps with Some _ => true | None => false end
  | _ => false
  end.

(** [v.k] for the property names the program reads.  None of them lives on
    a prototype except [length] of strings and arrays. *)
Definition get (v : jsval) (k : string) : Exc jsval :=
  match v with
  | JUndefined =>
      inl (TypeError ("Cannot read properties of undefined (reading '" ++ k ++ "')"))
  | JNull =>
      inl (TypeError ("Cannot read properties of null (reading '" ++ k ++ "')"))
  | JObj ps => inr (match lookup k ps with Some x => x | None => JUndefined end)
  | JArr l => inr (if (k =? "length")%string then num_of_nat (List.length l) else JUndefined)
  | JStr s => inr (if (k =? "length")%string then num_of_nat (String.length s) else JUndefined)
  | JBool _ | JNum _ => inr JUndefined
  end.

(** A default in a parameter list or a destructuring pattern applies to
    [undefined] only. *)
Definition default (v d : jsval) : jsval :=
  match v with JUndefined => d | _ => v end.

Fixpoint mapM {A B : Type} (f : A -> Exc B) (l : list A) : Exc (list B) :=
  match l with
  | [] => inr []
  | x :: rest =>
      (y <~ f x ;;
       ys <~ mapM f rest ;;
       inr (y :: ys))%js
  end.

(** [v.map(f)]: only arrays have a callable [map]; decoded JSON never
    carries a function.  The engine's message also names the receiver. *)
Definition map (f : jsval -> Exc jsval) (v : jsval) : Exc jsval :=
  match v with
  | JArr l => (l' <~ mapM f l ;; inr (JArr l'))%js
  | _ => inl (TypeError "map is not a function")
  end.

End Js.

(** ** The outside world *)

(** What goes on the wire.  [GET url bearer params] carries the value
    interpolated into the [Authorization: Bearer ...] header. *)
Inductive Request : Type :=
| POST (url : string) (body : jsval)
| GET (url : string) (bearer : jsval) (params : list (string * jsval)).

(** What axios does with a request: it resolves with [response.data], or
    rejects with an error carrying a message. *)
Inductive HttpResult : Type :=
| HttpOk (data : jsval)
| HttpErr (msg : string).

(** Everything the program does not define: the configuration read at
    start-up, the backend (a deterministic function of the requests sent so
    far and the current one, giving the outcome and the milliseconds it
    took), and the engine's comparison [v > 0] for a string, array or object
    [v] ([None] when the conversion to a primitive throws). *)
Record Env : Type := {
  BACKEND_URL : string;
  ADMIN_EMAIL : string;
  ADMIN_PASSWORD : string;
  http : list Request -> Request -> HttpResult * N;
  coerced_gt_zero : jsval -> option bool
}.

(** The two module-level variables, [Date.now()] and the requests sent.
    [tokenExpiry] is only ever [null] or [Date.now() + 82800000]. *)
Record World : Type := {
  authToken : jsval;
  tokenExpiry : option Z;
  clock : Z;
  trace : list Request
}.

(** The state of a process that has just started. *)
Definition boot (t : Z) : World :=
  {| authToken := JNull; tokenExpiry := None; clock := t; trace := [] |}.

(** ** The monad of [async] functions *)

Definition M (A : Type) : Type := World -> Exc A * World.

Definition ret {A} (a : A) : M A := fun w => (inr a, w).
Definition throw {A} (e : exn) : M A := fun w => (inl e, w).
Definition bind {A B} (m : M A) (k : A -> M B) : M B :=
  fun w => match m w with
           | (inr a, w') => k a w'
           | (inl e, w') => (inl e, w')
           end.
Definition try_catch {A} (m : M A) (h : exn -> M A) : M A :=
  fun w => match m w with
           | (inr a, w') => (inr a, w')
           | (inl e, w') => h e w'
           end.
Definition lift {A} (x : Exc A) : M A := fun w => (x, w).

Notation "x <- m ;; k" := (bind m (fun x => k))
  (at level 61, m at next level, right associativity) : js_scope.
Notation "m ;;; k" := (bind m (fun _ => k))
  (at level 61, right associativity) : js_scope.
Local Open Scope js_scope.

Definition read_authToken : M jsval := fun w => (inr (authToken w), w).
Definition Date_now : M Z := fun w => (inr (clock w), w).
Definition write_authToken (v : jsval) : M unit :=
  fun w => (inr tt, {| authToken := v; tokenExpiry := tokenExpiry w;
                       clock := clock w; trace := trace w |}).
Definition write_tokenExpiry (e : option Z) : M unit :=
  fun w => (inr tt, {| authToken := authToken w; tokenExpiry := e;
                       clock := clock w; trace := trace w |}).

Section Server.

Variable env : Env.

(** The world once request [r] has been sent and answered after [dt] ms. *)
Definition answered (w : World) (r : Request) (dt : N) : World :=
  {| authToken := authToken w; tokenExpiry := tokenExpiry w;
     clock := clock w + Z.of_N dt; trace := trace w ++ [r] |}.

(** Sending a request: it is appended to the trace, time passes, and the
    backend's answer is returned or thrown. *)
Definition send (r : Request) : M jsval :=
  fun w =>
    let '(res, dt) := http env (trace w) r in
    match res with
    | HttpOk d => (inr d, answered w r dt)
    | HttpErr m => (inl (Error m), answered w r dt)
    end.

Definition login_request : Request :=
  POST (BACKEND_URL env ++ "/login")
       (JObj [("email", JStr (ADMIN_EMAIL env));
              ("password", JStr (ADMIN_PASSWORD env))]).

(** [authToken && tokenExpiry && Date.now() < tokenExpiry] *)
Definition token_still_valid (w : World) : bool :=
  Js.truthy (authToken w) &&
  match tokenExpiry w with
  | None => false
  | Some e => negb (e =? 0) && (clock w <? e)
  end.

Definition TWENTY_THREE_HOURS : Z := 23 * 60 * 60 * 1000.

Definition getAuthToken : M jsval :=
  fun w =>
    if token_still_valid w then read_authToken w
    else
      try_catch
        (data <- send login_request ;;
         token <- lift (Js.get data "token") ;;
         write_authToken token ;;;
         now <- Date_now ;;
         write_tokenExpiry (Some (now + TWENTY_THREE_HOURS)) ;;;
         read_authToken)
        (fun error => throw (Error "Failed to authenticate with backend"))
        w.

(** The header is [Bearer ${token}]; the request records the token itself.
    Putting it into the header cannot throw for the string tokens a login
    returns. *)
Definition makeBackendRequest (endpoint : string)
           (params : list (string * jsval)) : M jsval :=
  token <- getAuthToken ;;
  try_catch
    (send (GET (BACKEND_URL env ++ endpoint) token params))
    (fun error => throw (Error ("Backend request failed: " ++ message error))).

Definition VECTOR_SEARCH : string := "/api/supply/products/vector-search".
Definition PRODUCTS : string := "/api/supply/products".

(** [v > 0] *)
Definition gt_zero (v : jsval) : Exc bool :=
  match v with
  | JUndefined | JNull => inr false
  | JBool b => inr b
  | JNum q => inr (Js.is_pos q)
  | JStr _ | JArr _ | JObj _ =>
      match coerced_gt_zero env v with
      | Some b => inr b
      | None => inl (TypeError "Cannot convert object to primitive value")
      end
  end.

(** The callback of the fallback mapping (lines 97-105). *)
Definition fromListing (product : jsval) : Exc jsval :=
  code <~ Js.get product "code" ;;
  name <~ Js.get product "name" ;;
  unit <~ Js.get product "unit" ;;
  estimatedPrice <~ Js.get product "priceEstimated" ;;
  description <~ Js.get product "description" ;;
  type <~ Js.get product "type" ;;
  family <~ Js.get product "family" ;;
  inr (JObj [("code", code);
             ("name", name);
             ("unit", unit);
             ("estimatedPrice", estimatedPrice);
             ("description", description);
             ("type", type);
             ("family", family)]).

(** The callback of the final mapping (lines 114-123 and 155-164). *)
Definition normalize (product : jsval) : Exc jsval :=
  code <~ Js.get product "code" ;;
  name <~ Js.get product "name" ;;
  unit <~ Js.get product "unit" ;;
  estimatedPrice <~ Js.get product "priceEstimated" ;;
  description <~ Js.get product "description" ;;
  type <~ Js.get product "type" ;;
  family <~ Js.get product "family" ;;
  similarity <~ Js.get product "similarity" ;;
  inr (JObj [("code", code);
             ("name", name);
             ("unit", unit);
             ("estimatedPrice", estimatedPrice);
             ("description", description);
             ("type", type);
             ("family", family);
             ("similarity", Js.or similarity JNull)]).

Definition failure (error : exn) (query : jsval) : jsval :=
  JObj [("success", JBool false);
        ("error", JStr (message error));
        ("query", query);
        ("totalFound", JNum 0);
        ("products", JArr [])].

(** [!results.success || results.totalFound === 0] *)
Definition noVectorResults (results : jsval) : Exc bool :=
  success <~ Js.get results "success" ;;
  if Js.truthy success then
    totalFound <~ Js.get results "totalFound" ;;
    inr (Js.strict_eq_zero totalFound)
  else inr true.

(** [nameResults && nameResults.length > 0] *)
Definition nonEmpty (nameResults : jsval) : Exc bool :=
  if Js.truthy nameResults then
    len <~ Js.get nameResults "length" ;;
    gt_zero len
  else inr false.

(** Lines 92-107: a non-empty listing replaces [results]. *)
Definition useListing (query results nameResults : jsval) : Exc jsval :=
  found <~ nonEmpty nameResults ;;
  if found : bool then
    len <~ Js.get nameResults "length" ;;
    products <~ Js.map fromListing nameResults ;;
    inr (JObj [("success", JBool true);
               ("query", query);
               ("totalFound", len);
               ("products", products)])
  else inr results.

(** Lines 110-124: the object [searchProducts] returns. *)
Definition literalResult (query results : jsval) : Exc jsval :=
  totalFound <~ Js.get results "totalFound" ;;
  products <~ Js.get results "products" ;;
  products <~ Js.map normalize (Js.or products (JArr [])) ;;
  inr (JObj [("success", JBool true);
             ("query", query);
             ("totalFound", Js.or totalFound (JNum 0));
             ("products", products)]).

(** The [try] block of [searchProducts].  The log line that opens it puts
    [query] into a text, which cannot throw for the string queries of the
    input schema. *)
Definition searchProducts_try (query limit : jsval) : M jsval :=
  results <- makeBackendRequest VECTOR_SEARCH [("query", query); ("limit", limit)] ;;
  fallback <- lift (noVectorResults results) ;;
  results <- (if fallback : bool then
                nameResults <- makeBackendRequest PRODUCTS
                                 [("search", query); ("limit", limit)] ;;
                lift (useListing query results nameResults)
              else ret results) ;;
  lift (literalResult query results).

Definition searchProducts (query limit : jsval) : M jsval :=
  let limit := Js.default limit (JNum 10) in
  try_catch (searchProducts_try query limit)
            (fun error => ret (failure error query)).

(** Lines 150-166: the object [vectorSearchProducts] returns. *)
Definition vectorResult (query threshold results : jsval) : Exc jsval :=
  success <~ Js.get results "success" ;;
  totalFound <~ Js.get results "totalFound" ;;
  threshold' <~ Js.get results "threshold" ;;
  products <~ Js.get results "products" ;;
  products <~ Js.map normalize (Js.or products (JArr [])) ;;
  cacheInfo <~ Js.get results "cacheInfo" ;;
  inr (JObj [("success", success);
             ("query", query);
             ("totalFound", Js.or totalFound (JNum 0));
             ("threshold", Js.or threshold' threshold);
             ("products", products);
             ("cacheInfo", Js.or cacheInfo JNull)]).

(** The [try] block of [vectorSearchProducts]; its opening log line is as
    in [searchProducts]. *)
Definition vectorSearchProducts_try (query limit threshold : jsval) : M jsval :=
  results <- makeBackendRequest VECTOR_SEARCH
               [("query", query); ("limit", limit); ("threshold", threshold)] ;;
  lift (vectorResult query threshold results).

Definition vectorSearchProducts (query limit threshold : jsval) : M jsval :=
  let limit := Js.default limit (JNum 10) in
  let threshold := Js.default threshold (JNum (7 # 10)) in
  try_catch (vectorSearchProducts_try query limit threshold)
            (fun error => ret (failure error query)).

(** ** The tool gateway *)

(** One entry of [content]: [{type: 'text', text: JSON.stringify(v, null, 2)}],
    kept as the value [v] that the text serialises. *)
Inductive Content : Type :=
| Text (stringified : jsval).

(** The handler's return value; [isError] is absent on the normal path. *)
Record ToolResult : Type := {
  content : list Content;
  isError : option bool
}.

(** [const { query, limit = 10 } = args]: throws on [undefined] and [null]. *)
Definition destructure (args : jsval) (k : string) : Exc jsval :=
  match args with
  | JUndefined =>
      inl (TypeError ("Cannot destructure property '" ++ k ++ "' of 'args' as it is undefined."))
  | JNull =>
      inl (TypeError ("Cannot destructure property '" ++ k ++ "' of 'args' as it is null."))
  | _ => Js.get args k
  end.

Definition CallToolHandler (name : string) (args : jsval) : M ToolResult :=
  try_catch
    (if (name =? "products.search")%string then
       query <- lift (destructure args "query") ;;
       limit <- lift (destructure args "limit") ;;
       result <- searchProducts query (Js.default limit (JNum 10)) ;;
       ret {| content := [Text result]; isError := None |}
     else if (name =? "products.vectorSearch")%string then
       query <- lift (destructure args "query") ;;
       limit <- lift (destructure args "limit") ;;
       threshold <- lift (destructure args "threshold") ;;
       result <- vectorSearchProducts query
                   (Js.default limit (JNum 10))
                   (Js.default threshold (JNum (7 # 10))) ;;
       ret {| content := [Text result]; isError := None |}
     else throw (Error ("Unknown tool: " ++ name)))
    (fun error =>
       ret {| content := [Text (JObj [("success", JBool false);
                                       ("error", JStr (message error))])];
              isError := Some true |}).

End Server.

(** ** Vocabulary of the properties *)

(** The requests sent between world [w] and a later world [w']. *)
Definition sent (w w' : World) : list Request :=
  skipn (List.length (trace w)) (trace w').

Definition is_POST (r : Request) : bool :=
  match r with POST _ _ => true | GET _ _ _ => false end.

Definition is_GET (r : Request) : bool :=
  match r with POST _ _ => false | GET _ _ _ => true end.

Definition is_GET_to (env : Env) (endpoint : string) (r : Request) : bool :=
  match r with
  | POST _ _ => false
  | GET url _ _ => (url =? BACKEND_URL env ++ endpoint)%string
  end.

Definition count (f : Request -> bool) (l : list Request) : nat :=
  List.length (filter f l).

(** The login failures the code detects: axios rejects (transport error,
    non-2xx), or the body is one on which reading [.token] throws. *)
Definition login_fails (r : HttpResult) : Prop :=
  match r with
  | HttpErr _ => True
  | HttpOk d => d = JNull \/ d = JUndefined
  end.

(** What the [catch] block of a search function makes of its [try] block. *)
Definition settle (query : jsval) (x : Exc jsval) : jsval :=
  match x with
  | inl error => failure error query
  | inr v => v
  end.

(** The value of property [k], [undefined] when it cannot be read. *)
Definition field (v : jsval) (k : string) : jsval :=
  match Js.get v k with
  | inr x => x
  | inl _ => JUndefined
  end.

(** Every error a computation can throw carries a non-empty message. *)
Definition loud {A} (x : Exc A) : Prop :=
  forall e, x = inl e -> message e <> "".

Definition loudM {A} (m : M A) : Prop :=
  forall w e w', m w = (inl e, w') -> message e <> "".

(** The failure envelope, written out. *)
Definition envelope (msg : string) (query : jsval) : jsval :=
  JObj [("success", JBool false);
        ("error", JStr msg);
        ("query", query);
        ("totalFound", JNum 0);
        ("products", JArr [])].

(** A backend on which every request ends in a transport error. *)
Definition always_down (env : Env) : Prop :=
  forall h r, exists m dt, http env h r = (HttpErr m, dt).

(** The number of products a backend body lists: the length of the body
    itself for the listing endpoint, of its [products] for the vector-search
    endpoint. *)
Definition listed (body : jsval) : nat :=
  match body with
  | JArr l => List.length l
  | JObj _ => match field body "products" with
              | JArr l => List.length l
              | _ => 0%nat
              end
  | _ => 0%nat
  end.

(** The SearchResult contract: a boolean [success], a string [query], a
    non-negative integer [totalFound] and an array [products] ... *)
Definition is_boolean (v : jsval) : bool :=
  match v with JBool _ => true | _ => false end.

Definition is_string (v : jsval) : bool :=
  match v with JStr _ => true | _ => false end.

Definition is_array (v : jsval) : bool :=
  match v with JArr _ => true | _ => false end.

Definition is_count (v : jsval) : bool :=
  match v with
  | JNum q => (0 <=? Qnum q) && (Qnum q mod Zpos (Qden q) =? 0)
  | _ => false
  end.

Definition shaped (v : jsval) : bool :=
  is_boolean (field v "success") && is_string (field v "query")
  && is_count (field v "totalFound") && is_array (field v "products").

(** ... and, when [success] is [false], a string [error]. *)
Definition well_formed (v : jsval) : bool :=
  shaped v &&
  match field v "success" with
  | JBool false => is_string (field v "error")
  | _ => true
  end.

(** A backend body whose [totalFound] is missing, falsy or a count. *)
Definition count_typed (body : jsval) : bool :=
  negb (Js.truthy (field body "totalFound")) || is_count (field body "totalFound").

(** A backend body whose [success] is a boolean. *)
Definition success_typed (body : jsval) : bool :=
  is_boolean (field body "success").

(** Every body the vector-search endpoint returns satisfies [P]. *)
Definition vector_bodies (env : Env) (P : jsval -> bool) : Prop :=
  forall h token ps body dt,
    http env h (GET (BACKEND_URL env ++ VECTOR_SEARCH) token ps) = (HttpOk body, dt) ->
    P body = true.

(** Stub backends for concrete runs: the login, the vector-search endpoint
    and the listing endpoint each give a fixed answer.  The runs below never
    compare a string, an array or an object with [0]. *)
Module Stub.

Definition URL : string := "http://192.168.37.1:3100".

Definition backend (login vector listing : HttpResult) : Env :=
  {| BACKEND_URL := URL;
     ADMIN_EMAIL := "admin@ulbra.edu.br";
     ADMIN_PASSWORD := "123456";
     http := fun _ r =>
               match r with
               | POST _ _ => (login, 5%N)
               | GET url _ _ =>
                   if (url =? URL ++ VECTOR_SEARCH)%string
                   then (vector, 20%N) else (listing, 20%N)
               end;
     coerced_gt_zero := fun _ => Some false |}.

Definition token_ok : HttpResult := HttpOk (JObj [("token", JStr "jwt-1")]).

Definition refused : HttpResult := HttpErr "connect ECONNREFUSED".

(** [{code:12345, name:"X", unit:"UN", priceEstimated:2.5}] *)
Definition product_X : jsval :=
  JObj [("code", JNum 12345); ("name", JStr "X"); ("unit", JStr "UN");
        ("priceEstimated", JNum (5 # 2))].

Definition product_Y : jsval :=
  JObj [("code", JNum 777); ("name", JStr "Y"); ("unit", JStr "CX");
        ("priceEstimated", JNum 10); ("similarity", JNum (9 # 10))].

Definition vector_body (success totalFound : jsval) (products : list jsval) : jsval :=
  JObj [("success", success); ("totalFound", totalFound);
        ("products", JArr products)].

(** A vector-search body with a threshold and cache diagnostics. *)
Definition full_body (threshold : jsval) : jsval :=
  JObj [("success", JBool true); ("totalFound", JNum 1);
        ("threshold", threshold); ("products", JArr [product_Y]);
        ("cacheInfo", JObj [("hit", JBool true); ("size", JNum 3)])].

End Stub.

(** ** States of a running server *)

(** Time passing between two tool calls. *)
Definition idle (w : World) (dt : N) : World :=
  {| authToken := authToken w; tokenExpiry := tokenExpiry w;
     clock := clock w + Z.of_N dt; trace := trace w |}.

(** The states a server goes through: it starts with an empty cache, waits,
    and handles tool calls one after the other. *)
Inductive reachable (env : Env) : World -> Prop :=
| reach_boot (t : Z) : reachable env (boot t)
| reach_idle (w : World) (dt : N) :
    reachable env w -> reachable env (idle w dt)
| reach_call (w : World) (name : string) (args : jsval) :
    reachable env w -> reachable env (snd (CallToolHandler env name args w)).

(** The cache holds nothing at all, or a token with an expiry at most 23
    hours ahead. *)
Definition cache_consistent (w : World) : Prop :=
  (tokenExpiry w = None -> authToken w = JNull)
  /\ (forall e, tokenExpiry w = Some e -> e <= clock w + TWENTY_THREE_HOURS).

(** The only requests the server has any code for. *)
Definition known_request (env : Env) (r : Request) : Prop :=
  r = login_request env
  \/ (exists token query limit,
        r = GET (BACKEND_URL env ++ PRODUCTS) token
              [("search", query); ("limit", limit)])
  \/ (exists token query limit,
        r = GET (BACKEND_URL env ++ VECTOR_SEARCH) token
              [("query", query); ("limit", limit)])
  \/ (exists token query limit threshold,
        r = GET (BACKEND_URL env ++ VECTOR_SEARCH) token
              [("query", query); ("limit", limit); ("threshold", threshold)]).

(** ** What a returned product is made of *)

Definition keys (v : jsval) : list string :=
  match v with
  | JObj ps => List.map fst ps
  | _ => []
  end.

Definition PRODUCT_KEYS : list string :=
  ["code"; "name"; "unit"; "estimatedPrice"; "description"; "type"; "family";
   "similarity"].

(** [y] is the product the final mapping makes of the backend product [x]. *)
Definition projected (x y : jsval) : Prop :=
  y = JObj [("code", field x "code");
            ("name", field x "name");
            ("unit", field x "unit");
            ("estimatedPrice", field x "priceEstimated");
            ("description", field x "description");
            ("type", field x "type");
            ("family", field x "family");
            ("similarity", Js.or (field x "similarity") JNull)].

(** [y] is what reaches the caller of a listing product [x], which goes
    through the fallback mapping and then through the final one. *)
Definition projected_twice (x y : jsval) : Prop :=
  y = JObj [("code", field x "code");
            ("name", field x "name");
            ("unit", field x "unit");
            ("estimatedPrice", JUndefined);
            ("description", field x "description");
            ("type", field x "type");
            ("family", field x "family");
            ("similarity", JNull)].

(** Reading a property of [v] does not throw. *)
Definition readable (v : jsval) : bool :=
  match v with
  | JUndefined | JNull => false
  | _ => true
  end.

(** ** The list of tools *)

(** The value the [ListToolsRequestSchema] handler returns (lines 193-241). *)
Definition ListToolsHandler : jsval :=
  JObj [("tools", JArr [
    JObj [("name", JStr "products.search");
          ("description", JStr "Search products by literal text (regex in name or code)");
          ("inputSchema", JObj [
             ("type", JStr "object");
             ("properties", JObj [
                ("query", JObj [("type", JStr "string");
                                ("description", JStr "Search query text")]);
                ("limit", JObj [("type", JStr "number");
                                ("description", JStr "Maximum number of results (default: 10)");
                                ("default", JNum 10)])]);
             ("required", JArr [JStr "query"])])];
    JObj [("name", JStr "products.vectorSearch");
          ("description", JStr "Search products using semantic similarity with embeddings");
          ("inputSchema", JObj [
             ("type", JStr "object");
             ("properties", JObj [
                ("query", JObj [("type", JStr "string");
                                ("description", JStr "Search query text for semantic search")]);
                ("limit", JObj [("type", JStr "number");
                                ("description", JStr "Maximum number of results (default: 10)");
                                ("default", JNum 10)]);
                ("threshold", JObj [("type", JStr "number");
                                    ("description", JStr "Similarity threshold (0-1, default: 0.7)");
                                    ("default", JNum (7 # 10))])]);
             ("required", JArr [JStr "query"])])]])].

Definition listed_tools : list jsval :=
  match field ListToolsHandler "tools" with
  | JArr l => l
  | _ => []
  end.

(** The properties of a tool's input schema that declare a default. *)
Definition schema_defaults (tool : jsval) : list (string * jsval) :=
  match field (field tool "inputSchema") "properties" with
  | JObj props =>
      flat_map (fun '(p, spec) =>
                  match spec with
                  | JObj fields =>
                      match Js.lookup "default" fields with
                      | Some d => [(p, d)]
                      | None => []
                      end
                  | _ => []
                  end) props
  | _ => []
  end.

(** The output the handler gives for a name it does not know. *)
Definition unknown_tool (name : string) : ToolResult :=
  {| content := [Text (JObj [("success", JBool false);
                             ("error", JStr ("Unknown tool: " ++ name))])];
     isError := Some true |}.

(** ** The response validator of the test client *)

(** [validateResponse], of the validation script, reads the text of the first
    content entry of a tool-call response.  The response is taken at its
    [result], the handler's output; a text is known through the value it
    serialises, so [JSON.parse] of a text is [JSON.parse(JSON.stringify(v))]:
    properties holding [undefined] are gone, [undefined] array elements have
    become [null], and a text that is itself [undefined] does not parse. *)
Fixpoint reparse (v : jsval) : jsval :=
  match v with
  | JArr l =>
      JArr (List.map (fun x => match x with
                               | JUndefined => JNull
                               | _ => reparse x
                               end) l)
  | JObj ps =>
      JObj ((fix props (ps : list (string * jsval)) : list (string * jsval) :=
               match ps with
               | [] => []
               | (k, x) :: rest =>
                   match x with
                   | JUndefined => props rest
                   | _ => (k, reparse x) :: props rest
                   end
               end) ps)
  | _ => v
  end.

(** The message for a text that is [undefined] varies with the engine. *)
Definition JSON_parse (stringified : jsval) : Exc jsval :=
  match stringified with
  | JUndefined => inl (Error "Unexpected token u in JSON at position 0")
  | _ => inr (reparse stringified)
  end.

Definition typeof (v : jsval) : string :=
  match v with
  | JUndefined => "undefined"
  | JBool _ => "boolean"
  | JNum _ => "number"
  | JStr _ => "string"
  | JNull | JArr _ | JObj _ => "object"
  end.

Definition quote : string := String "034"%char EmptyString.

(** ['Missing or invalid "<name>" field'] *)
Definition invalid_field (name : string) : string :=
  "Missing or invalid " ++ quote ++ name ++ quote ++ " field".

(** ['Missing or invalid "products" array'] *)
Definition invalid_products : string :=
  "Missing or invalid " ++ quote ++ "products" ++ quote ++ " array".

(** [if (c) errors.push(x)] *)
Definition push_if (c : bool) (x : string) (errors : list string) : list string :=
  if c then errors ++ [x] else errors.

Definition string_of_index (index : nat) : string :=
  NilZero.string_of_uint (Nat.to_uint index).

(** The callback of [result.products.forEach] (lines 37-59). *)
Definition checkProduct (product : jsval) (index : nat) (errors : list string)
  : Exc (list string) :=
  let productErrors := [] in
  code <~ Js.get product "code" ;;
  let productErrors :=
    push_if (negb (typeof code =? "number")%string) (invalid_field "code")
            productErrors in
  name <~ Js.get product "name" ;;
  let productErrors :=
    push_if (negb (typeof name =? "string")%string) (invalid_field "name")
            productErrors in
  unit <~ Js.get product "unit" ;;
  let productErrors :=
    push_if (negb (typeof unit =? "string")%string) (invalid_field "unit")
            productErrors in
  estimatedPrice <~ Js.get product "estimatedPrice" ;;
  let productErrors :=
    push_if (negb (typeof estimatedPrice =? "number")%string)
            (invalid_field "estimatedPrice") productErrors in
  inr (push_if (0 <? List.length productErrors)%nat
               ("Product " ++ string_of_index index ++ ": "
                ++ String.concat ", " productErrors)
               errors).

Fixpoint forEach_from (index : nat) (l : list jsval) (errors : list string)
  : Exc (list string) :=
  match l with
  | [] => inr errors
  | product :: rest =>
      (errors <~ checkProduct product index errors ;;
       forEach_from (S index) rest errors)%js
  end.

(** [products.forEach(...)]: only an array has a [forEach]. *)
Definition forEach (products : jsval) (errors : list string) : Exc (list string) :=
  match products with
  | JArr l => forEach_from 0 l errors
  | JUndefined =>
      inl (TypeError "Cannot read properties of undefined (reading 'forEach')")
  | JNull =>
      inl (TypeError "Cannot read properties of null (reading 'forEach')")
  | _ => inl (TypeError "result.products.forEach is not a function")
  end.

(** [response.result.content[0].text] *)
Definition first_text (response : ToolResult) : Exc jsval :=
  match content response with
  | [] => inl (TypeError "Cannot read properties of undefined (reading 'text')")
  | Text stringified :: _ => inr stringified
  end.

Record Validation : Type := {
  valid : bool;
  errors : list string;
  data : jsval
}.

(** The [try] block of [validateResponse]: the errors found and the parsed
    result. *)
Definition validateResponse_try (response : ToolResult)
  : Exc (list string * jsval) :=
  let errors := [] in
  text <~ first_text response ;;
  result <~ JSON_parse text ;;
  success <~ Js.get result "success" ;;
  let errors := push_if (negb (Js.truthy success)) (invalid_field "success") errors in
  query <~ Js.get result "query" ;;
  let errors :=
    push_if (negb (typeof query =? "string")%string) (invalid_field "query") errors in
  totalFound <~ Js.get result "totalFound" ;;
  let errors :=
    push_if (negb (typeof totalFound =? "number")%string)
            (invalid_field "totalFound") errors in
  products <~ Js.get result "products" ;;
  let errors := push_if (negb (is_array products)) invalid_products errors in
  errors <~ forEach products errors ;;
  inr (errors, result).

Definition validateResponse (response : ToolResult) : Validation :=
  match validateResponse_try response with
  | inr (errors, result) =>
      {| valid := (List.length errors =? 0)%nat; errors := errors; data := result |}
  | inl error =>
      {| valid := false;
         errors := ["JSON parse error: " ++ message error];
         data := JNull |}
  end.

(** What the validator asks of a product, and of a parsed result. *)
Definition product_ok (product : jsval) : bool :=
  readable product
  && (typeof (field product "code") =? "number")%string
  && (typeof (field product "name") =? "string")%string
  && (typeof (field product "unit") =? "string")%string
  && (typeof (field product "estimatedPrice") =? "number")%string.

Definition result_ok (result : jsval) : bool :=
  Js.truthy (field result "success")
  && (typeof (field result "query") =? "string")%string
  && (typeof (field result "totalFound") =? "number")%string
  && match field result "products" with
     | JArr l => forallb product_ok l
     | _ => false
     end.

(** ** The credential cache *)

Lemma getAuthToken_eq (env : Env) (w : World) :
  getAuthToken env w =
  if token_still_valid w then (inr (authToken w), w)
  else
    let '(res, dt) := http env (trace w) (login_request env) in
    let w1 := answered w (login_request env) dt in
    match res with
    | HttpErr _ => (inl (Error "Failed to authenticate with backend"), w1)
    | HttpOk d =>
        match Js.get d "token" with
        | inl _ => (inl (Error "Failed to authenticate with backend"), w1)
        | inr tok =>
            (inr tok,
             {| authToken := tok;
                tokenExpiry := Some (clock w1 + TWENTY_THREE_HOURS);
                clock := clock w1; trace := trace w1 |})
        end
    end.
Proof.
  unfold getAuthToken.
  destruct (token_still_valid w); [reflexivity|].
  unfold try_catch, bind, send.
  destruct (http env (trace w) (login_request env)) as [[d|m] dt]; cbn.
  - unfold lift. destruct (Js.get d "token"); reflexivity.
  - reflexivity.
Qed.

Lemma sent_app (w w' : World) (l : list Request) :
  trace w' = (trace w ++ l)%list -> sent w w' = l.
Proof.
  intros H. unfold sent. rewrite H.
  rewrite skipn_app, skipn_all, Nat.sub_diag. reflexivity.
Qed.

Lemma token_still_valid_spec (w : World) (e : Z) :
  Js.truthy (authToken w) = true ->
  tokenExpiry w = Some e ->
  0 <= clock w ->
  token_still_valid w = (clock w <? e).
Proof.
  intros Ht He Hc. unfold token_still_valid. rewrite Ht, He. cbn.
  destruct (Z.ltb_spec (clock w) e) as [Hlt|Hge].
  - destruct (Z.eqb_spec e 0); [lia|reflexivity].
  - now rewrite andb_false_r.
Qed.

Lemma getAuthToken_hit (env : Env) (w : World) :
  token_still_valid w = true ->
  getAuthToken env w = (inr (authToken w), w).
Proof. intros H. rewrite getAuthToken_eq, H. reflexivity. Qed.

(** Whatever happens, [getAuthToken] sends nothing or exactly the login
    request, and never moves the clock backwards. *)
Lemma getAuthToken_footprint (env : Env) (w : World) :
  let w' := snd (getAuthToken env w) in
  (trace w' = trace w \/ trace w' = (trace w ++ [login_request env])%list)
  /\ clock w <= clock w'.
Proof.
  rewrite getAuthToken_eq.
  destruct (token_still_valid w); cbn; [split; [now left|lia]|].
  destruct (http env (trace w) (login_request env)) as [[d|m] dt]; cbn.
  - destruct (Js.get d "token"); cbn; split; try (now right); lia.
  - split; [now right|lia].
Qed.

(** A served token is never expired: after a normal return the stored
    expiry lies strictly in the future. *)
Lemma getAuthToken_fresh (env : Env) (w w' : World) (tok : jsval) :
  getAuthToken env w = (inr tok, w') ->
  authToken w' = tok /\ exists e, tokenExpiry w' = Some e /\ clock w' < e.
Proof.
  rewrite getAuthToken_eq.
  destruct (token_still_valid w) eqn:Hv.
  - intros [= <- <-]. split; [reflexivity|].
    unfold token_still_valid in Hv.
    apply andb_prop in Hv as [_ Hv].
    destruct (tokenExpiry w) as [e|]; [|discriminate].
    apply andb_prop in Hv as [_ Hv]. exists e. split; [reflexivity|].
    now apply Z.ltb_lt.
  - destruct (http env (trace w) (login_request env)) as [[d|m] dt]; cbn.
    + destruct (Js.get d "token"); [discriminate|].
      intros [= <- <-]. cbn. split; [reflexivity|].
      eexists; split; [reflexivity|]. unfold TWENTY_THREE_HOURS. lia.
    + discriminate.
Qed.

Lemma makeBackendRequest_eq (env : Env) (endpoint : string)
      (params : list (string * jsval)) (w : World) :
  makeBackendRequest env endpoint params w =
  match getAuthToken env w with
  | (inl e, w1) => (inl e, w1)
  | (inr token, w1) =>
      let r := GET (BACKEND_URL env ++ endpoint) token params in
      let '(res, dt) := http env (trace w1) r in
      match res with
      | HttpOk d => (inr d, answered w1 r dt)
      | HttpErr m =>
          (inl (Error ("Backend request failed: " ++ m)), answered w1 r dt)
      end
  end.
Proof.
  unfold makeBackendRequest, bind.
  destruct (getAuthToken env w) as [[e|token] w1]; [reflexivity|].
  unfold try_catch, send.
  destruct (http env (trace w1) _) as [[d|m] dt]; reflexivity.
Qed.

Lemma answered_valid (w : World) (r : Request) (dt : N) (e : Z) :
  Js.truthy (authToken w) = true ->
  tokenExpiry w = Some e ->
  0 < e ->
  clock (answered w r dt) < e ->
  token_still_valid (answered w r dt) = true.
Proof.
  intros Ht He Hpos Hlt. unfold token_still_valid. cbn.
  rewrite Ht, He. cbn.
  apply andb_true_intro. split.
  - apply negb_true_iff, Z.eqb_neq. lia.
  - apply Z.ltb_lt. exact Hlt.
Qed.

(** C4.  The credential cache.  With the epoch clock non-negative:
    (hit) when a token is cached and [now < expiresAt], [getAuthToken]
    returns it and leaves the world, hence the list of requests, untouched;
    (miss) otherwise, that is when no token is cached, no expiry is set or
    [expiresAt <= now], and the login answers with a token, exactly the
    login request is sent, the token is stored with expiry
    [Date.now() + 23h] (the clock read once the answer is in) and returned;
    (reuse) two backend-client calls in a row, the second one made before the
    expiry, send exactly one login request;
    (fresh) whenever a token is returned, the stored expiry is in the future. *)
Theorem C4_credential_cache (env : Env) (w : World) (Hclock : 0 <= clock w) :
  (forall e, Js.truthy (authToken w) = true -> tokenExpiry w = Some e ->
             clock w < e ->
             getAuthToken env w = (inr (authToken w), w))
  /\ (Js.truthy (authToken w) = false \/ tokenExpiry w = None \/
      (exists e, tokenExpiry w = Some e /\ e <= clock w) ->
      token_still_valid w = false)
  /\ (forall data dt token,
         token_still_valid w = false ->
         http env (trace w) (login_request env) = (HttpOk data, dt) ->
         Js.get data "token" = inr token ->
         getAuthToken env w =
         (inr token,
          {| authToken := token;
             tokenExpiry := Some (clock w + Z.of_N dt + 23 * 60 * 60 * 1000);
             clock := clock w + Z.of_N dt;
             trace := trace w ++ [login_request env] |}))
  /\ (forall data dt token ep1 ps1 ep2 ps2,
         token_still_valid w = false ->
         http env (trace w) (login_request env) = (HttpOk data, dt) ->
         Js.get data "token" = inr token ->
         Js.truthy token = true ->
         let w1 := snd (makeBackendRequest env ep1 ps1 w) in
         let w2 := snd (makeBackendRequest env ep2 ps2 w1) in
         clock w1 < clock w + Z.of_N dt + 23 * 60 * 60 * 1000 ->
         count is_POST (sent w w2) = 1%nat)
  /\ (forall token w',
         getAuthToken env w = (inr token, w') ->
         authToken w' = token /\
         exists e, tokenExpiry w' = Some e /\ clock w' < e).
Proof.
  split; [|split; [|split; [|split]]].
  - intros e Ht He Hlt. apply getAuthToken_hit.
    rewrite (token_still_valid_spec w e Ht He Hclock). now apply Z.ltb_lt.
  - unfold token_still_valid. intros [Ht|[He|(e & He & Hle)]].
    + now rewrite Ht.
    + rewrite He. apply andb_false_r.
    + rewrite He. apply andb_false_iff. right.
      apply andb_false_iff. right. now apply Z.ltb_ge.
  - intros data dt token Hv Hlogin Htok.
    rewrite getAuthToken_eq, Hv, Hlogin. cbn. rewrite Htok. reflexivity.
  - intros data dt token ep1 ps1 ep2 ps2 Hv Hlogin Htok Htruthy.
    rewrite (makeBackendRequest_eq env ep1), getAuthToken_eq, Hv, Hlogin.
    cbn. rewrite Htok.
    set (wl := {| authToken := token; tokenExpiry := _; clock := _; trace := _ |}).
    set (g1 := GET (BACKEND_URL env ++ ep1) token ps1).
    assert (Hw1 : forall d1,
               clock (answered wl g1 d1) < clock w + Z.of_N dt + 23 * 60 * 60 * 1000 ->
               count is_POST
                 (sent w (snd (makeBackendRequest env ep2 ps2 (answered wl g1 d1)))) = 1%nat).
    { intros d1 Hlt.
      rewrite makeBackendRequest_eq, getAuthToken_hit.
      2:{ apply answered_valid with (e := clock w + Z.of_N dt + 23 * 60 * 60 * 1000);
          [exact Htruthy|reflexivity|lia|exact Hlt]. }
      cbn zeta. change (authToken (answered wl g1 d1)) with token.
      set (g2 := GET (BACKEND_URL env ++ ep2) token ps2).
      assert (Hs : forall d2,
                 sent w (answered (answered wl g1 d1) g2 d2)
                 = [login_request env; g1; g2]).
      { intros d2. apply sent_app. cbn. now rewrite <- !app_assoc. }
      destruct (http env (trace (answered wl g1 d1)) g2) as [[d|m] d2]; cbn [snd];
        rewrite Hs; reflexivity. }
    destruct (http env (trace wl) g1) as [[d|m] d1]; cbn [snd]; apply Hw1.
  - intros token w' H. exact (getAuthToken_fresh env w w' token H).
Qed.

Lemma token_still_valid_later (w w2 : World) :
  token_still_valid w = false ->
  authToken w2 = authToken w ->
  tokenExpiry w2 = tokenExpiry w ->
  clock w <= clock w2 ->
  token_still_valid w2 = false.
Proof.
  unfold token_still_valid. intros Hv -> -> Hle.
  destruct (Js.truthy (authToken w)); [|reflexivity].
  destruct (tokenExpiry w) as [e|]; [|reflexivity].
  cbn in *. destruct (e =? 0); [reflexivity|]. cbn in *.
  apply Z.ltb_ge. apply Z.ltb_ge in Hv. lia.
Qed.

Lemma getAuthToken_miss_sent (env : Env) (w : World) :
  token_still_valid w = false ->
  sent w (snd (getAuthToken env w)) = [login_request env].
Proof.
  intros Hv. apply sent_app. rewrite getAuthToken_eq, Hv.
  destruct (http env (trace w) (login_request env)) as [[d|m] dt]; cbn.
  - destruct (Js.get d "token"); reflexivity.
  - reflexivity.
Qed.

(** C8 (as the code has it).  When no valid token is cached,
    [getAuthToken] sends the login request exactly once, whatever the
    answer (it does not loop).  If the request is rejected (transport
    error, non-2xx) or its body is [null], it throws "Failed to authenticate
    with backend" and leaves [authToken] and [tokenExpiry] as they were, so
    any later call made with that cache sends the login request again.  An
    accepted answer whose body has no [token], or a falsy one, is not
    detected: nothing is thrown, that value is stored with a new expiry and
    returned; being falsy it is never taken for a cached token, so a later
    call sends the login request again all the same. *)
Theorem C8_login_failure (env : Env) (w : World)
        (Hmiss : token_still_valid w = false) :
  let w' := snd (getAuthToken env w) in
  sent w w' = [login_request env]
  /\ (login_fails (fst (http env (trace w) (login_request env))) ->
      fst (getAuthToken env w) = inl (Error "Failed to authenticate with backend")
      /\ authToken w' = authToken w
      /\ tokenExpiry w' = tokenExpiry w
      /\ forall w2, authToken w2 = authToken w' ->
                    tokenExpiry w2 = tokenExpiry w' ->
                    clock w' <= clock w2 ->
                    sent w2 (snd (getAuthToken env w2)) = [login_request env])
  /\ (forall data dt token,
         http env (trace w) (login_request env) = (HttpOk data, dt) ->
         Js.get data "token" = inr token ->
         Js.truthy token = false ->
         fst (getAuthToken env w) = inr token
         /\ authToken w' = token
         /\ tokenExpiry w' = Some (clock w + Z.of_N dt + 23 * 60 * 60 * 1000)
         /\ forall w2, authToken w2 = authToken w' ->
                       sent w2 (snd (getAuthToken env w2)) = [login_request env]).
Proof.
  intros w'.
  assert (Hle : clock w <= clock w') by apply getAuthToken_footprint.
  split; [now apply getAuthToken_miss_sent|]. split.
  - intros Hfail.
    assert (H : fst (getAuthToken env w)
                = inl (Error "Failed to authenticate with backend")
                /\ authToken w' = authToken w /\ tokenExpiry w' = tokenExpiry w).
    { subst w'. rewrite getAuthToken_eq, Hmiss.
      destruct (http env (trace w) (login_request env)) as [[d|m] dt]; cbn in *.
      - destruct Hfail as [-> | ->]; cbn; auto.
      - auto. }
    destruct H as (Hr & Ha & He).
    repeat split; try assumption.
    intros w2 Ha2 He2 Hc2. apply getAuthToken_miss_sent.
    apply (token_still_valid_later w w2 Hmiss); [congruence|congruence|lia].
  - intros data dt token Hlogin Htok Hfalsy.
    assert (H : fst (getAuthToken env w) = inr token
                /\ authToken w' = token
                /\ tokenExpiry w'
                   = Some (clock w + Z.of_N dt + 23 * 60 * 60 * 1000)).
    { subst w'. rewrite getAuthToken_eq, Hmiss, Hlogin. cbn. rewrite Htok.
      cbn. auto. }
    destruct H as (Hr & Ha & He).
    repeat split; try assumption.
    intros w2 Ha2. apply getAuthToken_miss_sent.
    unfold token_still_valid. now rewrite Ha2, Ha, Hfalsy.
Qed.

(** ** The backend client *)

Lemma prefix_eqb (p a b : string) : (p ++ a =? p ++ b)%string = (a =? b)%string.
Proof.
  induction p as [|c p IH]; cbn; [reflexivity|].
  now rewrite Ascii.eqb_refl.
Qed.

Lemma count_gets (f : Request -> bool) (l : list Request) :
  (forall r, f r = true -> is_GET r = true) ->
  count f l = count f (filter is_GET l).
Proof.
  intros Hf. unfold count. f_equal.
  induction l as [|r l IH]; cbn; [reflexivity|].
  destruct (f r) eqn:Hr.
  - rewrite (Hf r Hr). cbn. rewrite Hr. now f_equal.
  - destruct (is_GET r); cbn; [rewrite Hr|]; exact IH.
Qed.

Lemma is_GET_to_is_GET (env : Env) (ep : string) (r : Request) :
  is_GET_to env ep r = true -> is_GET r = true.
Proof.
  now destruct r.
Qed.

(** The requests of one backend-client call: at most the login request,
    then the GET itself if and only if a token was obtained. *)
Lemma makeBackendRequest_sent (env : Env) (ep : string)
      (ps : list (string * jsval)) (w : World) :
  exists l,
    trace (snd (makeBackendRequest env ep ps w)) = (trace w ++ l)%list
    /\ filter is_GET l =
       match fst (getAuthToken env w) with
       | inr token => [GET (BACKEND_URL env ++ ep) token ps]
       | inl _ => []
       end
    /\ (count is_POST l <= 1)%nat.
Proof.
  rewrite makeBackendRequest_eq.
  destruct (getAuthToken_footprint env w) as [Htr _].
  destruct (getAuthToken env w) as [[e|token] w1]; cbn [fst snd] in *.
  - destruct Htr as [-> | ->].
    + exists []. rewrite app_nil_r. cbn. auto.
    + exists [login_request env]. cbn. auto.
  - cbn zeta.
    set (g := GET (BACKEND_URL env ++ ep) token ps).
    assert (H : exists l, trace (answered w1 g 0) = (trace w ++ l)%list
                          /\ filter is_GET l = [g] /\ (count is_POST l <= 1)%nat).
    { cbn. destruct Htr as [-> | ->].
      - exists [g]. cbn. auto.
      - exists [login_request env; g]. rewrite <- app_assoc. cbn. auto. }
    destruct (http env (trace w1) g) as [[d|m] dt]; exact H.
Qed.

Lemma makeBackendRequest_ok_token (env : Env) (ep : string)
      (ps : list (string * jsval)) (w w1 : World) (d : jsval) :
  makeBackendRequest env ep ps w = (inr d, w1) ->
  exists token, fst (getAuthToken env w) = inr token.
Proof.
  rewrite makeBackendRequest_eq.
  destruct (getAuthToken env w) as [[e|token] w0]; [discriminate|].
  intros _. now exists token.
Qed.

(** Every error the backend client throws carries a non-empty message. *)
Lemma makeBackendRequest_message (env : Env) (ep : string)
      (ps : list (string * jsval)) (w w1 : World) (e : exn) :
  makeBackendRequest env ep ps w = (inl e, w1) -> message e <> "".
Proof.
  rewrite makeBackendRequest_eq, getAuthToken_eq.
  destruct (token_still_valid w).
  - cbn zeta. destruct (http env _ _) as [[d|m] dt]; [discriminate|].
    intros [= <- _]. discriminate.
  - destruct (http env (trace w) (login_request env)) as [[d|m] dt]; cbn zeta.
    + destruct (Js.get d "token").
      * intros [= <- _]; discriminate.
      * destruct (http env _ _) as [[d'|m'] dt']; [discriminate|].
        intros [= <- _]. discriminate.
    + intros [= <- _]; discriminate.
Qed.

(** ** The search operations, case by case *)

Lemma searchProducts_eq (env : Env) (query limit : jsval) (w : World) :
  searchProducts env query limit w =
  let lim := Js.default limit (JNum 10) in
  match makeBackendRequest env VECTOR_SEARCH
          [("query", query); ("limit", lim)] w with
  | (inl e, w1) => (inr (failure e query), w1)
  | (inr results, w1) =>
      match noVectorResults results with
      | inl e => (inr (failure e query), w1)
      | inr false => (inr (settle query (literalResult query results)), w1)
      | inr true =>
          match makeBackendRequest env PRODUCTS
                  [("search", query); ("limit", lim)] w1 with
          | (inl e, w2) => (inr (failure e query), w2)
          | (inr nameResults, w2) =>
              (inr (settle query
                      (results' <~ useListing env query results nameResults ;;
                       literalResult query results')), w2)
          end
      end
  end.
Proof.
  unfold searchProducts, searchProducts_try, try_catch, bind, lift, ret.
  cbn zeta.
  destruct (makeBackendRequest env VECTOR_SEARCH _ w) as [[e|results] w1];
    [reflexivity|].
  destruct (noVectorResults results) as [e|[|]]; [reflexivity| |].
  - destruct (makeBackendRequest env PRODUCTS _ w1) as [[e|nameResults] w2];
      [reflexivity|].
    destruct (useListing env query results nameResults) as [e|r']; cbn;
      [reflexivity|].
    destruct (literalResult query r'); reflexivity.
  - destruct (literalResult query results); reflexivity.
Qed.

Lemma vectorSearchProducts_eq (env : Env) (query limit threshold : jsval)
      (w : World) :
  vectorSearchProducts env query limit threshold w =
  let lim := Js.default limit (JNum 10) in
  let thr := Js.default threshold (JNum (7 # 10)) in
  match makeBackendRequest env VECTOR_SEARCH
          [("query", query); ("limit", lim); ("threshold", thr)] w with
  | (inl e, w1) => (inr (failure e query), w1)
  | (inr results, w1) => (inr (settle query (vectorResult query thr results)), w1)
  end.
Proof.
  unfold vectorSearchProducts, vectorSearchProducts_try, try_catch, bind, lift, ret.
  cbn zeta.
  destruct (makeBackendRequest env VECTOR_SEARCH _ w) as [[e|results] w1];
    [reflexivity|].
  destruct (vectorResult query _ results); reflexivity.
Qed.

(** The GET requests of one literal search, in order. *)
Lemma searchProducts_gets (env : Env) (query limit : jsval) (w : World) :
  let lim := Js.default limit (JNum 10) in
  let ps1 := [("query", query); ("limit", lim)] in
  let ps2 := [("search", query); ("limit", lim)] in
  filter is_GET (sent w (snd (searchProducts env query limit w))) =
  (match fst (getAuthToken env w) with
   | inr token => [GET (BACKEND_URL env ++ VECTOR_SEARCH) token ps1]
   | inl _ => []
   end ++
   match makeBackendRequest env VECTOR_SEARCH ps1 w with
   | (inr results, w1) =>
       match noVectorResults results with
       | inr true =>
           match fst (getAuthToken env w1) with
           | inr token => [GET (BACKEND_URL env ++ PRODUCTS) token ps2]
           | inl _ => []
           end
       | _ => []
       end
   | (inl _, _) => []
   end)%list.
Proof.
  intros lim ps1 ps2. rewrite searchProducts_eq. cbn zeta.
  change (Js.default limit (JNum 10)) with lim.
  change [("query", query); ("limit", lim)] with ps1.
  change [("search", query); ("limit", lim)] with ps2.
  destruct (makeBackendRequest_sent env VECTOR_SEARCH ps1 w) as (l1 & Ht1 & Hg1 & _).
  destruct (makeBackendRequest env VECTOR_SEARCH ps1 w) as [[e|results] w1];
    cbn [snd] in Ht1.
  { cbn [snd]. now rewrite (sent_app _ _ _ Ht1), Hg1, app_nil_r. }
  destruct (noVectorResults results) as [e|[|]];
    try (cbn [snd]; now rewrite (sent_app _ _ _ Ht1), Hg1, app_nil_r).
  destruct (makeBackendRequest_sent env PRODUCTS ps2 w1) as (l2 & Ht2 & Hg2 & _).
  assert (Hs : sent w (snd (makeBackendRequest env PRODUCTS ps2 w1))
               = (l1 ++ l2)%list).
  { apply sent_app. rewrite Ht2, Ht1. now rewrite app_assoc. }
  destruct (makeBackendRequest env PRODUCTS ps2 w1) as [[e|nameResults] w2];
    cbn [snd] in *; rewrite Hs, filter_app, Hg1, Hg2; reflexivity.
Qed.

Ltac count_cases :=
  unfold count; cbn; rewrite ?prefix_eqb; cbn;
  repeat split; intros;
  repeat match goal with
         | H : exists _, _ |- _ => destruct H
         | H : _ /\ _ |- _ => destruct H
         end;
  repeat match goal with
         | H : inr _ = inr _ |- _ => injection H as <-
         end;
  try lia; try congruence; eauto.

(** C1 (as the code has it).  One literal search sends the vector-search GET
    at most once, and exactly once when a token is obtained; it sends the
    listing GET at most once, and does so exactly when the vector-search
    request returned a body whose [success] is falsy or whose [totalFound]
    is [0] and a token is still at hand; in particular a vector-search
    request that fails is followed by no listing request.  At most two GET
    requests are sent in all. *)
Theorem C1_upstream_calls (env : Env) (query limit : jsval) (w : World) :
  let lim := Js.default limit (JNum 10) in
  let first := makeBackendRequest env VECTOR_SEARCH
                 [("query", query); ("limit", lim)] w in
  let calls := sent w (snd (searchProducts env query limit w)) in
  (count (is_GET_to env VECTOR_SEARCH) calls = 1%nat <->
   exists token, fst (getAuthToken env w) = inr token)
  /\ (count (is_GET_to env VECTOR_SEARCH) calls <= 1)%nat
  /\ (count (is_GET_to env PRODUCTS) calls = 1%nat <->
      exists results,
        fst first = inr results
        /\ noVectorResults results = inr true
        /\ exists token, fst (getAuthToken env (snd first)) = inr token)
  /\ (count (is_GET_to env PRODUCTS) calls <= 1)%nat
  /\ (forall e, fst first = inl e -> count (is_GET_to env PRODUCTS) calls = 0%nat)
  /\ (count is_GET calls <= 2)%nat.
Proof.
  intros lim first calls.
  assert (HV : count (is_GET_to env VECTOR_SEARCH) calls
               = count (is_GET_to env VECTOR_SEARCH) (filter is_GET calls))
    by (apply count_gets, is_GET_to_is_GET).
  assert (HP : count (is_GET_to env PRODUCTS) calls
               = count (is_GET_to env PRODUCTS) (filter is_GET calls))
    by (apply count_gets, is_GET_to_is_GET).
  assert (HG : count is_GET calls = List.length (filter is_GET calls))
    by reflexivity.
  rewrite HV, HP, HG. clear HV HP HG.
  subst calls. rewrite searchProducts_gets. fold lim. fold first.
  destruct first as [[e|results] w1] eqn:Hfirst; cbn [fst snd].
  - destruct (fst (getAuthToken env w)) as [e'|token]; count_cases.
  - destruct (makeBackendRequest_ok_token _ _ _ _ _ _ Hfirst) as [token Htok].
    rewrite Htok.
    destruct (noVectorResults results) as [e|[|]] eqn:Hnv;
      [count_cases| |count_cases].
    destruct (fst (getAuthToken env w1)) as [e'|token'] eqn:Htok'; count_cases.
Qed.

(** C1, the claim as worded fails: when the vector-search request itself
    fails (connection refused), no listing request follows; the search
    ends with the failure envelope after a single GET. *)
Lemma C1_counterexample :
  let env := Stub.backend Stub.token_ok Stub.refused (HttpOk (JArr [Stub.product_X])) in
  let w := boot 1000 in
  let query := JStr "seringa 5ml" in
  fst (makeBackendRequest env VECTOR_SEARCH
         [("query", query); ("limit", JNum 5)] w)
  = inl (Error "Backend request failed: connect ECONNREFUSED")
  /\ count (is_GET_to env PRODUCTS)
       (sent w (snd (searchProducts env query (JNum 5) w))) = 0%nat
  /\ count is_GET (sent w (snd (searchProducts env query (JNum 5) w))) = 1%nat
  /\ fst (searchProducts env query (JNum 5) w)
     = inr (envelope "Backend request failed: connect ECONNREFUSED" query).
Proof. vm_compute. repeat split. Qed.

(** ** Thrown errors are never silent *)

Lemma loud_inr {A} (a : A) : loud (inr a).
Proof. intros e H; discriminate. Qed.

Lemma loud_ebind {A B} (x : Exc A) (k : A -> Exc B) :
  loud x -> (forall a, loud (k a)) -> loud (ebind x k).
Proof.
  intros Hx Hk e. destruct x as [e'|a]; cbn.
  - intros [= ->]. now apply Hx.
  - apply Hk.
Qed.

Lemma loud_get (v : jsval) (k : string) : loud (Js.get v k).
Proof. intros e. destruct v; cbn; intros [= <-]; discriminate. Qed.

Lemma loud_mapM {A B} (f : A -> Exc B) (l : list A) :
  (forall x, loud (f x)) -> loud (Js.mapM f l).
Proof.
  intros Hf. induction l as [|x l IH]; cbn.
  - apply loud_inr.
  - apply loud_ebind; [apply Hf|]. intros y.
    apply loud_ebind; [exact IH|]. intros ys. apply loud_inr.
Qed.

Lemma loud_map (f : jsval -> Exc jsval) (v : jsval) :
  (forall x, loud (f x)) -> loud (Js.map f v).
Proof.
  intros Hf. destruct v; cbn; try (intros e [= <-]; discriminate).
  apply loud_ebind; [now apply loud_mapM|]. intros; apply loud_inr.
Qed.

Lemma loud_gt_zero (env : Env) (v : jsval) : loud (gt_zero env v).
Proof.
  intros e. destruct v; cbn; try discriminate;
    destruct (coerced_gt_zero env _); try discriminate;
    intros [= <-]; discriminate.
Qed.

Ltac loud_steps :=
  repeat first
    [ apply loud_inr
    | apply loud_get
    | apply loud_gt_zero
    | apply loud_ebind; [|intros ?]
    | match goal with |- loud (if ?b then _ else _) => destruct b end ].

Lemma loud_fromListing (product : jsval) : loud (fromListing product).
Proof. unfold fromListing. loud_steps. Qed.

Lemma loud_normalize (product : jsval) : loud (normalize product).
Proof. unfold normalize. loud_steps. Qed.

Lemma loud_noVectorResults (results : jsval) : loud (noVectorResults results).
Proof. unfold noVectorResults. loud_steps. Qed.

Lemma loud_useListing (env : Env) (query results nameResults : jsval) :
  loud (useListing env query results nameResults).
Proof.
  unfold useListing, nonEmpty. loud_steps.
  apply loud_map, loud_fromListing.
Qed.

Lemma loud_literalResult (query results : jsval) :
  loud (literalResult query results).
Proof.
  unfold literalResult. loud_steps. apply loud_map, loud_normalize.
Qed.

Lemma loud_vectorResult (query threshold results : jsval) :
  loud (vectorResult query threshold results).
Proof.
  unfold vectorResult. loud_steps. apply loud_map, loud_normalize.
Qed.

Lemma loudM_bind {A B} (m : M A) (k : A -> M B) :
  loudM m -> (forall a, loudM (k a)) -> loudM (bind m k).
Proof.
  intros Hm Hk w e w'. unfold bind.
  destruct (m w) as [[e1|a] w1] eqn:Hmw.
  - intros [= <- <-]. exact (Hm _ _ _ Hmw).
  - apply Hk.
Qed.

Lemma loudM_lift {A} (x : Exc A) : loud x -> loudM (lift x).
Proof. intros Hx w e w' [= -> _]. now apply Hx. Qed.

Lemma loudM_ret {A} (a : A) : loudM (ret a).
Proof. intros w e w' H; discriminate. Qed.

Lemma loudM_makeBackendRequest (env : Env) (ep : string)
      (ps : list (string * jsval)) : loudM (makeBackendRequest env ep ps).
Proof. intros w e w'. apply makeBackendRequest_message. Qed.

Lemma loudM_searchProducts_try (env : Env) (query limit : jsval) :
  loudM (searchProducts_try env query limit).
Proof.
  unfold searchProducts_try.
  apply loudM_bind; [apply loudM_makeBackendRequest|]. intros results.
  apply loudM_bind; [apply loudM_lift, loud_noVectorResults|]. intros [|].
  - apply loudM_bind; [|intros; apply loudM_lift, loud_literalResult].
    apply loudM_bind; [apply loudM_makeBackendRequest|]. intros nameResults.
    apply loudM_lift, loud_useListing.
  - apply loudM_bind; [apply loudM_ret|].
    intros; apply loudM_lift, loud_literalResult.
Qed.

Lemma loudM_vectorSearchProducts_try (env : Env) (query limit threshold : jsval) :
  loudM (vectorSearchProducts_try env query limit threshold).
Proof.
  unfold vectorSearchProducts_try.
  apply loudM_bind; [apply loudM_makeBackendRequest|]. intros results.
  apply loudM_lift, loud_vectorResult.
Qed.

Lemma makeBackendRequest_down (env : Env) (ep : string)
      (ps : list (string * jsval)) (w : World) :
  always_down env ->
  exists e, fst (makeBackendRequest env ep ps w) = inl e /\ message e <> "".
Proof.
  intros Hdown.
  destruct (makeBackendRequest env ep ps w) as [[e|d] w1] eqn:Hrun.
  - exists e. split; [reflexivity|]. exact (makeBackendRequest_message _ _ _ _ _ _ Hrun).
  - exfalso. revert Hrun. rewrite makeBackendRequest_eq.
    destruct (getAuthToken env w) as [[e|token] w0]; [discriminate|].
    cbn zeta.
    destruct (Hdown (trace w0) (GET (BACKEND_URL env ++ ep) token ps))
      as (m & dt & ->).
    discriminate.
Qed.

(** C2.  Neither search operation ever throws: for every input, every state
    and every backend each returns a value, and whenever its [try] block
    throws an error [e] (a failed HTTP attempt or a malformed body), that
    value is the failure envelope
    [{success:false, error:e.message, query, totalFound:0, products:[]}]
    with a non-empty message.  In particular, against a backend on which
    every request ends in a transport error both return that envelope. *)
Theorem C2_never_raise (env : Env) (query limit threshold : jsval) (w : World) :
  (exists v, fst (searchProducts env query limit w) = inr v
             /\ forall e,
                fst (searchProducts_try env query (Js.default limit (JNum 10)) w)
                = inl e ->
                message e <> "" /\ v = envelope (message e) query)
  /\ (exists v, fst (vectorSearchProducts env query limit threshold w) = inr v
                /\ forall e,
                   fst (vectorSearchProducts_try env query
                          (Js.default limit (JNum 10))
                          (Js.default threshold (JNum (7 # 10))) w)
                   = inl e ->
                   message e <> "" /\ v = envelope (message e) query)
  /\ (always_down env ->
      exists m1 m2,
        m1 <> "" /\ m2 <> ""
        /\ fst (searchProducts env query limit w) = inr (envelope m1 query)
        /\ fst (vectorSearchProducts env query limit threshold w)
           = inr (envelope m2 query)).
Proof.
  split; [|split].
  - unfold searchProducts, try_catch. cbn zeta.
    destruct (searchProducts_try env query _ w) as [[e|v] w1] eqn:Hrun; cbn.
    + eexists; split; [reflexivity|]. intros e' [= <-].
      split; [|reflexivity]. exact (loudM_searchProducts_try _ _ _ _ _ _ Hrun).
    + eexists; split; [reflexivity|]. discriminate.
  - unfold vectorSearchProducts, try_catch. cbn zeta.
    destruct (vectorSearchProducts_try env query _ _ w) as [[e|v] w1] eqn:Hrun; cbn.
    + eexists; split; [reflexivity|]. intros e' [= <-].
      split; [|reflexivity]. exact (loudM_vectorSearchProducts_try _ _ _ _ _ _ _ Hrun).
    + eexists; split; [reflexivity|]. discriminate.
  - intros Hdown.
    rewrite searchProducts_eq, vectorSearchProducts_eq. cbn zeta.
    destruct (makeBackendRequest_down env VECTOR_SEARCH
                [("query", query); ("limit", Js.default limit (JNum 10))] w Hdown)
      as (e1 & H1 & Hm1).
    destruct (makeBackendRequest_down env VECTOR_SEARCH
                [("query", query); ("limit", Js.default limit (JNum 10));
                 ("threshold", Js.default threshold (JNum (7 # 10)))] w Hdown)
      as (e2 & H2 & Hm2).
    exists (message e1), (message e2).
    destruct (makeBackendRequest env VECTOR_SEARCH [_; _] w) as [r1 w1].
    destruct (makeBackendRequest env VECTOR_SEARCH [_; _; _] w) as [r2 w2].
    cbn in H1, H2. subst r1 r2. cbn. auto.
Qed.

Lemma Stub_always_down :
  always_down (Stub.backend Stub.refused Stub.refused Stub.refused).
Proof.
  intros h r. exists "connect ECONNREFUSED".
  destruct r as [u b|u t ps]; cbn.
  - now exists 5%N.
  - exists 20%N. now destruct (_ =? _)%string.
Qed.

(** C2 at a backend that refuses every connection. *)
Lemma C2_never_raise_witness :
  let env := Stub.backend Stub.refused Stub.refused Stub.refused in
  let query := JStr "seringa 5ml" in
  always_down env
  /\ exists m1 m2,
       m1 <> "" /\ m2 <> ""
       /\ fst (searchProducts env query JUndefined (boot 1000))
          = inr (envelope m1 query)
       /\ fst (vectorSearchProducts env query JUndefined JUndefined (boot 1000))
          = inr (envelope m2 query).
Proof.
  split; [exact Stub_always_down|].
  exact (proj2 (proj2 (C2_never_raise _ (JStr "seringa 5ml") JUndefined
                         JUndefined (boot 1000)))
               Stub_always_down).
Defined.

(** C4 on a freshly started process: the first backend-client call logs in,
    the second, 20 ms later, reuses the token. *)
Lemma C4_credential_cache_witness :
  let env := Stub.backend Stub.token_ok (HttpOk (JArr [])) (HttpOk (JArr [])) in
  let w := boot 1000 in
  let w1 := snd (makeBackendRequest env VECTOR_SEARCH [] w) in
  let w2 := snd (makeBackendRequest env PRODUCTS [] w1) in
  0 <= clock w
  /\ getAuthToken env w1 = (inr (JStr "jwt-1"), w1)
  /\ count is_POST (sent w w2) = 1%nat.
Proof.
  cbv zeta.
  set (env := Stub.backend Stub.token_ok (HttpOk (JArr [])) (HttpOk (JArr []))).
  assert (Hc : 0 <= clock (boot 1000)) by (cbn; lia).
  split; [exact Hc|]. split.
  - apply (proj1 (C4_credential_cache env
                    (snd (makeBackendRequest env VECTOR_SEARCH [] (boot 1000)))
                    ltac:(vm_compute; discriminate))
             (1005 + 82800000)); [reflexivity|reflexivity|vm_compute; reflexivity].
  - apply (proj1 (proj2 (proj2 (proj2 (C4_credential_cache env (boot 1000) Hc))))
             (JObj [("token", JStr "jwt-1")]) 5%N (JStr "jwt-1")
             VECTOR_SEARCH [] PRODUCTS []);
      [reflexivity|reflexivity|reflexivity|reflexivity|vm_compute; reflexivity].
Defined.

(** C8 on a freshly started process whose backend refuses the connection. *)
Lemma C8_login_failure_witness :
  let env := Stub.backend Stub.refused Stub.refused Stub.refused in
  let w := boot 1000 in
  let w' := snd (getAuthToken env w) in
  token_still_valid w = false
  /\ login_fails (fst (http env (trace w) (login_request env)))
  /\ fst (getAuthToken env w) = inl (Error "Failed to authenticate with backend")
  /\ authToken w' = JNull
  /\ tokenExpiry w' = None
  /\ sent w w' = [login_request env].
Proof.
  cbv zeta.
  set (env := Stub.backend Stub.refused Stub.refused Stub.refused).
  assert (H1 : token_still_valid (boot 1000) = false) by reflexivity.
  assert (H2 : login_fails (fst (http env (trace (boot 1000)) (login_request env))))
    by exact I.
  destruct (C8_login_failure env (boot 1000) H1) as (Hs & Hfail & _).
  destruct (Hfail H2) as (Hr & Ha & He & _).
  repeat split; assumption.
Defined.

(** C8, the claim as worded fails: the login is answered with [{}], a body
    without a token, and [getAuthToken] throws nothing, returns [undefined]
    and overwrites both the token and the expiry. *)
Lemma C8_counterexample :
  let env := Stub.backend (HttpOk (JObj [])) Stub.refused Stub.refused in
  let w := boot 1000 in
  let w' := snd (getAuthToken env w) in
  Js.has_key "token" (JObj []) = false
  /\ fst (getAuthToken env w) = inr JUndefined
  /\ authToken w = JNull /\ authToken w' = JUndefined
  /\ tokenExpiry w = None /\ tokenExpiry w' = Some (1005 + 82800000)
  /\ sent w' (snd (getAuthToken env w')) = [login_request env].
Proof. vm_compute. repeat split. Qed.

(** ** The shape of the results *)

Lemma map_inr (f : jsval -> Exc jsval) (v out : jsval) :
  Js.map f v = inr out ->
  exists l l', v = JArr l /\ out = JArr l' /\ Js.mapM f l = inr l'.
Proof.
  destruct v; cbn; try discriminate.
  destruct (Js.mapM f elems) as [e|l'] eqn:Hm; cbn; [discriminate|].
  intros [= <-]. now exists elems, l'.
Qed.

Lemma mapM_length {A B} (f : A -> Exc B) (l : list A) (l' : list B) :
  Js.mapM f l = inr l' -> List.length l' = List.length l.
Proof.
  revert l'. induction l as [|x l IH]; cbn; intros l'.
  - now intros [= <-].
  - destruct (f x) as [e|y]; cbn; [discriminate|].
    destruct (Js.mapM f l) as [e|ys]; cbn; [discriminate|].
    intros [= <-]. cbn. f_equal. now apply IH.
Qed.

(** What [literalResult] builds when it does not throw. *)
Lemma literalResult_inr (query results v : jsval) :
  literalResult query results = inr v ->
  exists totalFound raw products,
    Js.get results "totalFound" = inr totalFound
    /\ Js.get results "products" = inr raw
    /\ Js.map normalize (Js.or raw (JArr [])) = inr (JArr products)
    /\ v = JObj [("success", JBool true);
                 ("query", query);
                 ("totalFound", Js.or totalFound (JNum 0));
                 ("products", JArr products)].
Proof.
  unfold literalResult.
  destruct (Js.get results "totalFound") as [e|tf]; cbn; [discriminate|].
  destruct (Js.get results "products") as [e|raw]; cbn; [discriminate|].
  destruct (Js.map normalize (Js.or raw (JArr []))) as [e|ps] eqn:Hm; cbn;
    [discriminate|].
  intros [= <-].
  destruct (map_inr _ _ _ Hm) as (l & l' & _ & -> & _).
  now exists tf, raw, l'.
Qed.

(** The last step of the [try] block is always [literalResult]. *)
Lemma searchProducts_try_inr (env : Env) (query limit v : jsval) (w w' : World) :
  searchProducts_try env query limit w = (inr v, w') ->
  exists results, literalResult query results = inr v.
Proof.
  unfold searchProducts_try, bind, lift, ret.
  destruct (makeBackendRequest env VECTOR_SEARCH _ w) as [[e|results] w1];
    [discriminate|].
  destruct (noVectorResults results) as [e|[|]]; [discriminate| |].
  - destruct (makeBackendRequest env PRODUCTS _ w1) as [[e|nameResults] w2];
      [discriminate|].
    destruct (useListing env query results nameResults) as [e|r']; [discriminate|].
    destruct (literalResult query r') as [e|v'] eqn:Hl; [discriminate|].
    intros [= <- _]. now exists r'.
  - destruct (literalResult query results) as [e|v'] eqn:Hl; [discriminate|].
    intros [= <- _]. now exists results.
Qed.

(** C10.  Whenever the [try] block of [searchProducts] completes without an
    exception, the search returns its value and that value has
    [success = true], whatever the backend's own [success] was. *)
Theorem C10_success_true (env : Env) (query limit v : jsval) (w w' : World)
        (Hrun : searchProducts_try env query (Js.default limit (JNum 10)) w
                = (inr v, w')) :
  searchProducts env query limit w = (inr v, w')
  /\ Js.get v "success" = inr (JBool true).
Proof.
  split.
  - unfold searchProducts, try_catch. cbn zeta. now rewrite Hrun.
  - destruct (searchProducts_try_inr _ _ _ _ _ _ Hrun) as (results & Hl).
    destruct (literalResult_inr _ _ _ Hl) as (tf & raw & ps & _ & _ & _ & ->).
    reflexivity.
Qed.

(** C10 where the vector search answers [success:false] and the listing is
    empty: the search still reports [success:true]. *)
Lemma C10_success_true_witness :
  let env := Stub.backend Stub.token_ok
               (HttpOk (Stub.vector_body (JBool false) (JNum 0) []))
               (HttpOk (JArr [])) in
  let query := JStr "seringa 5ml" in
  let v := JObj [("success", JBool true); ("query", query);
                 ("totalFound", JNum 0); ("products", JArr [])] in
  fst (searchProducts_try env query (JNum 10) (boot 1000)) = inr v
  /\ fst (searchProducts env query JUndefined (boot 1000)) = inr v
  /\ Js.get v "success" = inr (JBool true).
Proof.
  cbv zeta.
  set (env := Stub.backend _ _ _).
  destruct (searchProducts_try env (JStr "seringa 5ml") (JNum 10) (boot 1000))
    as [r w'] eqn:Hrun.
  assert (Hr : r = inr (JObj [("success", JBool true);
                              ("query", JStr "seringa 5ml");
                              ("totalFound", JNum 0); ("products", JArr [])])).
  { vm_compute in Hrun. now injection Hrun as <- _. }
  subst r.
  destruct (C10_success_true env (JStr "seringa 5ml") JUndefined _ _ _ Hrun)
    as [H1 H2].
  split; [reflexivity|]. split; [now rewrite H1|exact H2].
Defined.

(** ** The tool gateway *)

(** C9.  A tool call whose name is neither [products.search] nor
    [products.vectorSearch] does not throw and touches nothing: the handler
    returns an output flagged [isError: true] whose text serialises
    [{success:false, error:"Unknown tool: <name>"}]. *)
Theorem C9_unknown_tool (env : Env) (name : string) (args : jsval) (w : World)
        (Hsearch : name <> "products.search")
        (Hvector : name <> "products.vectorSearch") :
  CallToolHandler env name args w =
  (inr {| content := [Text (JObj [("success", JBool false);
                                  ("error", JStr ("Unknown tool: " ++ name))])];
          isError := Some true |},
   w).
Proof.
  unfold CallToolHandler, try_catch.
  destruct (String.eqb_spec name "products.search") as [->|_]; [contradiction|].
  destruct (String.eqb_spec name "products.vectorSearch") as [->|_];
    [contradiction|].
  reflexivity.
Qed.

(** C9 at the name [products.unknown]. *)
Lemma C9_unknown_tool_witness :
  let env := Stub.backend Stub.token_ok Stub.refused Stub.refused in
  "products.unknown" <> "products.search"
  /\ "products.unknown" <> "products.vectorSearch"
  /\ CallToolHandler env "products.unknown" (JObj [("query", JStr "x")]) (boot 1000)
     = (inr {| content :=
                 [Text (JObj [("success", JBool false);
                              ("error", JStr "Unknown tool: products.unknown")])];
               isError := Some true |},
        boot 1000).
Proof.
  cbv zeta.
  assert (H1 : "products.unknown" <> "products.search") by discriminate.
  assert (H2 : "products.unknown" <> "products.vectorSearch") by discriminate.
  split; [exact H1|]. split; [exact H2|].
  exact (C9_unknown_tool _ "products.unknown" _ (boot 1000) H1 H2).
Defined.

(** ** Field mapping *)

(** The final mapping does rename: applied to a backend product it copies
    [priceEstimated] into [estimatedPrice] and keeps no [priceEstimated]. *)
Lemma normalize_renames (product v : jsval) :
  normalize product = inr v ->
  Js.get v "estimatedPrice" = Js.get product "priceEstimated"
  /\ Js.has_key "priceEstimated" v = false.
Proof.
  unfold normalize.
  destruct product; cbn; try discriminate; intros [= <-]; cbn; auto.
Qed.

(** On the fallback path the final mapping runs on products the fallback
    mapping has already renamed, and reads a [priceEstimated] that is no
    longer there. *)
Lemma fallback_price_lost (product renamed v : jsval) :
  fromListing product = inr renamed ->
  normalize renamed = inr v ->
  Js.get v "estimatedPrice" = inr JUndefined.
Proof.
  unfold fromListing.
  destruct product; cbn; try discriminate; intros [= <-]; cbn;
    intros [= <-]; reflexivity.
Qed.

(** C5, the failing run.  The vector search finds nothing and the listing
    returns [{code:12345, name:"X", unit:"UN", priceEstimated:2.5}]: the
    product handed to the caller has [estimatedPrice] undefined, not 2.5. *)
Theorem C5_fallback_drops_price :
  let env := Stub.backend Stub.token_ok
               (HttpOk (Stub.vector_body (JBool true) (JNum 0) []))
               (HttpOk (JArr [Stub.product_X])) in
  fst (searchProducts env (JStr "X") (JNum 5) (boot 1000)) =
  inr (JObj [("success", JBool true);
             ("query", JStr "X");
             ("totalFound", JNum 1);
             ("products",
              JArr [JObj [("code", JNum 12345);
                          ("name", JStr "X");
                          ("unit", JStr "UN");
                          ("estimatedPrice", JUndefined);
                          ("description", JUndefined);
                          ("type", JUndefined);
                          ("family", JUndefined);
                          ("similarity", JNull)]])]).
Proof. vm_compute. reflexivity. Qed.

(** The same product arriving through the vector search keeps its price. *)
Example vector_path_keeps_price :
  let env := Stub.backend Stub.token_ok
               (HttpOk (Stub.vector_body (JBool true) (JNum 1) [Stub.product_X]))
               (HttpOk (JArr [])) in
  fst (searchProducts env (JStr "X") (JNum 5) (boot 1000)) =
  inr (JObj [("success", JBool true);
             ("query", JStr "X");
             ("totalFound", JNum 1);
             ("products",
              JArr [JObj [("code", JNum 12345);
                          ("name", JStr "X");
                          ("unit", JStr "UN");
                          ("estimatedPrice", JNum (5 # 2));
                          ("description", JUndefined);
                          ("type", JUndefined);
                          ("family", JUndefined);
                          ("similarity", JNull)]])]).
Proof. vm_compute. reflexivity. Qed.

(** ** Vector search *)

Lemma vectorResult_inr (query threshold results v : jsval) :
  vectorResult query threshold results = inr v ->
  exists products,
    Js.map normalize (Js.or (field results "products") (JArr [])) = inr (JArr products)
    /\ v = JObj [("success", field results "success");
                 ("query", query);
                 ("totalFound", Js.or (field results "totalFound") (JNum 0));
                 ("threshold", Js.or (field results "threshold") threshold);
                 ("products", JArr products);
                 ("cacheInfo", Js.or (field results "cacheInfo") JNull)].
Proof.
  unfold vectorResult, field.
  destruct (Js.get results "success") as [e|s] eqn:Hs; cbn; [discriminate|].
  assert (Hget : forall k, exists x, Js.get results k = inr x).
  { intros k. destruct results; cbn in *; try discriminate; eauto. }
  destruct (Hget "totalFound") as [tf ->].
  destruct (Hget "threshold") as [th ->].
  destruct (Hget "products") as [raw ->].
  destruct (Hget "cacheInfo") as [ci ->]. cbn.
  destruct (Js.map normalize (Js.or raw (JArr []))) as [e|ps] eqn:Hm; cbn;
    [discriminate|].
  intros [= <-].
  destruct (map_inr _ _ _ Hm) as (l & l' & _ & -> & _).
  now exists l'.
Qed.

(** C6 (as the code has it).  When the vector-search request returns a body
    and the result is built from it, [success] is passed through as it is;
    [totalFound], [threshold] and [cacheInfo] are passed through when they
    are truthy, and a falsy or missing one is replaced by [0], by the
    requested threshold and by [null] respectively.  So the requested
    threshold is substituted whenever the backend's threshold is missing or
    falsy, [0] included. *)
Theorem C6_pass_through (env : Env) (query limit threshold results v : jsval)
        (w w1 : World)
        (Hreq : makeBackendRequest env VECTOR_SEARCH
                  [("query", query);
                   ("limit", Js.default limit (JNum 10));
                   ("threshold", Js.default threshold (JNum (7 # 10)))] w
                = (inr results, w1))
        (Hbuilt : vectorResult query (Js.default threshold (JNum (7 # 10))) results
                  = inr v) :
  vectorSearchProducts env query limit threshold w = (inr v, w1)
  /\ field v "success" = field results "success"
  /\ field v "totalFound" = Js.or (field results "totalFound") (JNum 0)
  /\ field v "threshold"
     = Js.or (field results "threshold") (Js.default threshold (JNum (7 # 10)))
  /\ field v "cacheInfo" = Js.or (field results "cacheInfo") JNull
  /\ (forall k, In k ["totalFound"; "threshold"; "cacheInfo"] ->
                Js.truthy (field results k) = true ->
                field v k = field results k)
  /\ (Js.truthy (field results "threshold") = false ->
      field v "threshold" = Js.default threshold (JNum (7 # 10))).
Proof.
  split.
  { rewrite vectorSearchProducts_eq. cbn zeta. rewrite Hreq, Hbuilt. reflexivity. }
  destruct (vectorResult_inr _ _ _ _ Hbuilt) as (ps & _ & ->).
  unfold field at 1 3 5 7. cbn [Js.get Js.lookup String.eqb Ascii.eqb Bool.eqb].
  repeat split.
  - intros k [<-|[<-|[<-|[]]]] Ht; unfold field at 1; cbn; unfold Js.or;
      now rewrite Ht.
  - intros Hf. unfold field at 1; cbn. unfold Js.or. now rewrite Hf.
Qed.

(** C6 on a body that carries threshold 0.8 while 0.5 was requested. *)
Lemma C6_pass_through_witness :
  let body := Stub.full_body (JNum (8 # 10)) in
  let env := Stub.backend Stub.token_ok (HttpOk body) Stub.refused in
  let query := JStr "seringa 5ml" in
  exists v,
    fst (vectorSearchProducts env query (JNum 5) (JNum (1 # 2)) (boot 1000)) = inr v
    /\ field v "success" = JBool true
    /\ field v "totalFound" = JNum 1
    /\ field v "threshold" = JNum (8 # 10)
    /\ field v "cacheInfo" = JObj [("hit", JBool true); ("size", JNum 3)].
Proof.
  cbv zeta.
  set (env := Stub.backend _ _ _).
  destruct (makeBackendRequest env VECTOR_SEARCH
              [("query", JStr "seringa 5ml");
               ("limit", Js.default (JNum 5) (JNum 10));
               ("threshold", Js.default (JNum (1 # 2)) (JNum (7 # 10)))]
              (boot 1000)) as [r w1] eqn:Hreq.
  assert (Hr : r = inr (Stub.full_body (JNum (8 # 10)))).
  { vm_compute in Hreq. now injection Hreq as <- _. }
  subst r.
  destruct (vectorResult (JStr "seringa 5ml")
              (Js.default (JNum (1 # 2)) (JNum (7 # 10)))
              (Stub.full_body (JNum (8 # 10)))) as [e|v] eqn:Hbuilt;
    [vm_compute in Hbuilt; discriminate|].
  destruct (C6_pass_through env _ (JNum 5) (JNum (1 # 2)) _ v _ _ Hreq Hbuilt)
    as (Hrun & Hs & Ht & Hth & Hc & _).
  exists v. rewrite Hrun, Hs, Ht, Hth, Hc. repeat split.
Defined.

(** C6, the claim as worded fails: the body carries [threshold: 0], it is
    not omitted, and yet the result carries the requested 0.5. *)
Lemma C6_counterexample :
  let body := Stub.full_body (JNum 0) in
  let env := Stub.backend Stub.token_ok (HttpOk body) Stub.refused in
  Js.has_key "threshold" body = true
  /\ field body "threshold" = JNum 0
  /\ exists v,
       fst (vectorSearchProducts env (JStr "seringa 5ml") (JNum 5)
              (JNum (1 # 2)) (boot 1000)) = inr v
       /\ field v "threshold" = JNum (1 # 2)
       /\ field v "threshold" <> field body "threshold".
Proof.
  cbv zeta. split; [reflexivity|]. split; [reflexivity|].
  eexists. split; [vm_compute; reflexivity|].
  split; [reflexivity|]. vm_compute. discriminate.
Qed.

(** ** How many products come back *)

Lemma makeBackendRequest_from_http (env : Env) (ep : string)
      (ps : list (string * jsval)) (w w1 : World) (body : jsval) :
  makeBackendRequest env ep ps w = (inr body, w1) ->
  exists h r dt, http env h r = (HttpOk body, dt).
Proof.
  rewrite makeBackendRequest_eq.
  destruct (getAuthToken env w) as [[e|token] w0]; [discriminate|]. cbn zeta.
  destruct (http env (trace w0) _) as [[d|m] dt] eqn:Hh; [|discriminate].
  intros [= <- _]. eauto.
Qed.

Lemma listed_products (results : jsval) (l : list jsval) :
  Js.get results "products" = inr (JArr l) -> listed results = List.length l.
Proof.
  destruct results; cbn; try discriminate.
  unfold field. cbn. now intros [= ->].
Qed.

Lemma literalResult_length (query results v : jsval) :
  literalResult query results = inr v ->
  exists ps, Js.get v "products" = inr (JArr ps)
             /\ (ps = [] \/ List.length ps = listed results).
Proof.
  intros H.
  destruct (literalResult_inr _ _ _ H) as (tf & raw & ps & _ & Hraw & Hm & ->).
  exists ps. split; [reflexivity|].
  destruct (map_inr _ _ _ Hm) as (l & l' & Hor & [= ->] & Hmm).
  apply mapM_length in Hmm. unfold Js.or in Hor.
  destruct (Js.truthy raw).
  - subst raw. right. rewrite Hmm. symmetry. now apply listed_products.
  - injection Hor as <-. left. now destruct l'.
Qed.

Lemma useListing_inr (env : Env) (query results nameResults r : jsval) :
  useListing env query results nameResults = inr r ->
  r = results \/ listed r = listed nameResults.
Proof.
  unfold useListing.
  destruct (nonEmpty env nameResults) as [e|[|]]; cbn; try discriminate.
  - destruct (Js.get nameResults "length") as [e|len]; cbn; [discriminate|].
    destruct (Js.map fromListing nameResults) as [e|ps] eqn:Hm; cbn;
      [discriminate|].
    intros [= <-]. right.
    destruct (map_inr _ _ _ Hm) as (l & l' & -> & -> & Hmm).
    apply mapM_length in Hmm. cbn. exact Hmm.
  - intros [= <-]. now left.
Qed.

(** The products of a value produced under a [catch]: those of the failure
    envelope, or those the [try] block built. *)
Lemma settle_products (P : list jsval -> Prop) (query : jsval) (x : Exc jsval) :
  P [] ->
  (forall v, x = inr v -> exists ps, Js.get v "products" = inr (JArr ps) /\ P ps) ->
  exists ps, Js.get (settle query x) "products" = inr (JArr ps) /\ P ps.
Proof.
  intros Hnil Hok. destruct x as [e|v]; cbn.
  - now exists [].
  - now apply Hok.
Qed.

(** C7, the claim as worded fails: with [limit = 1], a vector-search body
    that lists two products gives a result with two products. *)
Lemma C7_counterexample :
  let env := Stub.backend Stub.token_ok
               (HttpOk (Stub.vector_body (JBool true) (JNum 2)
                          [Stub.product_X; Stub.product_Y]))
               (HttpOk (JArr [])) in
  exists v ps,
    fst (searchProducts env (JStr "seringa 5ml") (JNum 1) (boot 1000)) = inr v
    /\ Js.get v "products" = inr (JArr ps)
    /\ List.length ps = 2%nat
    /\ ~ (inject_Z (Z.of_nat (List.length ps)) <= 1)%Q.
Proof.
  cbv zeta. eexists. eexists.
  split; [vm_compute; reflexivity|].
  split; [vm_compute; reflexivity|].
  split; [reflexivity|]. intros H. vm_compute in H. now apply H.
Qed.

(** ** The SearchResult contract *)

Lemma makeBackendRequest_from_GET (env : Env) (ep : string)
      (ps : list (string * jsval)) (w w1 : World) (body : jsval) :
  makeBackendRequest env ep ps w = (inr body, w1) ->
  exists h token dt,
    http env h (GET (BACKEND_URL env ++ ep) token ps) = (HttpOk body, dt).
Proof.
  rewrite makeBackendRequest_eq.
  destruct (getAuthToken env w) as [[e|token] w0]; [discriminate|]. cbn zeta.
  destruct (http env (trace w0) _) as [[d|m] dt] eqn:Hh; [|discriminate].
  intros [= <- _]. eauto.
Qed.

Lemma is_count_num_of_nat (n : nat) : is_count (Js.num_of_nat n) = true.
Proof.
  cbn. rewrite Z.mod_1_r. cbn. rewrite andb_true_r. apply Z.leb_le. lia.
Qed.

Lemma is_count_or (v : jsval) :
  negb (Js.truthy v) || is_count v = true -> is_count (Js.or v (JNum 0)) = true.
Proof.
  unfold Js.or. destruct (Js.truthy v); cbn; [auto|reflexivity].
Qed.

Lemma envelope_well_formed (msg q : string) :
  well_formed (envelope msg (JStr q)) = true.
Proof. reflexivity. Qed.

(** A value built by [literalResult] for a string query is well formed as
    soon as the [totalFound] it starts from is typed. *)
Lemma literalResult_well_formed (q : string) (results v : jsval) :
  count_typed results = true ->
  literalResult (JStr q) results = inr v ->
  well_formed v = true.
Proof.
  intros Hc Hv.
  destruct (literalResult_inr _ _ _ Hv) as (tf & raw & ps & Htf & _ & _ & ->).
  unfold count_typed, field in Hc. rewrite Htf in Hc.
  unfold well_formed, shaped, field. cbn.
  rewrite (is_count_or _ Hc). reflexivity.
Qed.

Lemma useListing_count_typed (env : Env) (query results nameResults r : jsval) :
  count_typed results = true ->
  useListing env query results nameResults = inr r ->
  count_typed r = true.
Proof.
  intros Hc. unfold useListing.
  destruct (nonEmpty env nameResults) as [e|[|]]; cbn; try discriminate.
  - destruct (Js.get nameResults "length") as [e|len] eqn:Hlen; cbn; [discriminate|].
    destruct (Js.map fromListing nameResults) as [e|ps] eqn:Hm; cbn;
      [discriminate|].
    intros [= <-].
    destruct (map_inr _ _ _ Hm) as (l & l' & -> & _ & _).
    cbn in Hlen. injection Hlen as <-.
    unfold count_typed, field. cbn [Js.get Js.lookup String.eqb Ascii.eqb Bool.eqb].
    rewrite is_count_num_of_nat. apply orb_true_r.
  - now intros [= <-].
Qed.

Lemma searchProducts_well_formed (env : Env) (q : string) (limit : jsval)
      (w : World) :
  vector_bodies env count_typed ->
  exists v, fst (searchProducts env (JStr q) limit w) = inr v
            /\ well_formed v = true.
Proof.
  intros Htyped. rewrite searchProducts_eq. cbn zeta.
  destruct (makeBackendRequest env VECTOR_SEARCH _ w) as [[e|results] w1] eqn:H1.
  { now exists (failure e (JStr q)). }
  apply makeBackendRequest_from_GET in H1 as (h & token & dt & Hh).
  apply Htyped in Hh.
  destruct (noVectorResults results) as [e|[|]].
  - now exists (failure e (JStr q)).
  - destruct (makeBackendRequest env PRODUCTS _ w1) as [[e|nameResults] w2].
    { now exists (failure e (JStr q)). }
    cbn [fst]. eexists; split; [reflexivity|].
    destruct (useListing env (JStr q) results nameResults) as [e|r'] eqn:Hu; cbn;
      [reflexivity|].
    destruct (literalResult (JStr q) r') as [e|v] eqn:Hv; cbn; [reflexivity|].
    apply (literalResult_well_formed q r' v); [|exact Hv].
    exact (useListing_count_typed _ _ _ _ _ Hh Hu).
  - cbn [fst]. eexists; split; [reflexivity|].
    destruct (literalResult (JStr q) results) as [e|v] eqn:Hv; cbn; [reflexivity|].
    exact (literalResult_well_formed q results v Hh Hv).
Qed.

Lemma vectorSearchProducts_shaped (env : Env) (q : string)
      (limit threshold : jsval) (w : World) :
  vector_bodies env count_typed ->
  vector_bodies env success_typed ->
  exists v, fst (vectorSearchProducts env (JStr q) limit threshold w) = inr v
            /\ shaped v = true
            /\ (field v "success" <> JBool false -> well_formed v = true)
            /\ forall e,
                 fst (vectorSearchProducts_try env (JStr q)
                        (Js.default limit (JNum 10))
                        (Js.default threshold (JNum (7 # 10))) w) = inl e ->
                 v = envelope (message e) (JStr q) /\ well_formed v = true.
Proof.
  intros Hcount Hsucc.
  assert (Hwf : forall v, shaped v = true -> field v "success" <> JBool false ->
                          well_formed v = true).
  { intros v Hs Hne. unfold well_formed. rewrite Hs. cbn.
    destruct (field v "success") as [| |[|]| | | |]; try reflexivity.
    now elim Hne. }
  unfold vectorSearchProducts, vectorSearchProducts_try, try_catch, bind, lift, ret.
  cbn zeta.
  destruct (makeBackendRequest env VECTOR_SEARCH _ w) as [[e|results] w1] eqn:H1.
  { exists (failure e (JStr q)). cbn.
    split; [reflexivity|]. split; [reflexivity|]. split; [reflexivity|].
    intros e' [= <-]. split; reflexivity. }
  apply makeBackendRequest_from_GET in H1 as (h & token & dt & Hh).
  pose proof (Hcount _ _ _ _ _ Hh) as Hc. pose proof (Hsucc _ _ _ _ _ Hh) as Hs.
  destruct (vectorResult (JStr q) _ results) as [e|v] eqn:Hv; cbn.
  { exists (failure e (JStr q)). cbn.
    split; [reflexivity|]. split; [reflexivity|]. split; [reflexivity|].
    intros e' [= <-]. split; reflexivity. }
  exists v.
  assert (Hsh : shaped v = true).
  { destruct (vectorResult_inr _ _ _ _ Hv) as (ps & _ & ->).
    unfold shaped, field at 1 3 5 7.
    cbn [Js.get Js.lookup String.eqb Ascii.eqb Bool.eqb].
    unfold success_typed in Hs. rewrite Hs. cbn.
    rewrite (is_count_or _ Hc). reflexivity. }
  repeat split; auto; discriminate.
Qed.

(** The handler never throws, and an output it flags as an error carries
    only [success:false] and the message. *)
Lemma CallToolHandler_total (env : Env) (name : string) (args : jsval) (w : World) :
  exists tr,
    fst (CallToolHandler env name args w) = inr tr
    /\ (isError tr = Some true ->
        exists msg,
          content tr = [Text (JObj [("success", JBool false);
                                    ("error", JStr msg)])]).
Proof.
  unfold CallToolHandler, try_catch.
  match goal with
  | |- context [match ?m w with _ => _ end] =>
      assert (Hnone : forall tr w', m w = (inr tr, w') -> isError tr = None);
      [|destruct (m w) as [[e|tr] w'] eqn:Hm]
  end.
  - intros tr w'. unfold bind, lift, ret, throw.
    destruct (name =? "products.search")%string.
    + destruct (destructure args "query") as [e|query]; [discriminate|].
      destruct (destructure args "limit") as [e|lim]; [discriminate|].
      destruct (searchProducts env query _ w) as [[e|v] w1]; [discriminate|].
      now intros [= <- _].
    + destruct (name =? "products.vectorSearch")%string; [|discriminate].
      destruct (destructure args "query") as [e|query]; [discriminate|].
      destruct (destructure args "limit") as [e|lim]; [discriminate|].
      destruct (destructure args "threshold") as [e|thr]; [discriminate|].
      destruct (vectorSearchProducts env query _ _ w) as [[e|v] w1]; [discriminate|].
      now intros [= <- _].
  - eexists. split; [reflexivity|]. intros _. now exists (message e).
  - exists tr. split; [reflexivity|]. rewrite (Hnone _ _ eq_refl). discriminate.
Qed.

(** C3 (as the code has it).  For a string query:
    - [searchProducts] always returns a well-formed SearchResult provided
      the [totalFound] of the vector-search bodies, which is passed through,
      is missing, falsy or a non-negative integer;
    - [vectorSearchProducts] returns a value with the four required fields
      well typed provided, in addition, the bodies' [success], also passed
      through, is a boolean; the value carries an [error] string when the
      [try] block threw, but a [success:false] reported by the backend is
      passed through with no [error];
    - the handler always returns, and an output it flags with [isError]
      carries only [{success:false, error:<message>}], without [query],
      [totalFound] or [products]. *)
Theorem C3_result_shape (env : Env) (q : string) (limit threshold : jsval)
        (w : World) :
  (vector_bodies env count_typed ->
   exists v, fst (searchProducts env (JStr q) limit w) = inr v
             /\ well_formed v = true)
  /\ (vector_bodies env count_typed ->
      vector_bodies env success_typed ->
      exists v, fst (vectorSearchProducts env (JStr q) limit threshold w) = inr v
                /\ shaped v = true
                /\ (field v "success" <> JBool false -> well_formed v = true)
                /\ forall e,
                     fst (vectorSearchProducts_try env (JStr q)
                            (Js.default limit (JNum 10))
                            (Js.default threshold (JNum (7 # 10))) w) = inl e ->
                     v = envelope (message e) (JStr q) /\ well_formed v = true)
  /\ (forall name args,
         exists tr,
           fst (CallToolHandler env name args w) = inr tr
           /\ (isError tr = Some true ->
               exists msg,
                 content tr = [Text (JObj [("success", JBool false);
                                           ("error", JStr msg)])])).
Proof.
  split; [|split].
  - apply searchProducts_well_formed.
  - apply vectorSearchProducts_shaped.
  - intros name args. apply CallToolHandler_total.
Qed.

Lemma Stub_vector_bodies (login listing : HttpResult) (vector : jsval)
      (P : jsval -> bool) :
  P vector = true ->
  vector_bodies (Stub.backend login (HttpOk vector) listing) P.
Proof.
  intros HP h token ps body dt. cbn [http Stub.backend BACKEND_URL].
  rewrite String.eqb_refl. now intros [= <- _].
Qed.

(** C3 against a backend whose vector-search body is well typed. *)
Lemma C3_result_shape_witness :
  let env := Stub.backend Stub.token_ok
               (HttpOk (Stub.full_body (JNum (7 # 10))))
               (HttpOk (JArr [Stub.product_X])) in
  vector_bodies env count_typed
  /\ vector_bodies env success_typed
  /\ (exists v, fst (searchProducts env (JStr "seringa 5ml") (JNum 5) (boot 1000))
                = inr v /\ well_formed v = true)
  /\ (exists v, fst (vectorSearchProducts env (JStr "seringa 5ml") (JNum 5)
                       JUndefined (boot 1000)) = inr v
                /\ shaped v = true).
Proof.
  cbv zeta.
  set (env := Stub.backend _ _ _).
  assert (H1 : vector_bodies env count_typed)
    by (apply Stub_vector_bodies; reflexivity).
  assert (H2 : vector_bodies env success_typed)
    by (apply Stub_vector_bodies; reflexivity).
  split; [exact H1|]. split; [exact H2|].
  destruct (C3_result_shape env "seringa 5ml" (JNum 5) JUndefined (boot 1000))
    as (Hlit & Hvec & _).
  split; [exact (Hlit H1)|].
  destruct (Hvec H1 H2) as (v & Hv & Hs & _).
  now exists v.
Defined.

(** C3, the claim as worded fails: the gateway-level error wrapping of an
    unknown tool name is [{success:false, error}], with no [query], no
    [totalFound] and no [products]. *)
Lemma C3_counterexample :
  let env := Stub.backend Stub.token_ok Stub.refused Stub.refused in
  exists v,
    fst (CallToolHandler env "products.unknown"
           (JObj [("query", JStr "seringa 5ml")]) (boot 1000))
    = inr {| content := [Text v]; isError := Some true |}
    /\ Js.has_key "query" v = false
    /\ Js.has_key "totalFound" v = false
    /\ Js.has_key "products" v = false
    /\ well_formed v = false.
Proof. cbv zeta. eexists. split; [vm_compute; reflexivity|]. repeat split. Qed.

(** The pass-through fields are not checked either: a negative
    [totalFound] reaches the caller of the literal search ... *)
Example totalFound_is_not_checked :
  let env := Stub.backend Stub.token_ok
               (HttpOk (Stub.vector_body (JBool true) (JNum (-1)) []))
               (HttpOk (JArr [])) in
  exists v,
    fst (searchProducts env (JStr "seringa 5ml") (JNum 5) (boot 1000)) = inr v
    /\ field v "totalFound" = JNum (-1)
    /\ well_formed v = false.
Proof. cbv zeta. eexists. split; [vm_compute; reflexivity|]. repeat split. Qed.

(** ... and a [success:false] reported by the backend reaches the caller of
    the vector search without any [error]. *)
Example backend_failure_has_no_error :
  let env := Stub.backend Stub.token_ok
               (HttpOk (Stub.vector_body (JBool false) (JNum 0) []))
               (HttpOk (JArr [])) in
  exists v,
    fst (vectorSearchProducts env (JStr "seringa 5ml") (JNum 5) JUndefined
           (boot 1000)) = inr v
    /\ field v "success" = JBool false
    /\ Js.has_key "error" v = false
    /\ well_formed v = false.
Proof. cbv zeta. eexists. split; [vm_compute; reflexivity|]. repeat split. Qed.

(** C1 where the vector search finds nothing: one vector-search GET, one
    listing GET, two GETs in all. *)
Lemma C1_upstream_calls_witness :
  let env := Stub.backend Stub.token_ok
               (HttpOk (Stub.vector_body (JBool true) (JNum 0) []))
               (HttpOk (JArr [Stub.product_X])) in
  let w := boot 1000 in
  let calls := sent w (snd (searchProducts env (JStr "X") (JNum 5) w)) in
  count (is_GET_to env VECTOR_SEARCH) calls = 1%nat
  /\ count (is_GET_to env PRODUCTS) calls = 1%nat
  /\ (count is_GET calls <= 2)%nat.
Proof.
  cbv zeta.
  set (env := Stub.backend _ _ _).
  destruct (C1_upstream_calls env (JStr "X") (JNum 5) (boot 1000))
    as (HV & _ & HP & _ & _ & Hall).
  split; [|split].
  - apply HV. eexists. vm_compute. reflexivity.
  - apply HP. eexists. split; [vm_compute; reflexivity|].
    split; [reflexivity|]. eexists. vm_compute. reflexivity.
  - exact Hall.
Defined.

(** * Further properties of the server *)

(** ** The backend client: failures *)

(** When no token can be obtained, [makeBackendRequest] lets the
    authentication error through as it is, sends no GET, and leaves the
    cached token and expiry untouched. *)
Theorem makeBackendRequest_auth_failure (env : Env) (endpoint : string)
        (params : list (string * jsval)) (w w1 : World) (e : exn)
        (Hauth : getAuthToken env w = (inl e, w1)) :
  makeBackendRequest env endpoint params w
  = (inl (Error "Failed to authenticate with backend"), w1)
  /\ sent w w1 = [login_request env]
  /\ authToken w1 = authToken w
  /\ tokenExpiry w1 = tokenExpiry w.
Proof.
  assert (He : e = Error "Failed to authenticate with backend"
               /\ token_still_valid w = false
               /\ authToken w1 = authToken w /\ tokenExpiry w1 = tokenExpiry w).
  { revert Hauth. rewrite getAuthToken_eq.
    destruct (token_still_valid w); [discriminate|].
    destruct (http env (trace w) (login_request env)) as [[d|m] dt]; cbn zeta.
    - destruct (Js.get d "token"); [|discriminate].
      intros [= <- <-]. auto.
    - intros [= <- <-]. auto. }
  destruct He as (-> & Hv & Ha & Hx).
  rewrite makeBackendRequest_eq, Hauth.
  repeat split; try assumption.
  pose proof (getAuthToken_miss_sent env w Hv) as Hs.
  now rewrite Hauth in Hs.
Qed.

Lemma makeBackendRequest_auth_failure_witness :
  let env := Stub.backend Stub.refused (HttpOk (JArr [])) (HttpOk (JArr [])) in
  let w1 := answered (boot 1000) (login_request env) 5 in
  getAuthToken env (boot 1000)
  = (inl (Error "Failed to authenticate with backend"), w1)
  /\ makeBackendRequest env PRODUCTS [] (boot 1000)
     = (inl (Error "Failed to authenticate with backend"), w1).
Proof.
  cbv zeta.
  set (env := Stub.backend _ _ _).
  assert (H : getAuthToken env (boot 1000)
              = (inl (Error "Failed to authenticate with backend"),
                 answered (boot 1000) (login_request env) 5)) by reflexivity.
  split; [exact H|].
  exact (proj1 (makeBackendRequest_auth_failure env PRODUCTS [] _ _ _ H)).
Defined.

(** When the GET itself fails, [makeBackendRequest] throws
    "Backend request failed: <upstream message>" after that single GET: it
    does not retry, and it does not drop the token, so a following call made
    before the expiry presents the same token again without logging in. *)
Theorem makeBackendRequest_no_retry (env : Env) (endpoint : string)
        (params : list (string * jsval)) (w w1 : World) (token : jsval)
        (msg : string) (dt : N)
        (Hauth : getAuthToken env w = (inr token, w1))
        (Hget : http env (trace w1) (GET (BACKEND_URL env ++ endpoint) token params)
                = (HttpErr msg, dt)) :
  let w' := answered w1 (GET (BACKEND_URL env ++ endpoint) token params) dt in
  makeBackendRequest env endpoint params w
  = (inl (Error ("Backend request failed: " ++ msg)), w')
  /\ sent w1 w' = [GET (BACKEND_URL env ++ endpoint) token params]
  /\ count is_GET (sent w w') = 1%nat
  /\ authToken w' = token
  /\ tokenExpiry w' = tokenExpiry w1
  /\ (forall e, Js.truthy token = true -> tokenExpiry w1 = Some e ->
                0 <= clock w' -> clock w' < e ->
                getAuthToken env w' = (inr token, w')).
Proof.
  intros w'.
  destruct (getAuthToken_fresh env w w1 token Hauth) as (Htok & _).
  split; [|split; [|split; [|split; [|split]]]].
  - rewrite makeBackendRequest_eq, Hauth. cbn zeta. now rewrite Hget.
  - apply sent_app. reflexivity.
  - destruct (getAuthToken_footprint env w) as [Htr _].
    rewrite Hauth in Htr. cbn [snd] in Htr.
    destruct Htr as [Htr|Htr].
    + rewrite (sent_app w w' [GET (BACKEND_URL env ++ endpoint) token params]);
        [reflexivity|]. subst w'. cbn. now rewrite Htr.
    + rewrite (sent_app w w' [login_request env;
                              GET (BACKEND_URL env ++ endpoint) token params]);
        [reflexivity|]. subst w'. cbn. rewrite Htr. now rewrite <- app_assoc.
  - exact Htok.
  - reflexivity.
  - intros e Ht He H0 Hlt.
    rewrite getAuthToken_hit; [now rewrite <- Htok at 1|].
    apply answered_valid with (e := e); [now rewrite Htok|exact He|lia|exact Hlt].
Qed.

(** A backend that accepts the login and then fails every vector-search
    request: the second call reuses the token. *)
Lemma makeBackendRequest_no_retry_witness :
  let env := Stub.backend Stub.token_ok Stub.refused (HttpOk (JArr [])) in
  let w' := snd (makeBackendRequest env VECTOR_SEARCH [] (boot 1000)) in
  makeBackendRequest env VECTOR_SEARCH [] (boot 1000)
  = (inl (Error "Backend request failed: connect ECONNREFUSED"), w')
  /\ count is_GET (sent (boot 1000) w') = 1%nat
  /\ getAuthToken env w' = (inr (JStr "jwt-1"), w').
Proof.
  cbv zeta.
  set (env := Stub.backend _ _ _).
  destruct (getAuthToken env (boot 1000)) as [r w1] eqn:Hauth.
  assert (Hr : r = inr (JStr "jwt-1")
               /\ w1 = {| authToken := JStr "jwt-1";
                          tokenExpiry := Some (1005 + 82800000);
                          clock := 1005;
                          trace := [login_request env] |}).
  { vm_compute in Hauth. injection Hauth as <- <-. split; reflexivity. }
  destruct Hr as [-> ->].
  destruct (makeBackendRequest_no_retry env VECTOR_SEARCH [] _ _ _
              "connect ECONNREFUSED" 20 Hauth eq_refl)
    as (Hrun & _ & Hcount & _ & _ & Hreuse).
  rewrite Hrun. cbn [snd].
  split; [reflexivity|]. split; [exact Hcount|].
  apply (Hreuse (1005 + 82800000)); [reflexivity|reflexivity| |];
    vm_compute; [discriminate|reflexivity].
Defined.

(** Whenever [makeBackendRequest] sends its GET, the bearer it presents is
    the token held in the cache at that moment, and the expiry stored with
    it is still in the future: no expired token goes on the wire. *)
Theorem makeBackendRequest_bearer (env : Env) (endpoint : string)
        (params : list (string * jsval)) (w w1 : World) (token : jsval)
        (Hauth : getAuthToken env w = (inr token, w1)) :
  let w' := snd (makeBackendRequest env endpoint params w) in
  sent w1 w' = [GET (BACKEND_URL env ++ endpoint) token params]
  /\ authToken w1 = token
  /\ exists e, tokenExpiry w1 = Some e /\ clock w1 < e.
Proof.
  intros w'. split; [|exact (getAuthToken_fresh env w w1 token Hauth)].
  subst w'. rewrite makeBackendRequest_eq, Hauth. cbn zeta.
  apply sent_app.
  destruct (http env (trace w1) _) as [[d|m] dt]; reflexivity.
Qed.

Lemma makeBackendRequest_bearer_witness :
  let env := Stub.backend Stub.token_ok (HttpOk (JArr [])) (HttpOk (JArr [])) in
  let w1 := snd (getAuthToken env (boot 1000)) in
  let w' := snd (makeBackendRequest env PRODUCTS [] (boot 1000)) in
  getAuthToken env (boot 1000) = (inr (JStr "jwt-1"), w1)
  /\ sent w1 w' = [GET (BACKEND_URL env ++ PRODUCTS) (JStr "jwt-1") []].
Proof.
  cbv zeta.
  set (env := Stub.backend _ _ _).
  assert (H : getAuthToken env (boot 1000)
              = (inr (JStr "jwt-1"), snd (getAuthToken env (boot 1000))))
    by reflexivity.
  split; [exact H|].
  exact (proj1 (makeBackendRequest_bearer env PRODUCTS [] _ _ _ H)).
Defined.

(** ** What a running server keeps true *)

Lemma cache_consistent_answered (w : World) (r : Request) (dt : N) :
  cache_consistent w -> cache_consistent (answered w r dt).
Proof.
  intros [H1 H2]. pose proof (N2Z.is_nonneg dt) as Hdt.
  split; cbn [answered tokenExpiry authToken clock]; [exact H1|].
  intros e He. specialize (H2 e He). lia.
Qed.

Lemma getAuthToken_keeps (env : Env) (w : World) :
  cache_consistent w /\ Forall (known_request env) (trace w) ->
  let w' := snd (getAuthToken env w) in
  cache_consistent w' /\ Forall (known_request env) (trace w').
Proof.
  intros [Hc Hk]. rewrite getAuthToken_eq.
  destruct (token_still_valid w); cbn; [now split|].
  assert (Hk' : Forall (known_request env) (trace w ++ [login_request env])).
  { apply Forall_app. split; [exact Hk|]. constructor; [now left|constructor]. }
  destruct (http env (trace w) (login_request env)) as [[d|m] dt]; cbn.
  - destruct (Js.get d "token"); cbn.
    + split; [now apply cache_consistent_answered|exact Hk'].
    + split; [|exact Hk'].
      split; cbn [tokenExpiry clock]; [discriminate|].
      intros e [= <-]. apply Z.le_refl.
  - split; [now apply cache_consistent_answered|exact Hk'].
Qed.

Lemma makeBackendRequest_keeps (env : Env) (endpoint : string)
      (params : list (string * jsval)) (w : World) :
  (forall token, known_request env (GET (BACKEND_URL env ++ endpoint) token params)) ->
  cache_consistent w /\ Forall (known_request env) (trace w) ->
  let w' := snd (makeBackendRequest env endpoint params w) in
  cache_consistent w' /\ Forall (known_request env) (trace w').
Proof.
  intros Hreq Hinv. pose proof (getAuthToken_keeps env w Hinv) as Hauth.
  rewrite makeBackendRequest_eq.
  destruct (getAuthToken env w) as [[e|token] w1]; cbn [snd] in *; [exact Hauth|].
  cbn zeta. destruct Hauth as [Hc Hk].
  assert (H : forall dt,
             cache_consistent
               (answered w1 (GET (BACKEND_URL env ++ endpoint) token params) dt)
             /\ Forall (known_request env)
                  (trace (answered w1 (GET (BACKEND_URL env ++ endpoint) token params) dt))).
  { intros dt. split; [now apply cache_consistent_answered|].
    cbn. apply Forall_app. split; [exact Hk|]. constructor; [apply Hreq|constructor]. }
  destruct (http env (trace w1) _) as [[d|m] dt]; apply H.
Qed.

Lemma searchProducts_keeps (env : Env) (query limit : jsval) (w : World) :
  cache_consistent w /\ Forall (known_request env) (trace w) ->
  let w' := snd (searchProducts env query limit w) in
  cache_consistent w' /\ Forall (known_request env) (trace w').
Proof.
  intros Hinv. rewrite searchProducts_eq. cbn zeta.
  pose proof (makeBackendRequest_keeps env VECTOR_SEARCH
                [("query", query); ("limit", Js.default limit (JNum 10))] w) as H1.
  destruct (makeBackendRequest env VECTOR_SEARCH _ w) as [[e|results] w1];
    cbn [snd] in *.
  { apply H1; [|exact Hinv]. intros token. right. right. left. eauto. }
  assert (Hinv1 : cache_consistent w1 /\ Forall (known_request env) (trace w1)).
  { apply H1; [|exact Hinv]. intros token. right. right. left. eauto. }
  destruct (noVectorResults results) as [e|[|]]; cbn [snd]; try exact Hinv1.
  pose proof (makeBackendRequest_keeps env PRODUCTS
                [("search", query); ("limit", Js.default limit (JNum 10))] w1) as H2.
  destruct (makeBackendRequest env PRODUCTS _ w1) as [[e|nameResults] w2];
    cbn [snd] in *; (apply H2; [|exact Hinv1]); intros token; right; left; eauto.
Qed.

Lemma vectorSearchProducts_keeps (env : Env) (query limit threshold : jsval)
      (w : World) :
  cache_consistent w /\ Forall (known_request env) (trace w) ->
  let w' := snd (vectorSearchProducts env query limit threshold w) in
  cache_consistent w' /\ Forall (known_request env) (trace w').
Proof.
  intros Hinv. rewrite vectorSearchProducts_eq. cbn zeta.
  pose proof (makeBackendRequest_keeps env VECTOR_SEARCH
                [("query", query); ("limit", Js.default limit (JNum 10));
                 ("threshold", Js.default threshold (JNum (7 # 10)))] w) as H1.
  destruct (makeBackendRequest env VECTOR_SEARCH _ w) as [[e|results] w1];
    cbn [snd] in *; (apply H1; [|exact Hinv]); intros token;
    right; right; right; eauto.
Qed.

Lemma CallToolHandler_keeps (env : Env) (name : string) (args : jsval) (w : World) :
  cache_consistent w /\ Forall (known_request env) (trace w) ->
  let w' := snd (CallToolHandler env name args w) in
  cache_consistent w' /\ Forall (known_request env) (trace w').
Proof.
  intros Hinv. unfold CallToolHandler, try_catch, bind, lift, ret, throw.
  destruct (name =? "products.search")%string.
  - destruct (destructure args "query") as [e|query]; [exact Hinv|].
    destruct (destructure args "limit") as [e|lim]; [exact Hinv|].
    pose proof (searchProducts_keeps env query (Js.default lim (JNum 10)) w Hinv) as H.
    destruct (searchProducts env query _ w) as [[e|v] w1]; exact H.
  - destruct (name =? "products.vectorSearch")%string; [|exact Hinv].
    destruct (destructure args "query") as [e|query]; [exact Hinv|].
    destruct (destructure args "limit") as [e|lim]; [exact Hinv|].
    destruct (destructure args "threshold") as [e|thr]; [exact Hinv|].
    pose proof (vectorSearchProducts_keeps env query (Js.default lim (JNum 10))
                  (Js.default thr (JNum (7 # 10))) w Hinv) as H.
    destruct (vectorSearchProducts env query _ _ w) as [[e|v] w1]; exact H.
Qed.

(** In every state a running server reaches, the cache is empty or holds a
    token whose expiry is at most 23 hours ahead, and every request sent so
    far is the login POST with the configured credentials or a GET to one of
    the two product endpoints with the parameters of a search. *)
Theorem reachable_invariant (env : Env) (w : World) (Hreach : reachable env w) :
  cache_consistent w /\ Forall (known_request env) (trace w).
Proof.
  induction Hreach as [t|w dt Hreach IH|w name args Hreach IH].
  - split; [|constructor]. split; cbn; [reflexivity|discriminate].
  - destruct IH as [[H1 H2] Hk]. split; [|exact Hk].
    pose proof (N2Z.is_nonneg dt) as Hdt.
    split; cbn [idle tokenExpiry authToken clock]; [exact H1|].
    intros e He. specialize (H2 e He). lia.
  - now apply CallToolHandler_keeps.
Qed.

Lemma reachable_invariant_witness :
  let env := Stub.backend Stub.token_ok
               (HttpOk (Stub.vector_body (JBool true) (JNum 0) []))
               (HttpOk (JArr [Stub.product_X])) in
  let w := snd (CallToolHandler env "products.search"
                  (JObj [("query", JStr "X")]) (idle (boot 1000) 50)) in
  reachable env w
  /\ cache_consistent w
  /\ List.length (trace w) = 3%nat.
Proof.
  cbv zeta.
  set (env := Stub.backend _ _ _).
  assert (H : reachable env
                (snd (CallToolHandler env "products.search"
                        (JObj [("query", JStr "X")]) (idle (boot 1000) 50))))
    by (apply reach_call, reach_idle, reach_boot).
  split; [exact H|]. split; [|reflexivity].
  exact (proj1 (reachable_invariant env _ H)).
Defined.

(** ** How much traffic a search causes *)

Lemma length_count (l : list Request) :
  List.length l = (count is_GET l + count is_POST l)%nat.
Proof.
  unfold count. induction l as [|[u b|u t ps] l IH]; cbn; lia.
Qed.

Lemma count_append (f : Request -> bool) (l1 l2 : list Request) :
  count f (l1 ++ l2) = (count f l1 + count f l2)%nat.
Proof. unfold count. rewrite filter_app. apply length_app. Qed.

(** One backend-client call sends at most one GET, to its own endpoint,
    and at most one login. *)
Lemma makeBackendRequest_traffic (env : Env) (ep : string)
      (ps : list (string * jsval)) (w : World) :
  exists l,
    sent w (snd (makeBackendRequest env ep ps w)) = l
    /\ trace (snd (makeBackendRequest env ep ps w)) = (trace w ++ l)%list
    /\ (count is_GET l <= 1)%nat
    /\ (count is_POST l <= 1)%nat
    /\ count (is_GET_to env ep) l = count is_GET l
    /\ (count is_GET l = 1%nat <-> exists token, fst (getAuthToken env w) = inr token).
Proof.
  destruct (makeBackendRequest_sent env ep ps w) as (l & Ht & Hg & Hp).
  exists l. split; [now apply sent_app|]. split; [exact Ht|].
  assert (Hc : count is_GET l = List.length (filter is_GET l)) by reflexivity.
  rewrite (count_gets (is_GET_to env ep) l (is_GET_to_is_GET env ep)).
  rewrite Hc. unfold count. rewrite Hg.
  destruct (fst (getAuthToken env w)) as [e|token]; cbn.
  - repeat split; try lia; try assumption; try discriminate.
    intros [token H]. discriminate.
  - rewrite prefix_eqb, String.eqb_refl. cbn.
    repeat split; try lia; try assumption. now exists token.
Qed.

(** A vector search never touches the listing endpoint: it sends the
    vector-search GET once if a token is obtained and not at all otherwise,
    at most one login, hence at most two requests, whatever the backend
    answers. *)
Theorem vectorSearchProducts_traffic (env : Env) (query limit threshold : jsval)
        (w : World) :
  let calls := sent w (snd (vectorSearchProducts env query limit threshold w)) in
  count (is_GET_to env PRODUCTS) calls = 0%nat
  /\ (count (is_GET_to env VECTOR_SEARCH) calls = 1%nat <->
      exists token, fst (getAuthToken env w) = inr token)
  /\ (count is_GET calls <= 1)%nat
  /\ (count is_POST calls <= 1)%nat
  /\ (List.length calls <= 2)%nat.
Proof.
  intros calls.
  destruct (makeBackendRequest_traffic env VECTOR_SEARCH
              [("query", query); ("limit", Js.default limit (JNum 10));
               ("threshold", Js.default threshold (JNum (7 # 10)))] w)
    as (l & Hs & Ht & Hg & Hp & Hown & Hiff).
  assert (Hcalls : calls = l).
  { subst calls. rewrite vectorSearchProducts_eq. cbn zeta.
    destruct (makeBackendRequest env VECTOR_SEARCH _ w) as [[e|results] w1];
      exact Hs. }
  rewrite Hcalls. rewrite Hown, length_count.
  split; [|repeat split; try lia; apply Hiff].
  assert (Hsum : (count (is_GET_to env PRODUCTS) l
                  + count (is_GET_to env VECTOR_SEARCH) l <= count is_GET l)%nat).
  { clear. unfold count. induction l as [|[u b|u t ps] l IH]; cbn; [lia|lia|].
    destruct (String.eqb_spec u (BACKEND_URL env ++ PRODUCTS)) as [->|_].
    - rewrite prefix_eqb. cbn. lia.
    - destruct (u =? BACKEND_URL env ++ VECTOR_SEARCH)%string; cbn; lia. }
  lia.
Qed.

Lemma vectorSearchProducts_traffic_witness :
  let env := Stub.backend Stub.token_ok
               (HttpOk (Stub.vector_body (JBool false) (JNum 0) []))
               (HttpOk (JArr [Stub.product_X])) in
  let calls := sent (boot 1000)
                 (snd (vectorSearchProducts env (JStr "X") JUndefined JUndefined
                         (boot 1000))) in
  count (is_GET_to env VECTOR_SEARCH) calls = 1%nat
  /\ count (is_GET_to env PRODUCTS) calls = 0%nat.
Proof.
  cbv zeta.
  set (env := Stub.backend _ _ _).
  destruct (vectorSearchProducts_traffic env (JStr "X") JUndefined JUndefined
              (boot 1000)) as (HP & HV & _).
  split; [|exact HP].
  apply HV. eexists. vm_compute. reflexivity.
Defined.

(** A literal search sends at most two logins and at most four requests
    in all. *)
Theorem searchProducts_traffic (env : Env) (query limit : jsval) (w : World) :
  let calls := sent w (snd (searchProducts env query limit w)) in
  (count is_POST calls <= 2)%nat /\ (List.length calls <= 4)%nat.
Proof.
  intros calls.
  assert (H : exists l1 l2,
             calls = (l1 ++ l2)%list
             /\ (count is_GET l1 <= 1)%nat /\ (count is_POST l1 <= 1)%nat
             /\ (count is_GET l2 <= 1)%nat /\ (count is_POST l2 <= 1)%nat).
  { subst calls. rewrite searchProducts_eq. cbn zeta.
    destruct (makeBackendRequest_traffic env VECTOR_SEARCH
                [("query", query); ("limit", Js.default limit (JNum 10))] w)
      as (l1 & Hs1 & Ht1 & Hg1 & Hp1 & _).
    destruct (makeBackendRequest env VECTOR_SEARCH _ w) as [[e|results] w1];
      cbn [snd] in *.
    { exists l1, []. rewrite app_nil_r. repeat split; auto; cbn; lia. }
    destruct (noVectorResults results) as [e|[|]]; cbn [snd];
      try (exists l1, []; rewrite app_nil_r; repeat split; auto; cbn; lia).
    destruct (makeBackendRequest_traffic env PRODUCTS
                [("search", query); ("limit", Js.default limit (JNum 10))] w1)
      as (l2 & Hs2 & Ht2 & Hg2 & Hp2 & _).
    exists l1, l2. split; [|auto].
    apply sent_app.
    destruct (makeBackendRequest env PRODUCTS _ w1) as [[e|nameResults] w2];
      cbn [snd] in *; rewrite Ht2, Ht1; now rewrite app_assoc. }
  destruct H as (l1 & l2 & -> & Hg1 & Hp1 & Hg2 & Hp2).
  rewrite length_count, !count_append. lia.
Qed.

(** ** Products, one by one *)

Lemma get_readable (v : jsval) (k : string) :
  readable v = true -> Js.get v k = inr (field v k).
Proof. unfold field. destruct v; cbn; try discriminate; reflexivity. Qed.

Lemma get_unreadable (v : jsval) (k : string) :
  readable v = false -> exists e, Js.get v k = inl e.
Proof. destruct v; cbn; try discriminate; eauto. Qed.

Lemma normalize_spec (x : jsval) :
  if readable x then exists y, normalize x = inr y /\ projected x y
  else exists e, normalize x = inl e.
Proof.
  destruct (readable x) eqn:Hr.
  - unfold normalize. rewrite !(get_readable x _ Hr). cbn. eexists. split; reflexivity.
  - unfold normalize. destruct (get_unreadable x "code" Hr) as [e ->]. cbn. eauto.
Qed.

Lemma fromListing_spec (x : jsval) :
  if readable x
  then exists y, fromListing x = inr y
                 /\ forall z, normalize y = inr z -> projected_twice x z
  else exists e, fromListing x = inl e.
Proof.
  destruct (readable x) eqn:Hr.
  - unfold fromListing. rewrite !(get_readable x _ Hr). cbn. eexists.
    split; [reflexivity|]. intros z. cbn. now intros [= <-].
  - unfold fromListing. destruct (get_unreadable x "code" Hr) as [e ->]. cbn. eauto.
Qed.

Lemma mapM_pointwise {A B} (f : A -> Exc B) (l : list A) (l' : list B) :
  Js.mapM f l = inr l' -> Forall2 (fun x y => f x = inr y) l l'.
Proof.
  revert l'. induction l as [|x l IH]; cbn; intros l'.
  - intros [= <-]. constructor.
  - destruct (f x) as [e|y] eqn:Hx; cbn; [discriminate|].
    destruct (Js.mapM f l) as [e|ys]; cbn; [discriminate|].
    intros [= <-]. constructor; [exact Hx|]. now apply IH.
Qed.

Lemma mapM_throws {A B} (f : A -> Exc B) (l : list A) (x : A) :
  In x l -> (exists e, f x = inl e) -> exists e, Js.mapM f l = inl e.
Proof.
  intros Hin [e He]. induction l as [|a l IH]; [contradiction|].
  cbn. destruct Hin as [->|Hin].
  - rewrite He. cbn. eauto.
  - destruct (f a) as [e'|y]; cbn; [eauto|].
    destruct (IH Hin) as [e' ->]. cbn. eauto.
Qed.

Lemma mapM_all {A B} (f : A -> Exc B) (l : list A) :
  Forall (fun x => exists y, f x = inr y) l -> exists l', Js.mapM f l = inr l'.
Proof.
  induction 1 as [|x l [y Hy] _ [l' IH]]; cbn; [eauto|].
  rewrite Hy, IH. cbn. eauto.
Qed.

Lemma normalize_all (l : list jsval) :
  forallb readable l = true ->
  exists ps, Js.mapM normalize l = inr ps /\ Forall2 projected l ps.
Proof.
  intros Hr.
  assert (Hall : Forall (fun x => exists y, normalize x = inr y) l).
  { apply Forall_forall. intros x Hx.
    pose proof (normalize_spec x) as Hs.
    rewrite (proj1 (forallb_forall readable l) Hr x Hx) in Hs.
    destruct Hs as (y & Hy & _). eauto. }
  destruct (mapM_all _ _ Hall) as [ps Hps]. exists ps. split; [exact Hps|].
  apply mapM_pointwise in Hps.
  clear Hall Hr. induction Hps as [|x y l ps Hxy _ IH]; constructor; [|exact IH].
  pose proof (normalize_spec x) as Hs. destruct (readable x).
  - destruct Hs as (y' & Hy' & Hp). congruence.
  - destruct Hs as [e He]. congruence.
Qed.

Lemma normalize_some_unreadable (l : list jsval) :
  forallb readable l = false -> exists e, Js.mapM normalize l = inl e.
Proof.
  intros Hr.
  assert (Hex : exists x, In x l /\ readable x = false).
  { induction l as [|a l IH]; [discriminate|]. cbn in Hr.
    destruct (readable a) eqn:Ha.
    - destruct (IH Hr) as (x & Hin & Hx). exists x. split; [now right|exact Hx].
    - exists a. split; [now left|exact Ha]. }
  destruct Hex as (x & Hin & Hx). apply (mapM_throws _ _ x Hin).
  pose proof (normalize_spec x) as Hs. now rewrite Hx in Hs.
Qed.

Lemma normalize_projected (x y : jsval) : normalize x = inr y -> projected x y.
Proof.
  intros H. pose proof (normalize_spec x) as Hs. destruct (readable x).
  - destruct Hs as (y' & Hy' & Hp). congruence.
  - destruct Hs as [e He]. congruence.
Qed.

Lemma normalized_keys (l ps : list jsval) :
  Js.mapM normalize l = inr ps -> Forall (fun p => keys p = PRODUCT_KEYS) ps.
Proof.
  intros H. apply mapM_pointwise in H.
  induction H as [|x y l ps Hxy _ IH]; constructor; [|exact IH].
  apply normalize_projected in Hxy. rewrite Hxy. reflexivity.
Qed.

Lemma literalResult_keys (query results v : jsval) :
  literalResult query results = inr v ->
  exists ps, Js.get v "products" = inr (JArr ps)
             /\ Forall (fun p => keys p = PRODUCT_KEYS) ps.
Proof.
  intros H.
  destruct (literalResult_inr _ _ _ H) as (tf & raw & ps & _ & _ & Hm & ->).
  exists ps. split; [reflexivity|].
  destruct (map_inr _ _ _ Hm) as (l & l' & _ & [= <-] & Hmm).
  exact (normalized_keys _ _ Hmm).
Qed.

(** Whatever the backend sends, every product either search hands back is
    an object with exactly the eight keys [code], [name], [unit],
    [estimatedPrice], [description], [type], [family] and [similarity], in
    that order: no other backend field gets through. *)
Theorem products_are_projections (env : Env) (query limit threshold : jsval)
        (w : World) :
  (exists v ps,
      fst (searchProducts env query limit w) = inr v
      /\ Js.get v "products" = inr (JArr ps)
      /\ Forall (fun p => keys p = PRODUCT_KEYS) ps)
  /\ (exists v ps,
         fst (vectorSearchProducts env query limit threshold w) = inr v
         /\ Js.get v "products" = inr (JArr ps)
         /\ Forall (fun p => keys p = PRODUCT_KEYS) ps).
Proof.
  set (P := fun ps : list jsval => Forall (fun p => keys p = PRODUCT_KEYS) ps).
  assert (Hnil : P []) by constructor.
  split.
  - rewrite searchProducts_eq. cbn zeta.
    destruct (makeBackendRequest env VECTOR_SEARCH _ w) as [[e|results] w1].
    { exists (failure e query), []. cbn. auto. }
    destruct (noVectorResults results) as [e|[|]].
    + exists (failure e query), []. cbn. auto.
    + destruct (makeBackendRequest env PRODUCTS _ w1) as [[e|nameResults] w2].
      { exists (failure e query), []. cbn. auto. }
      cbn [fst].
      destruct (settle_products P query
                  (results' <~ useListing env query results nameResults ;;
                   literalResult query results')) as (ps & Hp & HP);
        [exact Hnil| |eauto].
      intros v Hv.
      destruct (useListing env query results nameResults) as [e|r']; cbn in Hv;
        [discriminate|].
      exact (literalResult_keys _ _ _ Hv).
    + cbn [fst].
      destruct (settle_products P query (literalResult query results))
        as (ps & Hp & HP); [exact Hnil| |eauto].
      intros v Hv. exact (literalResult_keys _ _ _ Hv).
  - rewrite vectorSearchProducts_eq. cbn zeta.
    destruct (makeBackendRequest env VECTOR_SEARCH _ w) as [[e|results] w1].
    { exists (failure e query), []. cbn. auto. }
    cbn [fst].
    destruct (settle_products P query
                (vectorResult query (Js.default threshold (JNum (7 # 10))) results))
      as (ps & Hp & HP); [exact Hnil| |eauto].
    intros v Hv.
    destruct (vectorResult_inr _ _ _ _ Hv) as (ps & Hm & ->).
    exists ps. split; [reflexivity|].
    destruct (map_inr _ _ _ Hm) as (l & l' & _ & [= <-] & Hmm).
    exact (normalized_keys _ _ Hmm).
Qed.

(** ** What a vector search makes of the body *)

Lemma vectorResult_readable (query threshold body : jsval) :
  readable body = true ->
  vectorResult query threshold body =
  (products <~ Js.map normalize (Js.or (field body "products") (JArr [])) ;;
   inr (JObj [("success", field body "success");
              ("query", query);
              ("totalFound", Js.or (field body "totalFound") (JNum 0));
              ("threshold", Js.or (field body "threshold") threshold);
              ("products", products);
              ("cacheInfo", Js.or (field body "cacheInfo") JNull)]))%js.
Proof.
  intros Hr. unfold vectorResult. rewrite !(get_readable body _ Hr). reflexivity.
Qed.

(** When the vector-search request returns an object, the products of the
    result are those of the body, one for one and in the same order, each
    with [priceEstimated] renamed to [estimatedPrice], the six other fields
    copied and [similarity] kept when truthy and [null] otherwise; a body
    without products (or with a falsy one) gives an empty list, not an
    error. *)
Theorem vectorSearchProducts_products (env : Env)
        (query limit threshold body : jsval) (w w1 : World)
        (Hreq : makeBackendRequest env VECTOR_SEARCH
                  [("query", query);
                   ("limit", Js.default limit (JNum 10));
                   ("threshold", Js.default threshold (JNum (7 # 10)))] w
                = (inr body, w1))
        (Hbody : readable body = true) :
  (Js.truthy (field body "products") = false ->
   exists v, vectorSearchProducts env query limit threshold w = (inr v, w1)
             /\ field v "success" = field body "success"
             /\ field v "products" = JArr [])
  /\ (forall l, field body "products" = JArr l ->
                forallb readable l = true ->
                exists v ps,
                  vectorSearchProducts env query limit threshold w = (inr v, w1)
                  /\ field v "success" = field body "success"
                  /\ field v "products" = JArr ps
                  /\ Forall2 projected l ps).
Proof.
  split.
  - intros Hf. rewrite vectorSearchProducts_eq. cbn zeta. rewrite Hreq.
    rewrite (vectorResult_readable _ _ _ Hbody). unfold Js.or at 1. rewrite Hf.
    cbn. eexists. split; [reflexivity|]. split; reflexivity.
  - intros l Hl Hr. rewrite vectorSearchProducts_eq. cbn zeta. rewrite Hreq.
    rewrite (vectorResult_readable _ _ _ Hbody). rewrite Hl.
    destruct (normalize_all l Hr) as (ps & Hps & HF).
    unfold Js.or at 1. cbn [Js.truthy Js.map]. rewrite Hps. cbn.
    eexists. exists ps. split; [reflexivity|]. split; [reflexivity|].
    split; [reflexivity|exact HF].
Qed.

Lemma vectorSearchProducts_products_witness :
  let env := Stub.backend Stub.token_ok
               (HttpOk (Stub.full_body (JNum (7 # 10)))) Stub.refused in
  exists v ps,
    vectorSearchProducts env (JStr "Y") (JNum 5) JUndefined (boot 1000)
    = (inr v, snd (makeBackendRequest env VECTOR_SEARCH
                     [("query", JStr "Y"); ("limit", JNum 5);
                      ("threshold", JNum (7 # 10))] (boot 1000)))
    /\ field v "products" = JArr ps
    /\ Forall2 projected [Stub.product_Y] ps.
Proof.
  cbv zeta.
  set (env := Stub.backend _ _ _).
  assert (Hreq : makeBackendRequest env VECTOR_SEARCH
                   [("query", JStr "Y");
                    ("limit", Js.default (JNum 5) (JNum 10));
                    ("threshold", Js.default JUndefined (JNum (7 # 10)))]
                   (boot 1000)
                 = (inr (Stub.full_body (JNum (7 # 10))),
                    snd (makeBackendRequest env VECTOR_SEARCH
                           [("query", JStr "Y"); ("limit", JNum 5);
                            ("threshold", JNum (7 # 10))] (boot 1000))))
    by reflexivity.
  destruct (proj2 (vectorSearchProducts_products env (JStr "Y") (JNum 5) JUndefined
                     _ _ _ Hreq eq_refl) [Stub.product_Y] eq_refl eq_refl)
    as (v & ps & Hrun & _ & Hp & HF).
  exists v, ps. auto.
Defined.

(** A products list with a [null] in it, or a products value that is truthy
    but not an array, is not skipped over: the whole vector search turns into
    the failure envelope, with no products at all. *)
Theorem vectorSearchProducts_malformed_products (env : Env)
        (query limit threshold body : jsval) (w w1 : World)
        (Hreq : makeBackendRequest env VECTOR_SEARCH
                  [("query", query);
                   ("limit", Js.default limit (JNum 10));
                   ("threshold", Js.default threshold (JNum (7 # 10)))] w
                = (inr body, w1))
        (Hbad : (exists l, field body "products" = JArr l
                           /\ forallb readable l = false)
                \/ (Js.truthy (field body "products") = true
                    /\ is_array (field body "products") = false)) :
  exists msg,
    vectorSearchProducts env query limit threshold w
    = (inr (envelope msg query), w1).
Proof.
  rewrite vectorSearchProducts_eq. cbn zeta. rewrite Hreq.
  destruct (readable body) eqn:Hbody.
  - rewrite (vectorResult_readable _ _ _ Hbody).
    destruct Hbad as [(l & Hl & Hr)|[Ht Ha]].
    + rewrite Hl. unfold Js.or. cbn [Js.truthy Js.map].
      destruct (normalize_some_unreadable l Hr) as [e ->]. cbn.
      now exists (message e).
    + unfold Js.or. rewrite Ht.
      destruct (field body "products"); cbn in *; try discriminate;
        eexists; reflexivity.
  - destruct (get_unreadable body "success" Hbody) as [e He].
    unfold vectorResult. rewrite He. cbn. now exists (message e).
Qed.

Lemma vectorSearchProducts_malformed_products_witness :
  let env := Stub.backend Stub.token_ok
               (HttpOk (Stub.vector_body (JBool true) (JNum 2)
                          [Stub.product_X; JNull]))
               Stub.refused in
  exists msg,
    fst (vectorSearchProducts env (JStr "X") (JNum 5) JUndefined (boot 1000))
    = inr (envelope msg (JStr "X")).
Proof.
  cbv zeta.
  set (env := Stub.backend _ _ _).
  destruct (vectorSearchProducts_malformed_products env (JStr "X") (JNum 5)
              JUndefined
              (Stub.vector_body (JBool true) (JNum 2) [Stub.product_X; JNull])
              (boot 1000) _ eq_refl) as [msg Hrun].
  - left. exists [Stub.product_X; JNull]. split; reflexivity.
  - exists msg. now rewrite Hrun.
Defined.

(** ** Which source answers a literal search *)

Lemma noVectorResults_readable (body : jsval) :
  readable body = true ->
  noVectorResults body
  = inr (negb (Js.truthy (field body "success"))
         || Js.strict_eq_zero (field body "totalFound")).
Proof.
  intros Hr. unfold noVectorResults. rewrite !(get_readable body _ Hr). cbn.
  now destruct (Js.truthy (field body "success")).
Qed.

Lemma literalResult_readable (query results : jsval) :
  readable results = true ->
  literalResult query results =
  (products <~ Js.map normalize (Js.or (field results "products") (JArr [])) ;;
   inr (JObj [("success", JBool true);
              ("query", query);
              ("totalFound", Js.or (field results "totalFound") (JNum 0));
              ("products", products)]))%js.
Proof.
  intros Hr. unfold literalResult. rewrite !(get_readable results _ Hr). reflexivity.
Qed.

Lemma truthy_readable (v : jsval) (k : string) :
  Js.truthy (field v k) = true -> readable v = true.
Proof. destruct v; cbn; try discriminate; reflexivity. Qed.

Lemma fromListing_twice (x : jsval) :
  readable x = true ->
  exists y z, fromListing x = inr y /\ normalize y = inr z /\ projected_twice x z.
Proof.
  intros Hr. unfold fromListing. rewrite !(get_readable x _ Hr). cbn.
  eexists. eexists. split; [reflexivity|]. split; reflexivity.
Qed.

Lemma fromListing_all (l : list jsval) :
  forallb readable l = true ->
  exists ys zs, Js.mapM fromListing l = inr ys
                /\ Js.mapM normalize ys = inr zs
                /\ Forall2 projected_twice l zs.
Proof.
  induction l as [|x l IH]; cbn.
  - intros _. exists [], []. repeat split. constructor.
  - intros H. apply andb_prop in H as [Hx Hl].
    destruct (fromListing_twice x Hx) as (y & z & Hy & Hz & Hp).
    destruct (IH Hl) as (ys & zs & Hys & Hzs & HF).
    exists (y :: ys), (z :: zs). rewrite Hy, Hys. cbn. rewrite Hz, Hzs. cbn.
    repeat split. now constructor.
Qed.

(** When the vector-search body has a truthy [success] and a [totalFound]
    that is not [0] (a missing one included), the literal search answers
    from that body alone, without a second request: [success] is [true],
    [totalFound] is the body's (or [0] when falsy) and the products are the
    body's, projected one for one with their similarity. *)
Theorem searchProducts_vector_answers (env : Env) (query limit body : jsval)
        (w w1 : World)
        (Hreq : makeBackendRequest env VECTOR_SEARCH
                  [("query", query); ("limit", Js.default limit (JNum 10))] w
                = (inr body, w1))
        (Hsucc : Js.truthy (field body "success") = true)
        (Hfound : Js.strict_eq_zero (field body "totalFound") = false) :
  (Js.truthy (field body "products") = false ->
   searchProducts env query limit w =
   (inr (JObj [("success", JBool true);
               ("query", query);
               ("totalFound", Js.or (field body "totalFound") (JNum 0));
               ("products", JArr [])]), w1))
  /\ (forall l, field body "products" = JArr l ->
                forallb readable l = true ->
                exists ps,
                  searchProducts env query limit w =
                  (inr (JObj [("success", JBool true);
                              ("query", query);
                              ("totalFound", Js.or (field body "totalFound") (JNum 0));
                              ("products", JArr ps)]), w1)
                  /\ Forall2 projected l ps).
Proof.
  pose proof (truthy_readable _ _ Hsucc) as Hr.
  assert (Hrun : searchProducts env query limit w
                 = (inr (settle query (literalResult query body)), w1)).
  { rewrite searchProducts_eq. cbn zeta. rewrite Hreq.
    rewrite (noVectorResults_readable _ Hr), Hsucc, Hfound. reflexivity. }
  rewrite Hrun, (literalResult_readable _ _ Hr). split.
  - intros Hf. unfold Js.or at 1. rewrite Hf. reflexivity.
  - intros l Hl Hall. rewrite Hl.
    destruct (normalize_all l Hall) as (ps & Hps & HF).
    exists ps. split; [|exact HF].
    unfold Js.or at 1. cbn [Js.truthy Js.map]. rewrite Hps. reflexivity.
Qed.

Lemma searchProducts_vector_answers_witness :
  let env := Stub.backend Stub.token_ok
               (HttpOk (Stub.full_body (JNum (7 # 10)))) Stub.refused in
  exists ps,
    fst (searchProducts env (JStr "Y") (JNum 5) (boot 1000))
    = inr (JObj [("success", JBool true);
                 ("query", JStr "Y");
                 ("totalFound", JNum 1);
                 ("products", JArr ps)])
    /\ Forall2 projected [Stub.product_Y] ps.
Proof.
  cbv zeta.
  set (env := Stub.backend _ _ _).
  destruct (makeBackendRequest env VECTOR_SEARCH
              [("query", JStr "Y"); ("limit", Js.default (JNum 5) (JNum 10))]
              (boot 1000)) as [r w1] eqn:Hreq.
  assert (Hr : r = inr (Stub.full_body (JNum (7 # 10)))).
  { vm_compute in Hreq. now injection Hreq as <- _. }
  subst r.
  destruct (proj2 (searchProducts_vector_answers env (JStr "Y") (JNum 5) _ _ _
                     Hreq eq_refl eq_refl) [Stub.product_Y] eq_refl eq_refl)
    as (ps & Hrun & HF).
  exists ps. rewrite Hrun. split; [reflexivity|exact HF].
Defined.

(** When the vector search has nothing usable and the listing returns a
    non-empty array of products, the literal search answers from the
    listing: [totalFound] is the number of listed products, whatever the
    vector body said, and the products are the listed ones in order, each
    with its six plain fields copied, [similarity] [null], and
    [estimatedPrice] undefined because the price was renamed by the first
    mapping before the second one looked for [priceEstimated]. *)
Theorem searchProducts_listing_answers (env : Env) (query limit body : jsval)
        (l : list jsval) (w w1 w2 : World)
        (Hreq1 : makeBackendRequest env VECTOR_SEARCH
                   [("query", query); ("limit", Js.default limit (JNum 10))] w
                 = (inr body, w1))
        (Hnone : noVectorResults body = inr true)
        (Hreq2 : makeBackendRequest env PRODUCTS
                   [("search", query); ("limit", Js.default limit (JNum 10))] w1
                 = (inr (JArr l), w2))
        (Hsome : l <> [])
        (Hall : forallb readable l = true) :
  exists ps,
    searchProducts env query limit w =
    (inr (JObj [("success", JBool true);
                ("query", query);
                ("totalFound", Js.num_of_nat (List.length l));
                ("products", JArr ps)]), w2)
    /\ Forall2 projected_twice l ps.
Proof.
  destruct (fromListing_all l Hall) as (ys & zs & Hys & Hzs & HF).
  exists zs. split; [|exact HF].
  rewrite searchProducts_eq. cbn zeta. rewrite Hreq1, Hnone, Hreq2.
  assert (Hpos : Js.is_pos (inject_Z (Z.of_nat (List.length l))) = true).
  { destruct l; [contradiction|]. unfold Js.is_pos. cbn [Qnum inject_Z].
    apply Z.ltb_lt. cbn [List.length]. lia. }
  assert (Hnz : Js.is_zero (inject_Z (Z.of_nat (List.length l))) = false).
  { destruct l; [contradiction|]. unfold Js.is_zero. cbn [Qnum inject_Z].
    apply Z.eqb_neq. cbn [List.length]. lia. }
  unfold useListing, nonEmpty.
  cbn [Js.truthy Js.get String.eqb Ascii.eqb Bool.eqb ebind gt_zero Js.num_of_nat
       Js.num_of_Z Js.map].
  rewrite Hpos. cbn [ebind]. rewrite Hys. cbn [ebind].
  unfold literalResult.
  cbn [Js.get Js.lookup String.eqb Ascii.eqb Bool.eqb ebind].
  unfold Js.or. cbn [Js.truthy Js.map]. rewrite Hzs.
  change (Js.truthy (Js.num_of_nat (List.length l)))
    with (negb (Js.is_zero (inject_Z (Z.of_nat (List.length l))))).
  rewrite Hnz. reflexivity.
Qed.

Lemma searchProducts_listing_answers_witness :
  let env := Stub.backend Stub.token_ok
               (HttpOk (Stub.vector_body (JBool true) (JNum 0) []))
               (HttpOk (JArr [Stub.product_X])) in
  exists ps,
    fst (searchProducts env (JStr "X") (JNum 5) (boot 1000))
    = inr (JObj [("success", JBool true);
                 ("query", JStr "X");
                 ("totalFound", JNum 1);
                 ("products", JArr ps)])
    /\ Forall2 projected_twice [Stub.product_X] ps.
Proof.
  cbv zeta.
  set (env := Stub.backend _ _ _).
  destruct (makeBackendRequest env VECTOR_SEARCH
              [("query", JStr "X"); ("limit", Js.default (JNum 5) (JNum 10))]
              (boot 1000)) as [r1 w1] eqn:Hreq1.
  assert (Hr1 : r1 = inr (Stub.vector_body (JBool true) (JNum 0) [])
                /\ w1 = snd (makeBackendRequest env VECTOR_SEARCH
                               [("query", JStr "X"); ("limit", JNum 5)] (boot 1000))).
  { vm_compute in Hreq1. injection Hreq1 as <- <-. split; reflexivity. }
  destruct Hr1 as [-> Hw1].
  destruct (makeBackendRequest env PRODUCTS
              [("search", JStr "X"); ("limit", Js.default (JNum 5) (JNum 10))]
              w1) as [r2 w2] eqn:Hreq2.
  assert (Hr2 : r2 = inr (JArr [Stub.product_X])).
  { rewrite Hw1 in Hreq2. vm_compute in Hreq2. now injection Hreq2 as <- _. }
  subst r2.
  destruct (searchProducts_listing_answers env (JStr "X") (JNum 5) _
              [Stub.product_X] _ _ _ Hreq1 eq_refl Hreq2
              ltac:(discriminate) eq_refl) as (ps & Hrun & HF).
  exists ps. rewrite Hrun. split; [reflexivity|exact HF].
Defined.

Lemma noVectorResults_inr (body : jsval) (b : bool) :
  noVectorResults body = inr b -> readable body = true.
Proof.
  destruct (readable body) eqn:Hr; [reflexivity|].
  destruct (get_unreadable body "success" Hr) as [e He].
  unfold noVectorResults. rewrite He. discriminate.
Qed.

(** When the vector search has nothing usable and the listing is empty too
    (the test [nameResults && nameResults.length > 0] is false), the literal
    search falls back on the vector body after all: it reports
    [success: true] with that body's [totalFound] and products, even if the
    body said [success: false]. *)
Theorem searchProducts_empty_listing (env : Env)
        (query limit body nameResults : jsval) (w w1 w2 : World)
        (Hreq1 : makeBackendRequest env VECTOR_SEARCH
                   [("query", query); ("limit", Js.default limit (JNum 10))] w
                 = (inr body, w1))
        (Hnone : noVectorResults body = inr true)
        (Hreq2 : makeBackendRequest env PRODUCTS
                   [("search", query); ("limit", Js.default limit (JNum 10))] w1
                 = (inr nameResults, w2))
        (Hempty : nonEmpty env nameResults = inr false) :
  (Js.truthy (field body "products") = false ->
   searchProducts env query limit w =
   (inr (JObj [("success", JBool true);
               ("query", query);
               ("totalFound", Js.or (field body "totalFound") (JNum 0));
               ("products", JArr [])]), w2))
  /\ (forall l, field body "products" = JArr l ->
                forallb readable l = true ->
                exists ps,
                  searchProducts env query limit w =
                  (inr (JObj [("success", JBool true);
                              ("query", query);
                              ("totalFound", Js.or (field body "totalFound") (JNum 0));
                              ("products", JArr ps)]), w2)
                  /\ Forall2 projected l ps).
Proof.
  pose proof (noVectorResults_inr _ _ Hnone) as Hr.
  assert (Hrun : searchProducts env query limit w
                 = (inr (settle query (literalResult query body)), w2)).
  { rewrite searchProducts_eq. cbn zeta. rewrite Hreq1, Hnone, Hreq2.
    unfold useListing. rewrite Hempty. reflexivity. }
  rewrite Hrun, (literalResult_readable _ _ Hr). split.
  - intros Hf. unfold Js.or at 1. rewrite Hf. reflexivity.
  - intros l Hl Hall. rewrite Hl.
    destruct (normalize_all l Hall) as (ps & Hps & HF).
    exists ps. split; [|exact HF].
    unfold Js.or at 1. cbn [Js.truthy Js.map]. rewrite Hps. reflexivity.
Qed.

Lemma searchProducts_empty_listing_witness :
  let env := Stub.backend Stub.token_ok
               (HttpOk (Stub.vector_body (JBool false) (JNum 1) [Stub.product_Y]))
               (HttpOk (JArr [])) in
  exists ps,
    fst (searchProducts env (JStr "Y") (JNum 5) (boot 1000))
    = inr (JObj [("success", JBool true);
                 ("query", JStr "Y");
                 ("totalFound", JNum 1);
                 ("products", JArr ps)])
    /\ Forall2 projected [Stub.product_Y] ps.
Proof.
  cbv zeta.
  set (env := Stub.backend _ _ _).
  destruct (makeBackendRequest env VECTOR_SEARCH
              [("query", JStr "Y"); ("limit", Js.default (JNum 5) (JNum 10))]
              (boot 1000)) as [r1 w1] eqn:Hreq1.
  assert (Hr1 : r1 = inr (Stub.vector_body (JBool false) (JNum 1) [Stub.product_Y])
                /\ w1 = snd (makeBackendRequest env VECTOR_SEARCH
                               [("query", JStr "Y"); ("limit", JNum 5)] (boot 1000))).
  { vm_compute in Hreq1. injection Hreq1 as <- <-. split; reflexivity. }
  destruct Hr1 as [-> Hw1].
  destruct (makeBackendRequest env PRODUCTS
              [("search", JStr "Y"); ("limit", Js.default (JNum 5) (JNum 10))]
              w1) as [r2 w2] eqn:Hreq2.
  assert (Hr2 : r2 = inr (JArr [])).
  { rewrite Hw1 in Hreq2. vm_compute in Hreq2. now injection Hreq2 as <- _. }
  subst r2.
  destruct (proj2 (searchProducts_empty_listing env (JStr "Y") (JNum 5) _ _ _ _ _
                     Hreq1 eq_refl Hreq2 eq_refl)
              [Stub.product_Y] eq_refl eq_refl) as (ps & Hrun & HF).
  exists ps. rewrite Hrun. split; [reflexivity|exact HF].
Defined.

(** A listing that passes the non-emptiness test without being an array of
    readable products makes the literal search fail as a whole: a body that
    is a non-empty text (an HTML page, say) or an array with a [null] in it
    ends in the failure envelope, the products already listed are not kept. *)
Theorem searchProducts_malformed_listing (env : Env)
        (query limit body nameResults : jsval) (w w1 w2 : World)
        (Hreq1 : makeBackendRequest env VECTOR_SEARCH
                   [("query", query); ("limit", Js.default limit (JNum 10))] w
                 = (inr body, w1))
        (Hnone : noVectorResults body = inr true)
        (Hreq2 : makeBackendRequest env PRODUCTS
                   [("search", query); ("limit", Js.default limit (JNum 10))] w1
                 = (inr nameResults, w2))
        (Hbad : (exists s, nameResults = JStr s /\ s <> "")
                \/ (exists l, nameResults = JArr l /\ forallb readable l = false)) :
  exists msg,
    searchProducts env query limit w = (inr (envelope msg query), w2).
Proof.
  rewrite searchProducts_eq. cbn zeta. rewrite Hreq1, Hnone, Hreq2.
  destruct Hbad as [(s & -> & Hs)|(l & -> & Hl)].
  - unfold useListing, nonEmpty.
    assert (Ht : Js.truthy (JStr s) = true).
    { cbn. destruct (String.eqb_spec s ""); [contradiction|reflexivity]. }
    rewrite Ht.
    cbn [Js.get String.eqb Ascii.eqb Bool.eqb ebind gt_zero Js.num_of_nat
         Js.num_of_Z].
    assert (Hpos : Js.is_pos (inject_Z (Z.of_nat (String.length s))) = true).
    { destruct s; [contradiction|]. unfold Js.is_pos. cbn [Qnum inject_Z].
      apply Z.ltb_lt. cbn [String.length]. lia. }
    rewrite Hpos. cbn. eexists. reflexivity.
  - assert (Hne : l <> []) by (intros ->; discriminate).
    unfold useListing, nonEmpty.
    cbn [Js.truthy Js.get String.eqb Ascii.eqb Bool.eqb ebind gt_zero
         Js.num_of_nat Js.num_of_Z Js.map].
    assert (Hpos : Js.is_pos (inject_Z (Z.of_nat (List.length l))) = true).
    { destruct l; [contradiction|]. unfold Js.is_pos. cbn [Qnum inject_Z].
      apply Z.ltb_lt. cbn [List.length]. lia. }
    rewrite Hpos. cbn [ebind].
    assert (Hthrow : exists e, Js.mapM fromListing l = inl e).
    { assert (Hex : exists x, In x l /\ readable x = false).
      { clear - Hl. induction l as [|a l IH]; [discriminate|]. cbn in Hl.
        destruct (readable a) eqn:Ha.
        - destruct (IH Hl) as (x & Hin & Hx). exists x. split; [now right|exact Hx].
        - exists a. split; [now left|exact Ha]. }
      destruct Hex as (x & Hin & Hx). apply (mapM_throws _ _ x Hin).
      pose proof (fromListing_spec x) as Hspec. now rewrite Hx in Hspec. }
    destruct Hthrow as [e ->]. cbn. now exists (message e).
Qed.

Lemma searchProducts_malformed_listing_witness :
  let env := Stub.backend Stub.token_ok
               (HttpOk (Stub.vector_body (JBool true) (JNum 0) []))
               (HttpOk (JStr "<html>Bad Gateway</html>")) in
  exists msg,
    fst (searchProducts env (JStr "X") (JNum 5) (boot 1000))
    = inr (envelope msg (JStr "X")).
Proof.
  cbv zeta.
  set (env := Stub.backend _ _ _).
  destruct (makeBackendRequest env VECTOR_SEARCH
              [("query", JStr "X"); ("limit", Js.default (JNum 5) (JNum 10))]
              (boot 1000)) as [r1 w1] eqn:Hreq1.
  assert (Hr1 : r1 = inr (Stub.vector_body (JBool true) (JNum 0) [])
                /\ w1 = snd (makeBackendRequest env VECTOR_SEARCH
                               [("query", JStr "X"); ("limit", JNum 5)] (boot 1000))).
  { vm_compute in Hreq1. injection Hreq1 as <- <-. split; reflexivity. }
  destruct Hr1 as [-> Hw1].
  destruct (makeBackendRequest env PRODUCTS
              [("search", JStr "X"); ("limit", Js.default (JNum 5) (JNum 10))]
              w1) as [r2 w2] eqn:Hreq2.
  assert (Hr2 : r2 = inr (JStr "<html>Bad Gateway</html>")).
  { rewrite Hw1 in Hreq2. vm_compute in Hreq2. now injection Hreq2 as <- _. }
  subst r2.
  destruct (searchProducts_malformed_listing env (JStr "X") (JNum 5) _ _ _ _ _
              Hreq1 eq_refl Hreq2) as [msg Hrun].
  - left. eexists. split; [reflexivity|discriminate].
  - exists msg. now rewrite Hrun.
Defined.

(** ** The gateway: dispatch *)

Lemma destructure_readable (args : jsval) (k : string) :
  readable args = true -> destructure args k = inr (field args k).
Proof. unfold field. destruct args; cbn; try discriminate; reflexivity. Qed.

Lemma destructure_unreadable (args : jsval) (k : string) :
  readable args = false -> exists e, destructure args k = inl e.
Proof. destruct args; cbn; try discriminate; eauto. Qed.

(** With arguments that can be destructured, each tool hands its search
    the [query], the [limit] (10 when absent) and, for the vector search, the
    [threshold] (0.7 when absent) of the arguments, and delivers the value
    the search returns as the text of an output that is not flagged: a
    search that failed is reported through [success: false] in the payload
    only, never through [isError]. *)
Theorem CallToolHandler_dispatch (env : Env) (args : jsval) (w : World)
        (Hargs : readable args = true) :
  (forall v w',
      searchProducts env (field args "query")
        (Js.default (field args "limit") (JNum 10)) w = (inr v, w') ->
      CallToolHandler env "products.search" args w
      = (inr {| content := [Text v]; isError := None |}, w'))
  /\ (forall v w',
         vectorSearchProducts env (field args "query")
           (Js.default (field args "limit") (JNum 10))
           (Js.default (field args "threshold") (JNum (7 # 10))) w = (inr v, w') ->
         CallToolHandler env "products.vectorSearch" args w
         = (inr {| content := [Text v]; isError := None |}, w')).
Proof.
  split; intros v w' Hrun;
    unfold CallToolHandler, try_catch, bind, lift, ret; cbn [String.eqb Ascii.eqb Bool.eqb];
    rewrite !(destructure_readable args _ Hargs), Hrun; reflexivity.
Qed.

Lemma CallToolHandler_dispatch_witness :
  let env := Stub.backend Stub.refused Stub.refused Stub.refused in
  let args := JObj [("query", JStr "X")] in
  readable args = true
  /\ exists w',
       CallToolHandler env "products.search" args (boot 1000)
       = (inr {| content := [Text (envelope "Failed to authenticate with backend"
                                     (JStr "X"))];
                 isError := None |}, w').
Proof.
  cbv zeta. split; [reflexivity|].
  eexists.
  apply (proj1 (CallToolHandler_dispatch
                  (Stub.backend Stub.refused Stub.refused Stub.refused)
                  (JObj [("query", JStr "X")]) (boot 1000) eq_refl)).
  reflexivity.
Defined.

Lemma searchProducts_returns (env : Env) (query limit : jsval) (w : World) :
  exists v, fst (searchProducts env query limit w) = inr v.
Proof.
  unfold searchProducts, try_catch. cbn zeta.
  destruct (searchProducts_try env query _ w) as [[e|v] w']; cbn; eauto.
Qed.

Lemma vectorSearchProducts_returns (env : Env) (query limit threshold : jsval)
      (w : World) :
  exists v, fst (vectorSearchProducts env query limit threshold w) = inr v.
Proof.
  unfold vectorSearchProducts, try_catch. cbn zeta.
  destruct (vectorSearchProducts_try env query _ _ w) as [[e|v] w']; cbn; eauto.
Qed.

(** The handler flags its output with [isError] in exactly two cases: the
    tool name is not one of the two it knows, or the arguments are missing
    ([undefined] or [null]).  In both it has not contacted the backend nor
    touched the cache. *)
Theorem CallToolHandler_error_flag (env : Env) (name : string) (args : jsval)
        (w : World) :
  exists tr,
    fst (CallToolHandler env name args w) = inr tr
    /\ (isError tr = Some true <->
        (name <> "products.search" /\ name <> "products.vectorSearch")
        \/ readable args = false)
    /\ (isError tr = Some true -> snd (CallToolHandler env name args w) = w).
Proof.
  unfold CallToolHandler, try_catch, bind, lift, ret, throw.
  destruct (String.eqb_spec name "products.search") as [->|Hs].
  - destruct (readable args) eqn:Hr.
    + rewrite !(destructure_readable args _ Hr).
      destruct (searchProducts env _ _ w) as [[e|v] w'] eqn:Hrun.
      * exfalso.
        destruct (searchProducts_returns env (field args "query")
                    (Js.default (field args "limit") (JNum 10)) w) as [v Hv].
        rewrite Hrun in Hv. discriminate.
      * eexists. split; [reflexivity|]. cbn. split; [split|]; try discriminate.
        intros [[H _]|H]; [now elim H|discriminate].
    + destruct (destructure_unreadable args "query" Hr) as [e ->].
      eexists. split; [reflexivity|]. cbn. split; [split|]; auto.
  - destruct (String.eqb_spec name "products.vectorSearch") as [->|Hv].
    + destruct (readable args) eqn:Hr.
      * rewrite !(destructure_readable args _ Hr).
        destruct (vectorSearchProducts env _ _ _ w) as [[e|v] w'] eqn:Hrun.
        -- exfalso.
           destruct (vectorSearchProducts_returns env (field args "query")
                       (Js.default (field args "limit") (JNum 10))
                       (Js.default (field args "threshold") (JNum (7 # 10))) w)
             as [v Hv].
           rewrite Hrun in Hv. discriminate.
        -- eexists. split; [reflexivity|]. cbn. split; [split|]; try discriminate.
           intros [[_ H]|H]; [now elim H|discriminate].
      * destruct (destructure_unreadable args "query" Hr) as [e ->].
        eexists. split; [reflexivity|]. cbn. split; [split|]; auto.
    + eexists. split; [reflexivity|]. cbn. split; [split|]; auto.
Qed.

Lemma CallToolHandler_error_flag_witness :
  let env := Stub.backend Stub.token_ok Stub.refused Stub.refused in
  exists tr,
    CallToolHandler env "products.search" JUndefined (boot 1000) = (inr tr, boot 1000)
    /\ isError tr = Some true.
Proof.
  cbv zeta.
  set (env := Stub.backend _ _ _).
  destruct (CallToolHandler_error_flag env "products.search" JUndefined (boot 1000))
    as (tr & Htr & Hiff & Hw).
  assert (Hflag : isError tr = Some true) by (apply Hiff; now right).
  exists tr. split; [|exact Hflag].
  specialize (Hw Hflag).
  destruct (CallToolHandler env "products.search" JUndefined (boot 1000)) as [r w'].
  cbn in Htr, Hw. now subst.
Defined.

(** ** The gateway: what it advertises *)

Lemma lookup_app (k p : string) (d : jsval) (ps : list (string * jsval)) :
  Js.lookup k (ps ++ [(p, d)])
  = match Js.lookup k ps with
    | Some v => Some v
    | None => if (k =? p)%string then Some d else None
    end.
Proof.
  induction ps as [|[k' v] ps IH]; cbn; [reflexivity|].
  now destruct (k =? k')%string.
Qed.

Lemma unknown_name (env : Env) (name : string) (args : jsval) (w : World) :
  name <> "products.search" -> name <> "products.vectorSearch" ->
  CallToolHandler env name args w = (inr (unknown_tool name), w).
Proof.
  intros Hs Hv. unfold CallToolHandler, try_catch.
  destruct (String.eqb_spec name "products.search") as [->|_]; [contradiction|].
  destruct (String.eqb_spec name "products.vectorSearch") as [->|_];
    [contradiction|].
  reflexivity.
Qed.

(** The tools the server lists are exactly the names its call handler
    knows: a listed name is never answered with "Unknown tool", whatever the
    arguments and the state, and every other name always is, whatever the
    arguments and the state, with nothing else done. *)
Theorem listed_tools_are_dispatched (env : Env) (name : string) :
  (In (JStr name) (List.map (fun tool => field tool "name") listed_tools) ->
   forall args w,
     fst (CallToolHandler env name args w) <> inr (unknown_tool name))
  /\ (~ In (JStr name) (List.map (fun tool => field tool "name") listed_tools) ->
      forall args w,
        CallToolHandler env name args w = (inr (unknown_tool name), w)).
Proof.
  split.
  - intros Hin args w.
    assert (Hname : name = "products.search" \/ name = "products.vectorSearch").
    { cbn in Hin. destruct Hin as [[= <-]|[[= <-]|[]]]; auto. }
    destruct (readable args) eqn:Hr.
    + destruct (CallToolHandler_error_flag env name args w) as (tr & Htr & Hiff & _).
      rewrite Htr. intros [= ->].
      assert (Hflag : isError (unknown_tool name) = Some true) by reflexivity.
      apply Hiff in Hflag. destruct Hflag as [[H1 H2]|H]; [|congruence].
      destruct Hname; contradiction.
    + destruct Hname as [-> | ->]; destruct args; try discriminate;
        cbn; intros [= H]; discriminate.
  - intros Hnot args w. apply unknown_name.
    + intros ->. apply Hnot. cbn. auto.
    + intros ->. apply Hnot. cbn. auto.
Qed.

Lemma listed_tools_are_dispatched_witness :
  let env := Stub.backend Stub.token_ok Stub.refused Stub.refused in
  let names := List.map (fun tool => field tool "name") listed_tools in
  In (JStr "products.vectorSearch") names
  /\ fst (CallToolHandler env "products.vectorSearch" JNull (boot 1000))
     <> inr (unknown_tool "products.vectorSearch")
  /\ ~ In (JStr "products.delete") names
  /\ CallToolHandler env "products.delete" (JObj [("query", JStr "X")]) (boot 1000)
     = (inr (unknown_tool "products.delete"), boot 1000).
Proof.
  cbv zeta.
  assert (Hin : In (JStr "products.vectorSearch")
                   (List.map (fun tool => field tool "name") listed_tools))
    by (cbn; auto).
  assert (Hout : ~ In (JStr "products.delete")
                     (List.map (fun tool => field tool "name") listed_tools))
    by (cbn; intros [H|[H|[]]]; discriminate).
  split; [exact Hin|]. split.
  - exact (proj1 (listed_tools_are_dispatched _ "products.vectorSearch") Hin
             JNull (boot 1000)).
  - split; [exact Hout|].
    exact (proj2 (listed_tools_are_dispatched _ "products.delete") Hout
             (JObj [("query", JStr "X")]) (boot 1000)).
Defined.

(** The defaults the input schemas advertise are the ones the call handler
    applies: for a listed tool, leaving out a property that declares a
    default gives the same result, and the same requests, as passing that
    default explicitly. *)
Theorem schema_defaults_are_applied (env : Env) (tool : jsval) (name p : string)
        (d : jsval) (ps : list (string * jsval)) (w : World)
        (Htool : In tool listed_tools)
        (Hname : field tool "name" = JStr name)
        (Hdefault : In (p, d) (schema_defaults tool))
        (Habsent : Js.lookup p ps = None) :
  CallToolHandler env name (JObj ps) w
  = CallToolHandler env name (JObj (ps ++ [(p, d)])) w.
Proof.
  assert (Hcases : (name = "products.search" /\ p = "limit" /\ d = JNum 10)
                   \/ (name = "products.vectorSearch" /\ p = "limit" /\ d = JNum 10)
                   \/ (name = "products.vectorSearch" /\ p = "threshold"
                       /\ d = JNum (7 # 10))).
  { cbn in Htool. destruct Htool as [<-|[<-|[]]]; cbn in Hname, Hdefault;
      injection Hname as <-.
    - destruct Hdefault as [[= <- <-]|[]]. auto.
    - destruct Hdefault as [[= <- <-]|[[= <- <-]|[]]]; auto. }
  unfold CallToolHandler, try_catch, bind, lift, ret.
  destruct Hcases as [(-> & -> & ->)|[(-> & -> & ->)|(-> & -> & ->)]];
    cbn [String.eqb Ascii.eqb Bool.eqb destructure Js.get];
    rewrite !lookup_app, Habsent;
    cbn [String.eqb Ascii.eqb Bool.eqb];
    repeat match goal with
           | |- context [match Js.lookup ?k ps with _ => _ end] =>
               destruct (Js.lookup k ps)
           end;
    reflexivity.
Qed.

Lemma schema_defaults_are_applied_witness :
  let env := Stub.backend Stub.token_ok
               (HttpOk (Stub.full_body (JNum (7 # 10)))) Stub.refused in
  CallToolHandler env "products.vectorSearch" (JObj [("query", JStr "Y")]) (boot 1000)
  = CallToolHandler env "products.vectorSearch"
      (JObj [("query", JStr "Y"); ("threshold", JNum (7 # 10))]) (boot 1000).
Proof.
  cbv zeta.
  apply (schema_defaults_are_applied _
           (nth 1 listed_tools JNull) "products.vectorSearch" "threshold"
           (JNum (7 # 10)) [("query", JStr "Y")] (boot 1000)).
  - cbn. auto.
  - reflexivity.
  - cbn. auto.
  - reflexivity.
Defined.

(** ** The response validator *)

Lemma checkProduct_readable (product : jsval) (index : nat) (errs : list string) :
  readable product = true ->
  exists report,
    checkProduct product index errs
    = inr (if product_ok product then errs
           else (errs ++ [("Product " ++ report)%string])%list).
Proof.
  intros Hr. unfold checkProduct, product_ok.
  rewrite !(get_readable product _ Hr), Hr. cbn [ebind andb].
  destruct (typeof (field product "code") =? "number")%string;
    destruct (typeof (field product "name") =? "string")%string;
    destruct (typeof (field product "unit") =? "string")%string;
    destruct (typeof (field product "estimatedPrice") =? "number")%string;
    cbn [negb push_if app List.length Nat.ltb Nat.leb andb];
    first [eexists; reflexivity | exists ""; reflexivity].
Qed.

Lemma checkProduct_unreadable (product : jsval) (index : nat) (errs : list string) :
  readable product = false -> exists e, checkProduct product index errs = inl e.
Proof.
  intros Hr. unfold checkProduct.
  destruct (get_unreadable product "code" Hr) as [e ->]. cbn. eauto.
Qed.

Lemma product_ok_readable (product : jsval) :
  product_ok product = true -> readable product = true.
Proof. unfold product_ok. destruct (readable product); [reflexivity|discriminate]. Qed.

(** The loop over the products adds one "Product ..." line per product
    that fails a check, and throws on a product that cannot be read. *)
Lemma forEach_from_spec (l : list jsval) (index : nat) (errs : list string) :
  match forEach_from index l errs with
  | inr errs' =>
      (exists added,
          errs' = (errs ++ List.map (fun report => ("Product " ++ report)%string)
                                    added)%list
          /\ (added = [] <-> forallb product_ok l = true))
      /\ forallb readable l = true
  | inl _ => forallb readable l = false
  end.
Proof.
  revert index errs. induction l as [|p l IH]; intros index errs; cbn.
  - split; [|reflexivity]. exists []. rewrite app_nil_r. split; [reflexivity|tauto].
  - destruct (readable p) eqn:Hr.
    + destruct (checkProduct_readable p index errs Hr) as [report ->]. cbn [ebind].
      specialize (IH (S index)
                     (if product_ok p then errs
                      else (errs ++ [("Product " ++ report)%string])%list)).
      destruct (forEach_from (S index) l _) as [e|errs']; [exact IH|].
      destruct IH as [(added & -> & Hadded) Hall]. split; [|exact Hall].
      destruct (product_ok p); cbn [andb].
      * exists added. split; [reflexivity|exact Hadded].
      * exists (report :: added). rewrite <- app_assoc. split; [reflexivity|].
        split; discriminate.
    + destruct (checkProduct_unreadable p index errs Hr) as [e ->]. reflexivity.
Qed.

Lemma result_ok_readable (result : jsval) :
  result_ok result = true -> readable result = true.
Proof.
  unfold result_ok. intros H. apply andb_prop in H as [H _].
  apply andb_prop in H as [H _]. apply andb_prop in H as [H _].
  exact (truthy_readable _ _ H).
Qed.

Lemma forallb_product_ok_readable (l : list jsval) :
  forallb product_ok l = true -> forallb readable l = true.
Proof.
  induction l as [|p l IH]; cbn; [reflexivity|].
  intros H. apply andb_prop in H as [Hp Hl].
  now rewrite (product_ok_readable _ Hp), IH.
Qed.

(** The validator's verdict, stated at once: a response whose first text
    serialises a value is declared valid exactly when the parsed result has a
    truthy [success], a string [query], a number [totalFound] and an array
    [products] in which every product can be read and has a number [code], a
    string [name], a string [unit] and a number [estimatedPrice]; a valid
    verdict comes with no error line and with the parsed result as data. *)
Theorem validateResponse_verdict (response : ToolResult) (v : jsval)
        (rest : list Content)
        (Hcontent : content response = Text v :: rest)
        (Hdefined : v <> JUndefined) :
  valid (validateResponse response) = result_ok (reparse v)
  /\ (valid (validateResponse response) = true ->
      errors (validateResponse response) = []
      /\ data (validateResponse response) = reparse v).
Proof.
  unfold validateResponse, validateResponse_try, first_text. rewrite Hcontent.
  assert (Hparse : JSON_parse v = inr (reparse v))
    by (destruct v; try reflexivity; contradiction).
  cbn [ebind]. rewrite Hparse. cbn [ebind].
  set (r := reparse v).
  destruct (readable r) eqn:Hr.
  - rewrite !(get_readable r _ Hr). cbn [ebind].
    unfold result_ok.
    destruct (field r "products") as [| | | | |l|] eqn:Hp;
      try (cbn; rewrite !andb_false_r; split; [reflexivity|discriminate]).
    cbn [is_array negb push_if forEach].
    set (errs := push_if _ _ (push_if _ _ (push_if _ _ []))).
    pose proof (forEach_from_spec l 0 errs) as Hloop.
    destruct (forEach_from 0 l errs) as [e|errs'].
    + cbn [ebind valid]. split; [|discriminate].
      destruct (forallb product_ok l) eqn:Hok.
      * apply forallb_product_ok_readable in Hok. congruence.
      * now rewrite !andb_false_r.
    + cbn [ebind valid errors data].
      destruct Hloop as [(added & -> & Hadded) _].
      assert (Herrs : (List.length errs =? 0)%nat
                      = Js.truthy (field r "success")
                        && (typeof (field r "query") =? "string")%string
                        && (typeof (field r "totalFound") =? "number")%string).
      { subst errs.
        destruct (Js.truthy (field r "success"));
          destruct (typeof (field r "query") =? "string")%string;
          destruct (typeof (field r "totalFound") =? "number")%string;
          reflexivity. }
      rewrite length_app, length_map.
      destruct (forallb product_ok l) eqn:Hok.
      * rewrite (proj2 Hadded eq_refl). cbn [List.length].
        rewrite Nat.add_0_r, Herrs, andb_true_r.
        split; [reflexivity|]. intros Hv. rewrite <- Herrs in Hv.
        apply Nat.eqb_eq in Hv. rewrite app_nil_r.
        split; [|reflexivity]. now destruct errs.
      * rewrite andb_false_r.
        assert (Hne : added <> [])
          by (intros H; apply Hadded in H; discriminate).
        destruct added as [|a added]; [contradiction|]. cbn [List.length].
        rewrite Nat.add_succ_r. split; [reflexivity|discriminate].
  - destruct (get_unreadable r "success" Hr) as [e ->]. cbn.
    split; [|discriminate].
    destruct (result_ok r) eqn:Hok; [|reflexivity].
    apply result_ok_readable in Hok. congruence.
Qed.

Lemma validateResponse_verdict_witness :
  let response := {| content := [Text (envelope "Backend request failed: timeout"
                                         (JStr "X"))];
                     isError := None |} in
  valid (validateResponse response) = false
  /\ result_ok (reparse (envelope "Backend request failed: timeout" (JStr "X")))
     = false.
Proof.
  cbv zeta.
  destruct (validateResponse_verdict
              {| content := [Text (envelope "Backend request failed: timeout"
                                     (JStr "X"))];
                 isError := None |}
              (envelope "Backend request failed: timeout" (JStr "X")) []
              eq_refl ltac:(discriminate)) as [Hv _].
  split; [rewrite Hv|]; reflexivity.
Defined.

(** What a run of the [try] block leaves in the error list: the three
    top-level field messages that apply, then "Product ..." lines. *)
Lemma validateResponse_try_inr (response : ToolResult) (errs : list string)
      (result : jsval) :
  validateResponse_try response = inr (errs, result) ->
  exists l added,
    field result "products" = JArr l
    /\ errs =
       (push_if (negb (typeof (field result "totalFound") =? "number")%string)
          (invalid_field "totalFound")
          (push_if (negb (typeof (field result "query") =? "string")%string)
             (invalid_field "query")
             (push_if (negb (Js.truthy (field result "success")))
                (invalid_field "success") []))
        ++ List.map (fun report => ("Product " ++ report)%string) added)%list.
Proof.
  unfold validateResponse_try.
  destruct (first_text response) as [e|v]; cbn [ebind]; [discriminate|].
  destruct (JSON_parse v) as [e|r]; cbn [ebind]; [discriminate|].
  destruct (readable r) eqn:Hr.
  - rewrite !(get_readable r _ Hr). cbn [ebind].
    destruct (field r "products") as [| | | | |l|] eqn:Hp; try discriminate.
    cbn [is_array negb push_if forEach].
    set (errs0 := push_if _ _ (push_if _ _ (push_if _ _ []))).
    pose proof (forEach_from_spec l 0 errs0) as Hloop.
    destruct (forEach_from 0 l errs0) as [e|errs']; cbn [ebind]; [discriminate|].
    intros [= <- <-]. destruct Hloop as [(added & -> & _) _].
    exists l, added. split; [exact Hp|reflexivity].
  - destruct (get_unreadable r "success" Hr) as [e ->]. discriminate.
Qed.

(** The line 'Missing or invalid "products" array' is never reported: when
    [products] is not an array the loop over it throws right after the line
    is pushed, and the [catch] block answers with a fresh list that holds a
    single "JSON parse error: ..." line. *)
Theorem validateResponse_never_reports_products (response : ToolResult) :
  ~ In invalid_products (errors (validateResponse response))
  /\ (forall e, validateResponse_try response = inl e ->
                validateResponse response
                = {| valid := false;
                     errors := ["JSON parse error: " ++ message e];
                     data := JNull |}).
Proof.
  split.
  - unfold validateResponse.
    destruct (validateResponse_try response) as [e|[errs result]] eqn:Htry.
    + cbn. intros [H|[]]. discriminate.
    + cbn [errors].
      destruct (validateResponse_try_inr _ _ _ Htry) as (l & added & _ & ->).
      intros Hin. apply in_app_or in Hin as [Hin|Hin].
      * destruct (typeof (field result "totalFound") =? "number")%string;
          destruct (typeof (field result "query") =? "string")%string;
          destruct (Js.truthy (field result "success"));
          cbn in Hin; intuition discriminate.
      * apply in_map_iff in Hin as (report & Heq & _). discriminate.
  - intros e He. unfold validateResponse. now rewrite He.
Qed.

Lemma validateResponse_never_reports_products_witness :
  let response := {| content := [Text (JObj [("success", JBool true);
                                             ("products", JStr "none")])];
                     isError := None |} in
  exists e,
    validateResponse_try response = inl e
    /\ validateResponse response
       = {| valid := false;
            errors := ["JSON parse error: " ++ message e];
            data := JNull |}.
Proof.
  cbv zeta. eexists. split; [reflexivity|].
  apply (proj2 (validateResponse_never_reports_products
                  {| content := [Text (JObj [("success", JBool true);
                                             ("products", JStr "none")])];
                     isError := None |})).
  reflexivity.
Defined.

(** What the validator makes of the server's two kinds of failure.  An
    output the handler flags with [isError] has no [products], so it is
    reported as a JSON parse error with no data, although its text parses.
    A failure envelope of a search gets exactly one line, the one about
    [success], and is handed back as data. *)
Theorem validateResponse_on_failures (env : Env) (name : string) (args : jsval)
        (w : World) (msg q : string) :
  (forall tr, fst (CallToolHandler env name args w) = inr tr ->
              isError tr = Some true ->
              exists m,
                validateResponse tr
                = {| valid := false;
                     errors := ["JSON parse error: " ++ m];
                     data := JNull |})
  /\ validateResponse {| content := [Text (envelope msg (JStr q))];
                         isError := None |}
     = {| valid := false;
          errors := [invalid_field "success"];
          data := envelope msg (JStr q) |}.
Proof.
  split; [|reflexivity].
  intros tr Htr Hflag.
  destruct (CallToolHandler_total env name args w) as (tr' & Htr' & Hshape).
  rewrite Htr in Htr'. injection Htr' as <-.
  destruct (Hshape Hflag) as [m Hm].
  unfold validateResponse, validateResponse_try, first_text. rewrite Hm.
  cbn. eexists. reflexivity.
Qed.

Lemma validateResponse_on_failures_witness :
  let env := Stub.backend Stub.token_ok Stub.refused Stub.refused in
  exists tr m,
    fst (CallToolHandler env "products.unknown" JNull (boot 1000)) = inr tr
    /\ isError tr = Some true
    /\ validateResponse tr
       = {| valid := false; errors := ["JSON parse error: " ++ m]; data := JNull |}.
Proof.
  cbv zeta.
  set (env := Stub.backend _ _ _).
  destruct (CallToolHandler env "products.unknown" JNull (boot 1000)) as [r w'] eqn:Hrun.
  assert (Hr : r = inr (unknown_tool "products.unknown"))
    by (vm_compute in Hrun; now injection Hrun as <- _).
  subst r.
  destruct (proj1 (validateResponse_on_failures env "products.unknown" JNull
                     (boot 1000) "" "")
              (unknown_tool "products.unknown")) as [m Hm].
  - now rewrite Hrun.
  - reflexivity.
  - exists (unknown_tool "products.unknown"), m. auto.
Defined.

(** Reading a property after a round trip through JSON: a property that
    held [undefined] is gone, any other has gone through the round trip. *)
Lemma field_reparse (ps : list (string * jsval)) (k : string) :
  NoDup (List.map fst ps) ->
  field (reparse (JObj ps)) k
  = match Js.lookup k ps with
    | Some JUndefined | None => JUndefined
    | Some x => reparse x
    end.
Proof.
  unfold field. cbn [reparse Js.get].
  induction ps as [|[k' x] ps IH]; intros Hnd; [reflexivity|].
  inversion Hnd as [|? ? Hnotin Hnd']; subst. specialize (IH Hnd').
  cbn [Js.lookup]. destruct (String.eqb_spec k k') as [->|Hk].
  - assert (Hnone : Js.lookup k' ps = None).
    { clear - Hnotin. induction ps as [|[k x'] ps IH]; [reflexivity|].
      cbn in *. destruct (String.eqb_spec k' k) as [->|_]; [tauto|].
      apply IH. tauto. }
    rewrite Hnone in IH.
    destruct x; cbn [Js.lookup]; rewrite ?String.eqb_refl; try reflexivity.
    exact IH.
  - destruct x; cbn [Js.lookup];
      try (destruct (String.eqb_spec k k'); [contradiction|]); exact IH.
Qed.

Ltac nodup_keys :=
  cbn [List.map fst];
  repeat (apply NoDup_cons;
          [cbn [In]; intros Hin;
           repeat (destruct Hin as [Hin|Hin]; [discriminate Hin|]); exact Hin|]);
  apply NoDup_nil.

Lemma reparse_array (l : list jsval) :
  reparse (JArr l)
  = JArr (List.map (fun x => match x with
                             | JUndefined => JNull
                             | _ => reparse x
                             end) l).
Proof. reflexivity. Qed.

(** The validator turns down every answer the literal search builds from a
    non-empty listing: each of its products has lost its price on the way,
    and a product without a number [estimatedPrice] fails the check. *)
Theorem validateResponse_rejects_listing_results (env : Env)
        (query limit body v : jsval) (l : list jsval) (w w1 w2 : World)
        (Hreq1 : makeBackendRequest env VECTOR_SEARCH
                   [("query", query); ("limit", Js.default limit (JNum 10))] w
                 = (inr body, w1))
        (Hnone : noVectorResults body = inr true)
        (Hreq2 : makeBackendRequest env PRODUCTS
                   [("search", query); ("limit", Js.default limit (JNum 10))] w1
                 = (inr (JArr l), w2))
        (Hsome : l <> [])
        (Hall : forallb readable l = true)
        (Hrun : fst (searchProducts env query limit w) = inr v) :
  field v "success" = JBool true
  /\ valid (validateResponse {| content := [Text v]; isError := None |}) = false.
Proof.
  destruct (searchProducts_listing_answers env query limit body l w w1 w2
              Hreq1 Hnone Hreq2 Hsome Hall) as (ps & Hv & HF).
  rewrite Hv in Hrun. injection Hrun as <-.
  split; [reflexivity|].
  destruct (validateResponse_verdict
              {| content := [Text (JObj [("success", JBool true);
                                         ("query", query);
                                         ("totalFound", Js.num_of_nat (List.length l));
                                         ("products", JArr ps)])];
                 isError := None |} _ [] eq_refl ltac:(discriminate)) as [-> _].
  unfold result_ok.
  rewrite (field_reparse _ "products"); [|nodup_keys].
  cbn [Js.lookup String.eqb Ascii.eqb Bool.eqb].
  destruct HF as [|x z l' ps' Hz _]; [contradiction|].
  unfold projected_twice in Hz.
  assert (Hbad : product_ok (match z with JUndefined => JNull | _ => reparse z end)
                 = false).
  { rewrite Hz. cbv iota. unfold product_ok.
    rewrite (field_reparse _ "estimatedPrice"); [|nodup_keys].
    cbn [Js.lookup String.eqb Ascii.eqb Bool.eqb typeof].
    apply andb_false_r. }
  rewrite reparse_array. cbn [List.map forallb]. rewrite Hbad.
  cbn [andb]. apply andb_false_r.
Qed.

Lemma validateResponse_rejects_listing_results_witness :
  let env := Stub.backend Stub.token_ok
               (HttpOk (Stub.vector_body (JBool true) (JNum 0) []))
               (HttpOk (JArr [Stub.product_X])) in
  exists v,
    fst (searchProducts env (JStr "X") (JNum 5) (boot 1000)) = inr v
    /\ field v "success" = JBool true
    /\ valid (validateResponse {| content := [Text v]; isError := None |}) = false.
Proof.
  cbv zeta.
  set (env := Stub.backend _ _ _).
  destruct (makeBackendRequest env VECTOR_SEARCH
              [("query", JStr "X"); ("limit", Js.default (JNum 5) (JNum 10))]
              (boot 1000)) as [r1 w1] eqn:Hreq1.
  assert (Hr1 : r1 = inr (Stub.vector_body (JBool true) (JNum 0) [])
                /\ w1 = snd (makeBackendRequest env VECTOR_SEARCH
                               [("query", JStr "X"); ("limit", JNum 5)] (boot 1000))).
  { vm_compute in Hreq1. injection Hreq1 as <- <-. split; reflexivity. }
  destruct Hr1 as [-> Hw1].
  destruct (makeBackendRequest env PRODUCTS
              [("search", JStr "X"); ("limit", Js.default (JNum 5) (JNum 10))]
              w1) as [r2 w2] eqn:Hreq2.
  assert (Hr2 : r2 = inr (JArr [Stub.product_X])).
  { rewrite Hw1 in Hreq2. vm_compute in Hreq2. now injection Hreq2 as <- _. }
  subst r2.
  destruct (searchProducts_returns env (JStr "X") (JNum 5) (boot 1000)) as [v Hv].
  exists v. split; [exact Hv|].
  exact (validateResponse_rejects_listing_results env (JStr "X") (JNum 5) _ v
           [Stub.product_X] _ _ _ Hreq1 eq_refl Hreq2 ltac:(discriminate)
           eq_refl Hv).
Defined.

(** ** The limit *)

Lemma literalResult_exact (query results : jsval) (l : list jsval) :
  readable results = true ->
  field results "products" = JArr l ->
  forallb readable l = true ->
  exists v ps,
    literalResult query results = inr v
    /\ Js.get v "products" = inr (JArr ps)
    /\ List.length ps = List.length l.
Proof.
  intros Hr Hl Hall. rewrite (literalResult_readable _ _ Hr), Hl.
  destruct (normalize_all l Hall) as (ps & Hps & HF).
  unfold Js.or at 1. cbn [Js.truthy Js.map]. rewrite Hps. cbn [ebind].
  eexists. exists ps. split; [reflexivity|]. split; [reflexivity|].
  symmetry. exact (Forall2_length HF).
Qed.

Lemma useListing_exact (env : Env) (query results : jsval) (l : list jsval) :
  l <> [] ->
  forallb readable l = true ->
  exists v ps,
    (results' <~ useListing env query results (JArr l) ;;
     literalResult query results')%js = inr v
    /\ Js.get v "products" = inr (JArr ps)
    /\ List.length ps = List.length l.
Proof.
  intros Hne Hall.
  destruct (fromListing_all l Hall) as (ys & zs & Hys & Hzs & HF).
  assert (Hpos : Js.is_pos (inject_Z (Z.of_nat (List.length l))) = true).
  { destruct l; [contradiction|]. unfold Js.is_pos. cbn [Qnum inject_Z].
    apply Z.ltb_lt. cbn [List.length]. lia. }
  unfold useListing, nonEmpty.
  cbn [Js.truthy Js.get String.eqb Ascii.eqb Bool.eqb ebind gt_zero Js.num_of_nat
       Js.num_of_Z Js.map].
  rewrite Hpos. cbn [ebind]. rewrite Hys. cbn [ebind].
  unfold literalResult.
  cbn [Js.get Js.lookup String.eqb Ascii.eqb Bool.eqb ebind].
  unfold Js.or at 1. cbn [Js.truthy Js.map]. rewrite Hzs. cbn [ebind].
  eexists. exists zs. split; [reflexivity|]. split; [reflexivity|].
  symmetry. exact (Forall2_length HF).
Qed.

(** The products of a literal search are none, or as many as the body of
    its own vector-search request lists, or as many as the body of its own
    listing request lists. *)
Lemma searchProducts_answering_body (env : Env) (query limit : jsval) (w : World) :
  let lim := Js.default limit (JNum 10) in
  let first := makeBackendRequest env VECTOR_SEARCH
                 [("query", query); ("limit", lim)] w in
  let second := makeBackendRequest env PRODUCTS
                  [("search", query); ("limit", lim)] (snd first) in
  exists v ps,
    fst (searchProducts env query limit w) = inr v
    /\ Js.get v "products" = inr (JArr ps)
    /\ (ps = []
        \/ (exists body, fst first = inr body /\ List.length ps = listed body)
        \/ (exists body nameResults,
               fst first = inr body
               /\ noVectorResults body = inr true
               /\ fst second = inr nameResults
               /\ List.length ps = listed nameResults)).
Proof.
  intros lim first second. subst second.
  rewrite searchProducts_eq. cbn zeta. fold lim. fold first.
  destruct first as [[e|results] w1]; cbn [fst snd].
  { exists (failure e query), []. cbn. auto. }
  destruct (noVectorResults results) as [e|[|]] eqn:Hnv.
  - exists (failure e query), []. cbn. auto.
  - destruct (makeBackendRequest env PRODUCTS _ w1) as [[e|nameResults] w2];
      cbn [fst].
    { exists (failure e query), []. cbn. auto. }
    destruct (settle_products
                (fun ps => ps = []
                           \/ (exists body, @inr exn jsval results = inr body
                                            /\ List.length ps = listed body)
                           \/ (exists body nr,
                                  @inr exn jsval results = inr body
                                  /\ noVectorResults body = inr true
                                  /\ @inr exn jsval nameResults = inr nr
                                  /\ List.length ps = listed nr))
                query
                (results' <~ useListing env query results nameResults ;;
                 literalResult query results')) as (ps & Hp & HP);
      [now left| |eexists; exists ps; split; [reflexivity|]; split; [exact Hp|exact HP]].
    intros v Hv.
    destruct (useListing env query results nameResults) as [e|r'] eqn:Hu;
      cbn in Hv; [discriminate|].
    destruct (literalResult_length _ _ _ Hv) as (ps & Hp & Hlen).
    exists ps. split; [exact Hp|].
    destruct Hlen as [->|Hlen]; [now left|right].
    destruct (useListing_inr _ _ _ _ _ Hu) as [->|Hl].
    + left. now exists results.
    + right. exists results, nameResults. repeat split; congruence.
  - destruct (settle_products
                (fun ps => ps = []
                           \/ (exists body, @inr exn jsval results = inr body
                                            /\ List.length ps = listed body)
                           \/ (exists body nr,
                                  @inr exn jsval results = inr body
                                  /\ noVectorResults body = inr true
                                  /\ fst (makeBackendRequest env PRODUCTS
                                            [("search", query); ("limit", lim)] w1)
                                     = inr nr
                                  /\ List.length ps = listed nr))
                query (literalResult query results)) as (ps & Hp & HP);
      [now left| |eexists; exists ps; split; [reflexivity|]; split; [exact Hp|exact HP]].
    intros v Hv.
    destruct (literalResult_length _ _ _ Hv) as (ps & Hp & Hlen).
    exists ps. split; [exact Hp|].
    destruct Hlen as [->|Hlen]; [now left|right; left]. now exists results.
Qed.

(** C7 (as the code has it).  [searchProducts] forwards [limit] to the
    backend: the GET requests of a search are its vector-search request and,
    when it falls back, its listing request, both carrying that [limit].  It
    never truncates: the products it returns are none, or exactly as many as
    the body that answered lists, the body of its vector-search request or
    the body of its listing request; when that body's products can all be
    read, every one of them is returned.  Hence, for [limit >= 1], the result
    has at most [limit] products whenever every body the backend returns
    to a GET carrying that [limit] lists at most [limit] products. *)
Theorem C7_products_length (env : Env) (query : jsval) (limit : Q) (w : World) :
  let ps1 := [("query", query); ("limit", JNum limit)] in
  let ps2 := [("search", query); ("limit", JNum limit)] in
  let first := makeBackendRequest env VECTOR_SEARCH ps1 w in
  let second := makeBackendRequest env PRODUCTS ps2 (snd first) in
  let w' := snd (searchProducts env query (JNum limit) w) in
  filter is_GET (sent w w') =
  (match fst (getAuthToken env w) with
   | inr token => [GET (BACKEND_URL env ++ VECTOR_SEARCH) token ps1]
   | inl _ => []
   end ++
   match first with
   | (inr body, w1) =>
       match noVectorResults body with
       | inr true =>
           match fst (getAuthToken env w1) with
           | inr token => [GET (BACKEND_URL env ++ PRODUCTS) token ps2]
           | inl _ => []
           end
       | _ => []
       end
   | (inl _, _) => []
   end)%list
  /\ exists v ps,
       fst (searchProducts env query (JNum limit) w) = inr v
       /\ Js.get v "products" = inr (JArr ps)
       /\ (ps = []
           \/ (exists body, fst first = inr body /\ List.length ps = listed body)
           \/ (exists body nameResults,
                  fst first = inr body
                  /\ noVectorResults body = inr true
                  /\ fst second = inr nameResults
                  /\ List.length ps = listed nameResults))
       /\ (forall body l,
              fst first = inr body ->
              noVectorResults body = inr false ->
              field body "products" = JArr l ->
              forallb readable l = true ->
              List.length ps = List.length l)
       /\ (forall body l,
              fst first = inr body ->
              noVectorResults body = inr true ->
              fst second = inr (JArr l) ->
              l <> [] ->
              forallb readable l = true ->
              List.length ps = List.length l)
       /\ ((1 <= limit)%Q ->
           (forall h url token params body dt,
               http env h (GET url token params) = (HttpOk body, dt) ->
               Js.lookup "limit" params = Some (JNum limit) ->
               (inject_Z (Z.of_nat (listed body)) <= limit)%Q) ->
           (inject_Z (Z.of_nat (List.length ps)) <= limit)%Q).
Proof.
  intros ps1 ps2 first second w'.
  split; [exact (searchProducts_gets env query (JNum limit) w)|].
  destruct (searchProducts_answering_body env query (JNum limit) w)
    as (v & ps & Hv & Hp & Hor).
  cbn zeta in Hor. cbn [Js.default] in Hor.
  change [("query", query); ("limit", JNum limit)] with ps1 in Hor.
  change [("search", query); ("limit", JNum limit)] with ps2 in Hor.
  fold first in Hor. fold second in Hor.
  exists v, ps. split; [exact Hv|]. split; [exact Hp|]. split; [exact Hor|].
  assert (Heq : searchProducts env query (JNum limit) w
                = match first with
                  | (inl e, w1) => (inr (failure e query), w1)
                  | (inr results, w1) =>
                      match noVectorResults results with
                      | inl e => (inr (failure e query), w1)
                      | inr false =>
                          (inr (settle query (literalResult query results)), w1)
                      | inr true =>
                          match makeBackendRequest env PRODUCTS ps2 w1 with
                          | (inl e, w2) => (inr (failure e query), w2)
                          | (inr nameResults, w2) =>
                              (inr (settle query
                                      (results' <~ useListing env query results
                                                     nameResults ;;
                                       literalResult query results')), w2)
                          end
                      end
                  end) by apply searchProducts_eq.
  split; [|split].
  - intros body l Hfirst Hnv Hl Hall.
    pose proof (noVectorResults_inr _ _ Hnv) as Hr.
    destruct (literalResult_exact query body l Hr Hl Hall)
      as (v' & ps' & Hv' & Hp' & Hlen).
    rewrite Heq in Hv. destruct first as [r1 w1]. cbn [fst] in Hfirst. subst r1.
    rewrite Hnv, Hv' in Hv. cbn in Hv. injection Hv as <-.
    rewrite Hp' in Hp. injection Hp as <-. exact Hlen.
  - intros body l Hfirst Hnv Hsecond Hne Hall.
    destruct (useListing_exact env query body l Hne Hall)
      as (v' & ps' & Hv' & Hp' & Hlen).
    rewrite Heq in Hv. subst second.
    destruct first as [r1 w1]. cbn [fst snd] in *. subst r1.
    rewrite Hnv in Hv.
    destruct (makeBackendRequest env PRODUCTS ps2 w1) as [r2 w2].
    cbn [fst] in Hsecond. subst r2.
    rewrite Hv' in Hv. cbn in Hv. injection Hv as <-.
    rewrite Hp' in Hp. injection Hp as <-. exact Hlen.
  - intros H1 Hhon.
    destruct Hor as [->|[(body & Hb & ->)|(body & nr & Hb & _ & Hnr & ->)]].
    + cbn. apply Qle_trans with (y := 1%Q); [discriminate|exact H1].
    + destruct first as [r1 w1] eqn:Hfirst. cbn [fst] in Hb. subst r1.
      apply makeBackendRequest_from_GET in Hfirst as (h & token & dt & Hh).
      apply (Hhon _ _ _ _ _ _ Hh). reflexivity.
    + subst second.
      destruct (makeBackendRequest env PRODUCTS ps2 (snd first)) as [r2 w2] eqn:Hsecond.
      cbn [fst] in Hnr. subst r2.
      apply makeBackendRequest_from_GET in Hsecond as (h & token & dt & Hh).
      apply (Hhon _ _ _ _ _ _ Hh). reflexivity.
Qed.

Lemma Stub_honours (login vector listing : jsval) (limit : Q) :
  (inject_Z (Z.of_nat (listed vector)) <= limit)%Q ->
  (inject_Z (Z.of_nat (listed listing)) <= limit)%Q ->
  forall h url token params body dt,
    http (Stub.backend (HttpOk login) (HttpOk vector) (HttpOk listing)) h
      (GET url token params) = (HttpOk body, dt) ->
    Js.lookup "limit" params = Some (JNum limit) ->
    (inject_Z (Z.of_nat (listed body)) <= limit)%Q.
Proof.
  intros H2 H3 h url token params body dt. cbn.
  destruct (_ =? _)%string; now intros [= <- _].
Qed.

(** C7 with [limit = 5] against a backend whose bodies list one product:
    both GET requests carry the limit, and the one listed product is
    returned. *)
Lemma C7_products_length_witness :
  let env := Stub.backend Stub.token_ok
               (HttpOk (Stub.vector_body (JBool true) (JNum 0) []))
               (HttpOk (JArr [Stub.product_X])) in
  let w := boot 1000 in
  (1 <= 5)%Q
  /\ filter is_GET (sent w (snd (searchProducts env (JStr "X") (JNum 5) w)))
     = [GET (BACKEND_URL env ++ VECTOR_SEARCH) (JStr "jwt-1")
          [("query", JStr "X"); ("limit", JNum 5)];
        GET (BACKEND_URL env ++ PRODUCTS) (JStr "jwt-1")
          [("search", JStr "X"); ("limit", JNum 5)]]
  /\ exists v ps,
       fst (searchProducts env (JStr "X") (JNum 5) w) = inr v
       /\ Js.get v "products" = inr (JArr ps)
       /\ List.length ps = 1%nat
       /\ (inject_Z (Z.of_nat (List.length ps)) <= 5)%Q.
Proof.
  cbv zeta.
  set (env := Stub.backend _ _ _).
  assert (H1 : (1 <= 5)%Q) by discriminate.
  split; [exact H1|].
  destruct (C7_products_length env (JStr "X") 5 (boot 1000))
    as (Hgets & v & ps & Hv & Hp & _ & _ & Hlisting & Hle).
  split; [rewrite Hgets; reflexivity|].
  exists v, ps. split; [exact Hv|]. split; [exact Hp|]. split.
  - apply (Hlisting (Stub.vector_body (JBool true) (JNum 0) []) [Stub.product_X]);
      [reflexivity|reflexivity|reflexivity|discriminate|reflexivity].
  - apply Hle; [exact H1|].
    apply Stub_honours; discriminate.
Defined.
